(** * Google Sheets export of survey data: model and verified properties

    Shallow embedding of [onadata/libs/utils/google_sheets.py]:
    the helper [update_row], the class [SheetsExportBuilder] with its
    methods [export], [export_flattened], [export_tabular],
    [_insert_xlsform], [_insert_data], [_insert_headers],
    [_create_worksheets] and [write_row].

    The remote spreadsheet is an explicit store of worksheets together with
    the chronological list of mutating API calls issued against it.  The
    methods of the builder run in a small state-and-exception monad over
    that store and over the two dictionaries the class keeps
    ([worksheets], [worksheet_titles]). *)

From stdpp Require Import base strings gmap list.
From Stdlib Require Import ZArith Lia Ascii.

(** ** Python values and strings *)

(** The scalar values that end up in spreadsheet cells. *)
Inductive value :=
  | VNone
  | VStr (s : string)
  | VInt (z : Z).

#[global] Instance value_eq_dec : EqDecision value.
Proof. solve_decision. Defined.

(** A Python [dict] with string keys holding one row of data. *)
Abbreviation row := (gmap string value).

(** [d.get(k)]: the value stored under [k], or [None]. *)
Definition dict_get (d : row) (k : string) : value :=
  default VNone (d !! k).

Module PyStr.

(** [s.split(sep)] for a separator of one character. *)
Fixpoint split (sep : Ascii.ascii) (s : string) : list string :=
  match s with
  | EmptyString => [EmptyString]
  | String c rest =>
      if Ascii.eqb c sep then EmptyString :: split sep rest
      else match split sep rest with
           | piece :: more => String c piece :: more
           | [] => [String c EmptyString]
           end
  end.

(** [sep.join(pieces)]. *)
Fixpoint join (sep : string) (pieces : list string) : string :=
  match pieces with
  | [] => EmptyString
  | piece :: more =>
      match more with
      | [] => piece
      | _ :: _ => piece +:+ sep +:+ join sep more
      end
  end.

(** Character-wise replacement, the reading of
    ["_".join(name.split("/"))] that the title rule is stated with. *)
Fixpoint replace_char (old new : Ascii.ascii) (s : string) : string :=
  match s with
  | EmptyString => EmptyString
  | String c rest =>
      String (if Ascii.eqb c old then new else c) (replace_char old new rest)
  end.

(** [enumerate(l, start)]. *)
Fixpoint enumerate {A} (start : nat) (l : list A) : list (nat * A) :=
  match l with
  | [] => []
  | x :: rest => (start, x) :: enumerate (S start) rest
  end.

End PyStr.

(** ** The worksheet objects of the spreadsheet client

    A worksheet has a title, a grid size and cell contents addressed by
    (row, column), both counted from 1.  The calls below are the ones the
    module issues on a worksheet; each mutating call is recorded. *)

Record Cell := mkCell { c_row : nat; c_col : nat; c_value : value }.

Record Worksheet := mkWorksheet {
  title : string;
  row_count : nat;
  col_count : nat;
  cells : gmap (nat * nat) value
}.

Inductive ws_call :=
  | Resize (cols : nat)
  | AddRows (n : nat)
  | UpdateCells (cell_list : list Cell).

Module Gspread.

(** [worksheet.resize(cols=n)]. *)
Definition resize (cols : nat) (ws : Worksheet) : Worksheet :=
  mkWorksheet (title ws) (row_count ws) cols (cells ws).

(** [worksheet.add_rows(n)]. *)
Definition add_rows (n : nat) (ws : Worksheet) : Worksheet :=
  mkWorksheet (title ws) (row_count ws + n) (col_count ws) (cells ws).

(** [worksheet.cell(row, col)]: a cell object carrying the current
    content; a cell never written reads as the empty string. *)
Definition cell (ws : Worksheet) (r c : nat) : Cell :=
  mkCell r c (default (VStr ""%string) (cells ws !! (r, c))).

(** [cell.value = v]. *)
Definition set_value (c : Cell) (v : value) : Cell :=
  mkCell (c_row c) (c_col c) v.

Definition store_cell (m : gmap (nat * nat) value) (c : Cell)
  : gmap (nat * nat) value :=
  <[(c_row c, c_col c) := c_value c]> m.

(** [worksheet.update_cells(cell_list)]: one batch, applied in list
    order. *)
Definition update_cells (cell_list : list Cell) (ws : Worksheet) : Worksheet :=
  mkWorksheet (title ws) (row_count ws) (col_count ws)
              (foldl store_cell (cells ws) cell_list).

End Gspread.

(** [update_row(worksheet, index, values)], lines 20-37.  Returns the
    worksheet after the call and the mutating calls issued, in order. *)
Definition update_row (worksheet : Worksheet) (index : nat) (values : list value)
  : Worksheet * list ws_call :=
  let data_width := length values in
  let '(worksheet, resized) :=
    if col_count worksheet <? data_width
    then (Gspread.resize data_width worksheet, [Resize data_width])
    else (worksheet, []) in
  let cell_list :=
    map (fun '(i, value) => Gspread.set_value (Gspread.cell worksheet index i) value)
        (PyStr.enumerate 1 values) in
  (Gspread.update_cells cell_list worksheet, resized ++ [UpdateCells cell_list]).

(** [worksheet.append_row(values)] of the client library: one row is added
    at the bottom and filled the way [update_row] fills a row. *)
Definition append_row (worksheet : Worksheet) (values : list value)
  : Worksheet * list ws_call :=
  let worksheet := Gspread.add_rows 1 worksheet in
  let new_row := row_count worksheet in
  let '(worksheet, calls) := update_row worksheet new_row values in
  (worksheet, AddRows 1 :: calls).


(** ** The remote spreadsheet and the builder's own state *)

(** The mutating calls the module issues, in the order it issues them.
    A worksheet is named by the handle [add_worksheet] returned for it. *)
Inductive event :=
  | Login (token : string)
  | NewSpreadsheet (spreadsheet_title : string)
  | AddServiceAccount
  | AddWorksheet (sheet_title : string) (rows cols : nat)
  | OnWorksheet (ws : nat) (call : ws_call)
  | GetWorksheetsFeed
  | DelWorksheet (ws : nat).

(** [spreadsheet] and [next_id] are the spreadsheet held in
    [self.spreadsheet]; [worksheets] and [worksheet_titles] are the two
    dictionaries of the class.  They are class attributes that [__init__]
    never rebinds, so a call starts from whatever they hold. *)
Record self := mkSelf {
  spreadsheet : gmap nat Worksheet;
  next_id : nat;
  log : list event;
  worksheets : gmap string nat;
  worksheet_titles : gmap string string
}.

(** A computation either returns a value or raises; the state reached is
    kept in both cases, as the calls already made are not undone. *)
Definition M (A : Type) : Type := self -> option A * self.

#[global] Instance M_ret : MRet M := fun A a st => (Some a, st).

#[global] Instance M_bind : MBind M := fun A B f m st =>
  match m st with
  | (Some a, st') => f a st'
  | (None, st') => (None, st')
  end.

Definition raise {A} : M A := fun st => (None, st).

Definition gets {A} (f : self -> A) : M A := fun st => (Some (f st), st).

Definition emit (e : event) : M unit := fun st =>
  (Some tt, mkSelf (spreadsheet st) (next_id st) (log st ++ [e])
                   (worksheets st) (worksheet_titles st)).

(** [for x in l: body(x)]. *)
Fixpoint for_each {A} (l : list A) (body : A -> M unit) : M unit :=
  match l with
  | [] => mret tt
  | x :: rest => body x ;; for_each rest body
  end.

(** [for x in l: body(x)] where the body changes the dict [x] in place:
    the dicts are returned as the loop leaves them. *)
Fixpoint for_each_changed {A} (l : list A) (body : A -> M A) : M (list A) :=
  match l with
  | [] => mret []
  | x :: rest =>
      x ← body x;
      rest ← for_each_changed rest body;
      mret (x :: rest)
  end.

(** [for x in l: body(x)] where the body changes the object [obj], which
    every turn of the loop reads: each turn starts from the object as the
    turn before left it. *)
Fixpoint for_each_on {A B} (l : list A) (obj : B) (body : B -> A -> M B) : M B :=
  match l with
  | [] => mret obj
  | x :: rest => obj ← body obj x; for_each_on rest obj body
  end.

(** [self.worksheets[section_name] = ws]. *)
Definition set_worksheet (section_name : string) (ws : nat) : M unit := fun st =>
  (Some tt, mkSelf (spreadsheet st) (next_id st) (log st)
                   (<[section_name := ws]> (worksheets st)) (worksheet_titles st)).

(** [self.worksheet_titles[section_name] = t]. *)
Definition set_worksheet_title (section_name t : string) : M unit := fun st =>
  (Some tt, mkSelf (spreadsheet st) (next_id st) (log st)
                   (worksheets st) (<[section_name := t]> (worksheet_titles st))).

(** [self.worksheets[section_name]], a [KeyError] when absent. *)
Definition get_worksheet (section_name : string) : M nat := fun st =>
  match worksheets st !! section_name with
  | Some ws => (Some ws, st)
  | None => (None, st)
  end.

(** [d.values()]. *)
Definition dict_values {V} (d : gmap string V) : list V := (map_to_list d).*2.

Module Spreadsheet.

(** [spreadsheet.add_worksheet(title, rows, cols)]. *)
Definition add_worksheet (sheet_title : string) (rows cols : nat) : M nat := fun st =>
  (Some (next_id st),
   mkSelf (<[next_id st := mkWorksheet sheet_title rows cols ∅]> (spreadsheet st))
          (S (next_id st))
          (log st ++ [AddWorksheet sheet_title rows cols])
          (worksheets st) (worksheet_titles st)).

(** A call on the worksheet object [ws]; it raises when the worksheet is
    no longer part of the spreadsheet. *)
Definition on_worksheet (ws : nat) (call : Worksheet -> Worksheet * list ws_call)
  : M unit := fun st =>
  match spreadsheet st !! ws with
  | Some w =>
      let '(w', calls) := call w in
      (Some tt, mkSelf (<[ws := w']> (spreadsheet st)) (next_id st)
                       (log st ++ map (OnWorksheet ws) calls)
                       (worksheets st) (worksheet_titles st))
  | None => (None, st)
  end.

(** The worksheets feed: every worksheet of the spreadsheet, in sheet
    order. *)
Definition feed (st : self) : list (nat * Worksheet) :=
  omap (fun ws => pair ws <$> spreadsheet st !! ws) (seq 0 (next_id st)).

(** [client.get_worksheets_feed(spreadsheet)]. *)
Definition get_worksheets_feed : M (list (nat * Worksheet)) :=
  emit GetWorksheetsFeed ;; gets feed.

(** [client.del_worksheet(ws)]. *)
Definition del_worksheet (ws : nat) : M unit := fun st =>
  (Some tt, mkSelf (delete ws (spreadsheet st)) (next_id st)
                   (log st ++ [DelWorksheet ws])
                   (worksheets st) (worksheet_titles st)).

(** [client.new(title)]: a new spreadsheet, holding the one worksheet
    [blank] that the service puts into every new spreadsheet. *)
Definition new (spreadsheet_title : string) (blank : Worksheet) : M unit := fun st =>
  (Some tt, mkSelf {[ 0 := blank ]} 1 (log st ++ [NewSpreadsheet spreadsheet_title])
                   (worksheets st) (worksheet_titles st)).

End Spreadsheet.

(** ** What the module takes from [ExportBuilder] and [common_tags] *)

Record element := mkElement { el_title : string; xpath : string }.

Record section := mkSection { name : string; elements : list element }.

(** One entry of a joined export: the row of the main section is a
    [dict], the rows of a repeat are a [list] of [dict]s. *)
Inductive section_rows :=
  | RowDict (d : row)
  | RowList (children : list row).

(** The base class [ExportBuilder] and the constants of [common_tags] are
    defined outside this module; the module only calls them, so they are
    parameters of the model. *)
Record ExportBuilder := mkExportBuilder {
  record : Type;
  indices : Type;
  no_indices : indices;
  sections : list section;
  survey_name : string;
  EXTRA_FIELDS : list string;
  INDEX : string;
  PARENT_INDEX : string;
  PARENT_TABLE_NAME : string;
  get_valid_sheet_name : string -> list string -> string;
  pre_process_row : row -> section -> row;
  dict_to_joined_export :
    record -> nat -> indices -> string -> gmap string section_rows * indices;
  decode_mongo_encoded_section_names :
    gmap string section_rows -> gmap string section_rows
}.

(** Modelled from the spec: [ExportBuilder.get_valid_sheet_name] is not
    part of this module; the spec describes its effect as deduplication
    against the titles already generated, that is, the name it returns is
    none of the existing names. *)
Definition deduplicates (gvsn : string -> list string -> string) : Prop :=
  forall desired existing, gvsn desired existing ∉ existing.

(** The configuration read by [__init__]. *)
Record Config := mkConfig {
  spreadsheet_title : string;
  google_token : string;
  flatten_repeated_fields : bool;
  export_xlsform : bool
}.

(** A sheet of the XLSForm workbook as the reader presents it. *)
Record xl_sheet := mkXlSheet {
  sh_name : string;
  nrows : nat;
  ncols : nat;
  cell_value : nat -> nat -> value
}.

(** ** class SheetsExportBuilder *)

Module SheetsExportBuilder.

Section Methods.

Context (eb : ExportBuilder) (config : Config).

Definition FLATTENED_SHEET_TITLE : string := "raw".

(** [worksheet_titles.get(key)] for a key read out of a row. *)
Definition titles_get (worksheet_titles : gmap string string) (key : value) : value :=
  match key with
  | VStr s =>
      match worksheet_titles !! s with
      | Some t => VStr t
      | None => VNone
      end
  | _ => VNone
  end.

(** The row of values [write_row] hands to [append_row]. *)
Definition row_values (data : row) (fields : list string)
    (worksheet_titles : gmap string string) : list value :=
  let data :=
    <[PARENT_TABLE_NAME eb :=
        titles_get worksheet_titles (dict_get data (PARENT_TABLE_NAME eb))]> data in
  map (dict_get data) fields.

(** [write_row(cls, data, worksheet, fields, worksheet_titles)],
    lines 289-294.  The assignment to [data[PARENT_TABLE_NAME]] changes
    the caller's dict: the dict is returned as the call leaves it. *)
Definition write_row (data : row) (worksheet : nat) (fields : list string)
    (worksheet_titles : gmap string string) : M row :=
  let data :=
    <[PARENT_TABLE_NAME eb :=
        titles_get worksheet_titles (dict_get data (PARENT_TABLE_NAME eb))]> data in
  Spreadsheet.on_worksheet worksheet
    (fun w => append_row w (map (dict_get data) fields)) ;;
  mret data.

(** The title [_create_worksheets] asks for: ["_".join(name.split("/"))]. *)
Definition desired_title (section_name : string) : string :=
  PyStr.join "_" (PyStr.split ("/" : Ascii.ascii) section_name).

(** The body of the loop of [_create_worksheets]. *)
Definition create_worksheet (section : section) : M unit :=
  let section_name := name section in
  titles ← gets worksheet_titles;
  let work_sheet_title :=
    get_valid_sheet_name eb (desired_title section_name) (dict_values titles) in
  set_worksheet_title section_name work_sheet_title ;;
  let num_cols := length (elements section) + length (EXTRA_FIELDS eb) in
  ws ← Spreadsheet.add_worksheet work_sheet_title 1 num_cols;
  set_worksheet section_name ws.

(** [_create_worksheets(self)], lines 277-287. *)
Definition _create_worksheets : M unit :=
  for_each (sections eb) create_worksheet.

(** The header row of a section. *)
Definition headers (section : section) : list value :=
  map VStr (map el_title (elements section) ++ EXTRA_FIELDS eb).

Definition insert_header (section : section) : M unit :=
  let section_name := name section in
  ws ← get_worksheet section_name;
  Spreadsheet.on_worksheet ws (fun w => update_row w 1 (headers section)).

(** [_insert_headers(self)], lines 266-275. *)
Definition _insert_headers : M unit :=
  for_each (sections eb) insert_header.

(** The field list of a section. *)
Definition fields (section : section) : list string :=
  map xpath (elements section) ++ EXTRA_FIELDS eb.

(** [output[section_name][key] = v]: a [KeyError] when the section is
    absent, a [TypeError] when its entry is a list. *)
Definition set_item (output : gmap string section_rows)
    (section_name key : string) (v : value) : M (gmap string section_rows) :=
  match output !! section_name with
  | Some (RowDict d) => mret (<[section_name := RowDict (<[key := v]> d)]> output)
  | _ => raise
  end.

(** One call of [write_row] by [_insert_data].  [pre_process_row] of the
    base class works on the dict it is given and returns that same dict,
    so the dict [write_row] assigns to is the one the joined export
    holds: it is returned as the call leaves it. *)
Definition write_section_row (section : section) (ws : nat) (r : row) : M row :=
  titles ← gets worksheet_titles;
  write_row (pre_process_row eb r section) ws (fields section) titles.

(** The body of the inner loop of [_insert_data], lines 245-264: the
    joined export is returned with the dicts of the section as the calls
    of [write_row] left them. *)
Definition write_section (output : gmap string section_rows) (section : section)
  : M (gmap string section_rows) :=
  let section_name := name section in
  ws ← get_worksheet section_name;
  match output !! section_name with
  | Some (RowDict r) =>
      r ← write_section_row section ws r;
      mret (<[section_name := RowDict r]> output)
  | Some (RowList rs) =>
      rs ← for_each_changed rs (write_section_row section ws);
      mret (<[section_name := RowList rs]> output)
  | None => mret output
  end.

(** The outer loop of [_insert_data] from record number [index] on, with
    the dictionary [indices] that the joined export updates. *)
Fixpoint insert_data_from (index : nat) (idx : indices eb) (data : list (record eb))
  : M unit :=
  match data with
  | [] => mret tt
  | d :: rest =>
      let '(joined_export, idx) :=
        dict_to_joined_export eb d index idx (survey_name eb) in
      let output := decode_mongo_encoded_section_names eb joined_export in
      let output :=
        match output !! survey_name eb with
        | Some _ => output
        | None => <[survey_name eb := RowDict ∅]> output
        end in
      output ← set_item output (survey_name eb) (INDEX eb) (VInt (Z.of_nat index));
      output ← set_item output (survey_name eb) (PARENT_INDEX eb) (VInt (-1));
      for_each_on (sections eb) output write_section ;;
      insert_data_from (S index) idx rest
  end.

(** [_insert_data(self, data)], lines 230-264. *)
Definition _insert_data (data : list (record eb)) : M unit :=
  insert_data_from 1 (no_indices eb) data.

(** [export_tabular(self, path, data)], lines 189-197. *)
Definition export_tabular (data : list (record eb)) : M unit :=
  _create_worksheets ;;
  _insert_headers ;;
  _insert_data data.

(** [[x if x != 'n/a' else '' for x in row]]. *)
Definition filter_na (x : string) : string :=
  if decide (x ≠ "n/a") then x else "".

(** [export_flattened], lines 161-187.  [csv] is what the CSV reader yields
    from the file the flattened-CSV builder wrote at [path]. *)
Definition export_flattened (csv : list (list string)) : M unit :=
  let rows := map (map filter_na) csv in
  match rows with
  | [] => mret tt
  | first :: _ =>
      let num_rows := length rows in
      let num_cols := length first in
      ws ← Spreadsheet.add_worksheet FLATTENED_SHEET_TITLE num_rows num_cols;
      for_each (PyStr.enumerate 1 rows) (fun '(index, values) =>
        Spreadsheet.on_worksheet ws (fun w => update_row w index (map VStr values)))
  end.

(** [workbook.sheet_by_name(name)]. *)
Definition sheet_by_name (workbook : list xl_sheet) (wksht_nm : string)
  : option xl_sheet :=
  find (fun s => bool_decide (sh_name s = wksht_nm)) workbook.

Definition copy_sheet (workbook : list xl_sheet) (wksht_nm : string) : M unit :=
  match sheet_by_name workbook wksht_nm with
  | None => raise
  | Some source_worksheet =>
      let num_cols := ncols source_worksheet in
      let num_rows := nrows source_worksheet in
      destination_worksheet ←
        Spreadsheet.add_worksheet wksht_nm num_rows num_cols;
      for_each (seq 0 num_rows) (fun r =>
        Spreadsheet.on_worksheet destination_worksheet (fun w =>
          update_row w (r + 1)
            (map (cell_value source_worksheet r) (seq 0 num_cols))))
  end.

(** [_insert_xlsform(self)], lines 199-228.  [xlsform] is [None] when the
    form has no XLS file in storage, else the workbook read from it. *)
Definition _insert_xlsform (xlsform : option (list xl_sheet)) : M unit :=
  match xlsform with
  | None => mret tt
  | Some workbook => for_each (map sh_name workbook) (copy_sheet workbook)
  end.

(** The loop at the end of [export], lines 155-159. *)
Definition delete_default_worksheet : M unit :=
  feed ← Spreadsheet.get_worksheets_feed;
  for_each feed (fun '(ws, w) =>
    if decide (title w = "Sheet1") then Spreadsheet.del_worksheet ws else mret tt).

(** [export(self, path, data, username, id_string, filter_query)],
    lines 131-159. *)
Definition export (blank : Worksheet) (csv : list (list string))
    (data : list (record eb)) (xlsform : option (list xl_sheet)) : M unit :=
  emit (Login (google_token config)) ;;
  Spreadsheet.new (spreadsheet_title config) blank ;;
  emit AddServiceAccount ;;
  (if flatten_repeated_fields config
   then export_flattened csv
   else export_tabular data) ;;
  (if export_xlsform config then _insert_xlsform xlsform else mret tt) ;;
  delete_default_worksheet.

End Methods.

End SheetsExportBuilder.

(** ** A concrete form, used to run the model *)

Module Demo.

Definition max_length (names : list string) : nat :=
  foldr (fun s n => Nat.max (String.length s) n) 0 names.

Fixpoint ones (n : nat) : string :=
  match n with
  | O => EmptyString
  | S n => String "1" (ones n)
  end.

(** Modelled from the spec: a deduplication in the sense of
    [deduplicates] standing in for [ExportBuilder.get_valid_sheet_name],
    which is not part of this module.  An unused name is kept; a used one
    gets a suffix that makes it longer than every existing name. *)
Definition valid_sheet_name (desired : string) (existing : list string) : string :=
  if decide (desired ∈ existing)
  then desired +:+ ones (S (max_length existing))
  else desired.

(** A submission of the demo form: the fields of the main section and the
    rows of its one repeat group. *)
Definition submission : Type := row * list row.

Definition joined (d : submission) (index : nat) (idx : unit) (nm : string)
  : gmap string section_rows * unit :=
  (<[nm := RowDict d.1]>
     {[ "household/members" :=
          RowList (map (fun c => <["_parent_table_name" := VStr nm]>
                                   (<["_parent_index" := VInt (Z.of_nat index)]> c))
                       d.2) ]},
   idx).

Definition main_section (nm : string) : section :=
  mkSection nm [mkElement "Name" "name"; mkElement "Village" "village"].

Definition members : section :=
  mkSection "household/members" [mkElement "Age" "household/members/age"].

(** The form, under the name [nm]. *)
Definition builder_named (nm : string) : ExportBuilder :=
  mkExportBuilder submission unit tt [main_section nm; members] nm
    ["_index"; "_parent_table_name"; "_parent_index"]
    "_index" "_parent_index" "_parent_table_name"
    valid_sheet_name (fun r _ => r) joined (fun output => output).

Definition builder : ExportBuilder := builder_named "census".

Definition blank : Worksheet := mkWorksheet "Sheet1" 100 20 ∅.

Definition fresh : self := mkSelf ∅ 0 [] ∅ ∅.

Definition alice : submission :=
  ({[ "name" := VStr "Alice"; "village" := VStr "Kano" ]},
   [ {[ "household/members/age" := VInt 31 ]};
     {[ "household/members/age" := VInt 4 ]} ]).

Definition sheet_named (nm : string) : xl_sheet :=
  mkXlSheet nm 2 2 (fun r c => VInt (Z.of_nat (10 * r + c))).

Definition survey_sheet : xl_sheet := sheet_named "survey".

(** The usual XLSForm workbook. *)
Definition xlsform : list xl_sheet :=
  [sheet_named "survey"; sheet_named "choices"; sheet_named "settings"].

Definition tabular : Config := mkConfig "census 2014" "token" false true.

Definition flattened : Config := mkConfig "census 2014" "token" true true.

End Demo.

(** ** Vocabulary of the statements *)

(** The cells of row [index] holding [values] from column 1 on. *)
Definition row_cells (index : nat) (values : list value) : list Cell :=
  imap (fun i v => mkCell index (S i) v) values.


(** The titles of the worksheets created by a run, in creation order. *)
Definition created_titles (evs : list event) : list string :=
  omap (fun e => match e with
                 | AddWorksheet t _ _ => Some t
                 | _ => None
                 end) evs.

(** The batched cell updates of a run, in order, each with the handle of
    the worksheet it was sent to. *)
Definition updates (evs : list event) : list (nat * list Cell) :=
  omap (fun e => match e with
                 | OnWorksheet ws (UpdateCells cell_list) => Some (ws, cell_list)
                 | _ => None
                 end) evs.

(** The number of spreadsheets created by a run. *)
Definition spreadsheets_created (evs : list event) : nat :=
  length (omap (fun e => match e with
                         | NewSpreadsheet t => Some t
                         | _ => None
                         end) evs).

(** The steps of an export, as classes of calls. *)
Definition is_add (e : event) : Prop :=
  match e with
  | AddWorksheet _ _ _ => True
  | _ => False
  end.

(** A call that fills cells of rows satisfying [P], widening the sheet
    when needed. *)
Definition writes_rows (P : nat -> Prop) (e : event) : Prop :=
  match e with
  | OnWorksheet _ (Resize _) => True
  | OnWorksheet _ (UpdateCells cell_list) => Forall (fun c => P (c_row c)) cell_list
  | _ => False
  end.

(** Writing a header row: only row 1 is filled. *)
Definition is_header_write (e : event) : Prop :=
  writes_rows (fun r => r = 1) e.

(** Writing a data row: a row is added, or a row below the first is
    filled. *)
Definition is_data_write (e : event) : Prop :=
  match e with
  | OnWorksheet _ (AddRows _) => True
  | _ => writes_rows (fun r => 2 <= r) e
  end.

(** Copying an XLSForm sheet: a worksheet is created or filled. *)
Definition is_xlsform_copy (e : event) : Prop :=
  match e with
  | AddWorksheet _ _ _ => True
  | OnWorksheet _ (Resize _) => True
  | OnWorksheet _ (UpdateCells _) => True
  | _ => False
  end.

Definition is_delete (e : event) : Prop :=
  match e with
  | DelWorksheet _ => True
  | _ => False
  end.

(** The handles of the worksheets of a feed that carry the title of the
    default worksheet. *)
Definition default_sheets (feed : list (nat * Worksheet)) : list nat :=
  (filter (fun p => title p.2 = "Sheet1"%string) feed).*1.

(** The grid width [_create_worksheets] gives the worksheet of a section. *)
Definition num_cols (eb : ExportBuilder) (s : section) : nat :=
  length (elements s) + length (EXTRA_FIELDS eb).

(** The titles [_create_worksheets] generates for the sections [ss] when
    the dictionary [worksheet_titles] holds [m] at the start: each title
    is [get_valid_sheet_name] of the section name with slashes turned into
    underscores, against the values the dictionary holds at that
    moment. *)
Fixpoint generated_titles (eb : ExportBuilder) (m : gmap string string)
    (ss : list section) : list string :=
  match ss with
  | [] => []
  | s :: rest =>
      let t := get_valid_sheet_name eb
                 (PyStr.replace_char "/" "_" (name s)) (dict_values m) in
      t :: generated_titles eb (<[name s := t]> m) rest
  end.

(** The dictionary [worksheet_titles] after these titles were recorded. *)
Fixpoint titles_after (eb : ExportBuilder) (m : gmap string string)
    (ss : list section) : gmap string string :=
  match ss with
  | [] => m
  | s :: rest =>
      let t := get_valid_sheet_name eb
                 (PyStr.replace_char "/" "_" (name s)) (dict_values m) in
      titles_after eb (<[name s := t]> m) rest
  end.

(** Every section has a worksheet on record that is part of the
    spreadsheet and has at least its header row. *)
Definition ready (ss : list section) (st : self) : Prop :=
  forall s, s ∈ ss ->
    exists h w, worksheets st !! name s = Some h
                /\ spreadsheet st !! h = Some w
                /\ 1 <= row_count w.

(** What the calls on a worksheet leave in place: its title and the rows
    it had. *)
Definition kept (w w' : Worksheet) : Prop :=
  title w' = title w /\ row_count w <= row_count w'.

(** What appending rows leaves in place: moreover the contents of the rows
    the worksheet had. *)
Definition grown (w w' : Worksheet) : Prop :=
  kept w w'
  /\ forall r c, r <= row_count w -> cells w' !! (r, c) = cells w !! (r, c).

(** A run that only issues calls on existing worksheets, all of them in
    the class [P], each worksheet ending up related by [K] to what it
    was. *)
Definition evolves (K : Worksheet -> Worksheet -> Prop) (P : event -> Prop)
    (st st' : self) : Prop :=
  worksheets st' = worksheets st
  /\ worksheet_titles st' = worksheet_titles st
  /\ next_id st' = next_id st
  /\ (forall h w, spreadsheet st !! h = Some w ->
        exists w', spreadsheet st' !! h = Some w' /\ K w w')
  /\ exists evs, log st' = log st ++ evs /\ Forall P evs.

(** The calls by which [_insert_data] appends the rows of the sections:
    a row is added to the worksheet on record for a section and filled
    with the values [write_row] computes from a pre-processed row of that
    section. *)
Inductive data_row_call (eb : ExportBuilder) (wsmap : gmap string nat)
    (titles : gmap string string) : event -> Prop :=
  | drc_add s h :
      s ∈ sections eb -> wsmap !! name s = Some h ->
      data_row_call eb wsmap titles (OnWorksheet h (AddRows 1))
  | drc_resize s h n :
      s ∈ sections eb -> wsmap !! name s = Some h ->
      data_row_call eb wsmap titles (OnWorksheet h (Resize n))
  | drc_fill s h r d :
      s ∈ sections eb -> wsmap !! name s = Some h -> 2 <= r ->
      data_row_call eb wsmap titles
        (OnWorksheet h
           (UpdateCells
              (row_cells r
                 (SheetsExportBuilder.row_values eb (pre_process_row eb d s)
                    (SheetsExportBuilder.fields eb s) titles)))).

(** The joined export of every record keeps a [dict] (or nothing) under
    the name of the survey, as [_insert_data] expects when it attaches the
    index fields. *)
Fixpoint main_rows_are_dicts (eb : ExportBuilder) (index : nat) (idx : indices eb)
    (data : list (record eb)) : Prop :=
  match data with
  | [] => True
  | d :: rest =>
      let joined := dict_to_joined_export eb d index idx (survey_name eb) in
      (forall children,
         decode_mongo_encoded_section_names eb joined.1 !! survey_name eb
         <> Some (RowList children))
      /\ main_rows_are_dicts eb (S index) joined.2 rest
  end.

(** The state once the client is logged in, the spreadsheet created and
    shared with the service account. *)
Definition opened (config : Config) (blank : Worksheet) (st : self) : self :=
  mkSelf {[ 0 := blank ]} 1
         (((log st ++ [Login (google_token config)])
             ++ [NewSpreadsheet (spreadsheet_title config)])
            ++ [AddServiceAccount])
         (worksheets st) (worksheet_titles st).

(** The calls a run added to the log. *)
Definition new_events (st st' : self) : list event :=
  drop (length (log st)) (log st').

(** A call that adds a row to a worksheet. *)
Definition adds_row (e : event) : Prop :=
  match e with
  | OnWorksheet _ (AddRows _) => True
  | _ => False
  end.

(** The titles of the worksheets an export creates for the survey data:
    the one flattened worksheet, or the worksheets of the sections. *)
Definition survey_titles (eb : ExportBuilder) (config : Config)
    (csv : list (list string)) (st : self) : list string :=
  if flatten_repeated_fields config
  then match csv with
       | [] => []
       | _ :: _ => [SheetsExportBuilder.FLATTENED_SHEET_TITLE]
       end
  else generated_titles eb (worksheet_titles st) (sections eb).

(** The titles of the worksheets an export copies from the XLSForm. *)
Definition xlsform_titles (config : Config) (xlsform : option (list xl_sheet))
  : list string :=
  if export_xlsform config then default [] (map sh_name <$> xlsform) else [].

(** The part of [export] that writes the survey data, lines 142-145. *)
Definition export_data (eb : ExportBuilder) (config : Config)
    (csv : list (list string)) (data : list (record eb)) : M unit :=
  if flatten_repeated_fields config
  then SheetsExportBuilder.export_flattened csv
  else SheetsExportBuilder.export_tabular eb data.


(** The row after [write_row] replaced the parent table name. *)
Definition with_parent_title (eb : ExportBuilder) (titles : gmap string string)
    (data : row) : row :=
  <[PARENT_TABLE_NAME eb :=
      SheetsExportBuilder.titles_get titles (dict_get data (PARENT_TABLE_NAME eb))]>
    data.

(** ** Further vocabulary *)

(** A computation keeps the property [I] of the state, whether it returns
    or raises. *)
Definition preserves {A} (I : self -> Prop) (m : M A) : Prop :=
  forall st, I st -> I (m st).2.

(** Every worksheet of the spreadsheet is listed by the feed. *)
Definition bounded (st : self) : Prop :=
  forall h, is_Some (spreadsheet st !! h) -> h < next_id st.

(** What the deletion loop at the end of [export] leaves of a worksheet. *)
Definition unless_default (w : Worksheet) : option Worksheet :=
  if decide (title w = "Sheet1"%string) then None else Some w.

(** The worksheet after the rows [l] of [source] were written to it by
    the inner loop of [_insert_xlsform]. *)
Definition copied_rows (source : xl_sheet) (l : list nat) (w : Worksheet)
  : Worksheet :=
  foldl (fun w r =>
           (update_row w (r + 1)
              (map (cell_value source r) (seq 0 (ncols source)))).1) w l.

(** From the state [st], the computation [m] keeps the property [I]
    and relates [st] to the state it ends in by [R], whether it returns
    or raises. *)
Definition respects_at {A} (I : self -> Prop) (R : self -> self -> Prop)
    (m : M A) (st : self) : Prop :=
  I (m st).2 /\ R st (m st).2.

(** A call that is no widening of a worksheet. *)
Definition no_resize (e : event) : Prop :=
  match e with
  | OnWorksheet _ (Resize _) => False
  | _ => True
  end.

(** Every section has a worksheet on record that has its header row and
    the width [_create_worksheets] gave it. *)
Definition fitted (eb : ExportBuilder) (st : self) : Prop :=
  forall s, s ∈ sections eb ->
    exists h w, worksheets st !! name s = Some h
                /\ spreadsheet st !! h = Some w
                /\ 1 <= row_count w
                /\ col_count w = num_cols eb s.

(** The worksheet kept its title, its rows and its width. *)
Definition same_width (w w' : Worksheet) : Prop :=
  kept w w' /\ col_count w' = col_count w.

(** The number of rows a run added to the worksheet [ws]. *)
Definition rows_added (ws : nat) (evs : list event) : nat :=
  sum_list
    (omap (fun e => match e with
                    | OnWorksheet h (AddRows n) =>
                        if decide (h = ws) then Some n else None
                    | _ => None
                    end) evs).

Module DemoRepeat.

(** A form whose one repeat group carries the name of the survey: the
    joined export then holds the list of the rows of the repeat under the
    survey name. *)
Definition joined (d : Demo.submission) (index : nat) (idx : unit) (nm : string)
  : gmap string section_rows * unit :=
  ({[ nm := RowList d.2 ]}, idx).

Definition builder : ExportBuilder :=
  mkExportBuilder Demo.submission unit tt [Demo.main_section "members"] "members"
    ["_index"; "_parent_table_name"; "_parent_index"]
    "_index" "_parent_index" "_parent_table_name"
    Demo.valid_sheet_name (fun r _ => r) joined (fun output => output).

End DemoRepeat.

(** The joined exports [_insert_data] writes, record by record, once the
    index fields are attached to the row of the main section. *)
Fixpoint numbered_outputs (eb : ExportBuilder) (index : nat) (idx : indices eb)
    (data : list (record eb)) : list (gmap string section_rows) :=
  match data with
  | [] => []
  | d :: rest =>
      let joined := dict_to_joined_export eb d index idx (survey_name eb) in
      let output := decode_mongo_encoded_section_names eb joined.1 in
      let main := match output !! survey_name eb with
                  | Some (RowDict r) => r
                  | _ => ∅
                  end in
      <[survey_name eb :=
          RowDict (<[PARENT_INDEX eb := VInt (-1)]>
                     (<[INDEX eb := VInt (Z.of_nat index)]> main))]> output
      :: numbered_outputs eb (S index) joined.2 rest
  end.

(** ** The steps of an export, call by call *)

(** The records [_insert_data] gets to write: those before the first
    record whose joined export holds a list under the name of the survey,
    where attaching the index raises. *)
Fixpoint written_records (eb : ExportBuilder) (index : nat) (idx : indices eb)
    (data : list (record eb)) : list (record eb) :=
  match data with
  | [] => []
  | d :: rest =>
      let joined := dict_to_joined_export eb d index idx (survey_name eb) in
      match decode_mongo_encoded_section_names eb joined.1 !! survey_name eb with
      | Some (RowList _) => []
      | _ => d :: written_records eb (S index) joined.2 rest
      end
  end.

(** The rows a joined export holds for a section, in the order in which
    [_insert_data] goes through them. *)
Definition rows_of (output : gmap string section_rows) (s : section) : list row :=
  match output !! name s with
  | Some (RowDict r) => [r]
  | Some (RowList rs) => rs
  | None => []
  end.

(** The rows of the records with the section each belongs to, in the
    order of the loops of [_insert_data]: record by record, section by
    section, row by row. *)
Definition rows_to_write (eb : ExportBuilder) (data : list (record eb))
  : list (section * row) :=
  flat_map (fun output =>
              flat_map (fun s => map (pair s) (rows_of output s)) (sections eb))
    (numbered_outputs eb 1 (no_indices eb)
       (written_records eb 1 (no_indices eb) data)).

(** The worksheet row that takes the row number [j] of [items]: the one
    below the header row and the rows written before it for the same
    section. *)
Definition row_number (items : list (section * row)) (j : nat) (s : section)
  : nat :=
  2 + length (filter (fun item => name item.1 = name s) (take j items)).

(** The calls of [update_row] on the worksheet [h]: the batched update of
    the row, preceded by a [resize] when the worksheet was narrower than
    the row. *)
Definition row_write (h index : nat) (values : list value) (calls : list event)
  : Prop :=
  calls = [OnWorksheet h (UpdateCells (row_cells index values))]
  \/ calls = [OnWorksheet h (Resize (length values));
             OnWorksheet h (UpdateCells (row_cells index values))].

(** The calls of [append_row] on the worksheet [h]: a row is added, then
    filled as by [update_row]. *)
Definition row_append (h index : nat) (values : list value) (calls : list event)
  : Prop :=
  exists fill,
    calls = OnWorksheet h (AddRows 1) :: fill /\ row_write h index values fill.

(** Step "create the worksheets" of a tabular export: one worksheet per
    section, in section order, of one row and the width of the section,
    under the title generated for it. *)
Definition creation_calls (eb : ExportBuilder) (titles : gmap string string)
  : list event :=
  zip_with (fun s t => AddWorksheet t 1 (num_cols eb s))
    (sections eb) (generated_titles eb titles (sections eb)).

(** Step "write the header row" for one section: row 1 of the worksheet
    on record for the section is filled with its headers. *)
Definition step_header (eb : ExportBuilder) (wsmap : gmap string nat)
    (s : section) (calls : list event) : Prop :=
  exists h,
    wsmap !! name s = Some h
    /\ row_write h 1 (SheetsExportBuilder.headers eb s) calls.

(** Step "write a data row" for one row of a section: a row is appended,
    below row 1, to the worksheet on record for the section, with one
    value per field. *)
Definition step_data_row (eb : ExportBuilder) (wsmap : gmap string nat)
    (s : section) (calls : list event) : Prop :=
  exists h n values,
    wsmap !! name s = Some h
    /\ 2 <= n
    /\ length values = num_cols eb s
    /\ row_append h n values calls.

(** The three steps of a tabular export that write the survey data, when
    [worksheet_titles] held [titles] at the start and [worksheets] holds
    [wsmap] at the end. *)
Definition tabular_steps (eb : ExportBuilder) (data : list (record eb))
    (titles : gmap string string) (wsmap : gmap string nat)
    (cr hd dt : list event) : Prop :=
  cr = creation_calls eb titles
  /\ (forall s, s ∈ sections eb ->
        exists i s', wsmap !! name s = Some (1 + i)
                     /\ sections eb !! i = Some s' /\ name s' = name s)
  /\ (exists chunks,
        hd = concat chunks
        /\ Forall2 (step_header eb wsmap) (sections eb) chunks)
  /\ (exists chunks,
        dt = concat chunks
        /\ Forall2 (step_data_row eb wsmap) (rows_to_write eb data).*1 chunks).

(** The same three steps of a flattened export: the one worksheet 'raw',
    which gets the handle 1, is created with a row per CSV row and the
    width of the first, then filled row by row, the first row (the header
    line of the CSV) first. *)
Definition flattened_steps (csv : list (list string)) (cr hd dt : list event)
  : Prop :=
  match map (map SheetsExportBuilder.filter_na) csv with
  | [] => cr = [] /\ hd = [] /\ dt = []
  | first :: rest =>
      cr = [AddWorksheet SheetsExportBuilder.FLATTENED_SHEET_TITLE
              (S (length rest)) (length first)]
      /\ hd = [OnWorksheet 1 (UpdateCells (row_cells 1 (map VStr first)))]
      /\ exists chunks,
           dt = concat chunks
           /\ Forall2 (fun '(index, values) calls =>
                         row_write 1 index (map VStr values) calls)
                (PyStr.enumerate 2 rest) chunks
  end.

(** Step "insert the XLSForm sheets" for one sheet, copied to the new
    worksheet [h]: the worksheet is created with the name and the size of
    the sheet, then filled row by row. *)
Definition copy_calls (h : nat) (source : xl_sheet) : list event :=
  AddWorksheet (sh_name source) (nrows source) (ncols source)
  :: map (fun r =>
            OnWorksheet h
              (UpdateCells
                 (row_cells (r + 1)
                    (map (cell_value source r) (seq 0 (ncols source))))))
       (seq 0 (nrows source)).

(** The whole step, the first new worksheet being [h]: the sheets are
    copied in workbook order, each name standing for the first sheet of
    that name, which is the one [sheet_by_name] finds. *)
Definition xlsform_calls (config : Config) (xlsform : option (list xl_sheet))
    (h : nat) : list event :=
  if export_xlsform config
  then match xlsform with
       | Some workbook =>
           concat
             (imap (fun i source =>
                      copy_calls (h + i)
                        (default source
                           (SheetsExportBuilder.sheet_by_name workbook
                              (sh_name source))))
                workbook)
       | None => []
       end
  else [].

(** The handles of the worksheets titled [t], when the worksheet of
    handle [i] has the title number [i] of [titles]. *)
Definition titled (t : string) (titles : list string) : list nat :=
  (filter (fun p => p.2 = t) (imap pair titles)).*1.

(** A run that adds worksheets and keeps the titles of those that were
    there: the new worksheets take the next handles, in the order of
    their creation, with the titles they were created under. *)
Definition tracks (st st' : self) : Prop :=
  exists evs,
    log st' = log st ++ evs
    /\ next_id st' = next_id st + length (created_titles evs)
    /\ (forall h w, spreadsheet st !! h = Some w ->
          exists w', spreadsheet st' !! h = Some w' /\ title w' = title w)
    /\ (forall i t, created_titles evs !! i = Some t ->
          exists w, spreadsheet st' !! (next_id st + i) = Some w /\ title w = t).

(** The joined export after the rows of the section [s] were written:
    [write_row] leaves them pre-processed and with their parent table
    replaced. *)
Definition section_written (eb : ExportBuilder) (titles : gmap string string)
    (output : gmap string section_rows) (s : section)
  : gmap string section_rows :=
  let written r := with_parent_title eb titles (pre_process_row eb r s) in
  match output !! name s with
  | Some (RowDict r) => <[name s := RowDict (written r)]> output
  | Some (RowList rs) => <[name s := RowList (map written rs)]> output
  | None => output
  end.

(** The values [write_row] hands to [append_row] for the row [r] of the
    section [s]. *)
Definition written_values (eb : ExportBuilder) (titles : gmap string string)
    (s : section) (r : row) : list value :=
  SheetsExportBuilder.row_values eb (pre_process_row eb r s)
    (SheetsExportBuilder.fields eb s) titles.

(** The calls that append the row number [j] of [items] to the worksheet
    on record for its section, when the worksheet is wide enough. *)
Definition append_calls (eb : ExportBuilder) (wsmap : gmap string nat)
    (titles : gmap string string) (items : list (section * row)) (j : nat)
    (item : section * row) : list event :=
  match wsmap !! name item.1 with
  | Some h =>
      [OnWorksheet h (AddRows 1);
       OnWorksheet h
         (UpdateCells
            (row_cells (row_number items j item.1)
               (written_values eb titles item.1 item.2)))]
  | None => []
  end.

(** The state of a tabular export once the rows [items] were written,
    [base] being the log when the first of them was: the worksheet of a
    section has the width of the section, the header row and one row for
    each of the rows of the section, holding its values. *)
Definition rows_written (eb : ExportBuilder) (wsmap : gmap string nat)
    (titles : gmap string string) (base : list event)
    (items : list (section * row)) (st : self) : Prop :=
  worksheets st = wsmap
  /\ worksheet_titles st = titles
  /\ log st = base ++ concat (imap (append_calls eb wsmap titles items) items)
  /\ forall s, s ∈ sections eb ->
       exists h w,
         wsmap !! name s = Some h
         /\ spreadsheet st !! h = Some w
         /\ col_count w = num_cols eb s
         /\ row_count w
            = 1 + length (filter (fun item : section * row =>
                                    name item.1 = name s) items)
         /\ forall j item i v,
              items !! j = Some item -> name item.1 = name s ->
              written_values eb titles item.1 item.2 !! i = Some v ->
              cells w !! (row_number items j s, S i) = Some v.
(** * Verified properties *)

(** ** Strings and lists *)

Lemma enumerate_lookup {A} (l : list A) (start i : nat) :
  PyStr.enumerate start l !! i = (fun x => (start + i, x)) <$> l !! i.
Proof.
  revert start i. induction l as [|x l IH]; intros start i; [done|].
  destruct i as [|i]; simpl.
  - by rewrite Nat.add_0_r.
  - rewrite IH. destruct (l !! i); simpl; [|done].
    do 2 f_equal. lia.
Qed.

Lemma enumerate_length {A} (l : list A) (start : nat) :
  length (PyStr.enumerate start l) = length l.
Proof. revert start. induction l; intros; simpl; [done|]. by f_equal. Qed.

Lemma split_nonempty (sep : Ascii.ascii) (s : string) : PyStr.split sep s ≠ [].
Proof.
  destruct s as [|c s]; simpl; [done|].
  destruct (Ascii.eqb c sep); [done|]. by destruct (PyStr.split sep s).
Qed.

(** Joining the pieces of a split with a one-character separator replaces
    every occurrence of the old separator by the new one. *)
Lemma join_split (old new : Ascii.ascii) (s : string) :
  PyStr.join (String new EmptyString) (PyStr.split old s)
  = PyStr.replace_char old new s.
Proof.
  induction s as [|c s IH]; [done|].
  simpl. destruct (Ascii.eqb c old) eqn:Hc.
  - pose proof (split_nonempty old s) as Hne.
    destruct (PyStr.split old s) as [|p more] eqn:Hs; [done|].
    rewrite <- IH. reflexivity.
  - pose proof (split_nonempty old s) as Hne.
    destruct (PyStr.split old s) as [|p more] eqn:Hs; [done|].
    rewrite <- IH. simpl. by destruct more.
Qed.

(** ** Worksheet calls *)

Lemma cell_list_eq (ws : Worksheet) (index start : nat) (values : list value) :
  map (fun '(i, value) => Gspread.set_value (Gspread.cell ws index i) value)
      (PyStr.enumerate start values)
  = imap (fun i v => mkCell index (start + i) v) values.
Proof.
  revert start. induction values as [|v values IH]; intros start; [done|].
  simpl. unfold Gspread.set_value at 1. simpl. rewrite Nat.add_0_r. f_equal.
  rewrite IH. apply imap_ext. intros i x _. simpl. f_equal. lia.
Qed.

Lemma store_row_lookup (m : gmap (nat * nat) value) (index start : nat)
    (values : list value) (r c : nat) :
  foldl Gspread.store_cell m (imap (fun i v => mkCell index (start + i) v) values)
    !! (r, c)
  = if decide (r = index ∧ start ≤ c < start + length values)
    then values !! (c - start)
    else m !! (r, c).
Proof.
  revert m start. induction values as [|v values IH]; intros m start.
  - simpl. case_decide; [lia|done].
  - simpl. rewrite (imap_ext _ (fun i v => mkCell index (S start + i) v));
      [|intros; simpl; f_equal; lia].
    rewrite IH. unfold Gspread.store_cell at 1. cbn [c_row c_col c_value length].
    rewrite Nat.add_0_r.
    repeat case_decide; destruct_and?; simplify_eq; try lia.
    + by replace (c - start) with (S (c - S start)) by lia.
    + assert (c = start) as -> by lia.
      rewrite lookup_insert_eq. by rewrite Nat.sub_diag.
    + rewrite lookup_insert_ne; [done|]. intros [= <-]. lia.
    + rewrite lookup_insert_ne; [done|]. intros [= <- <-]. lia.
Qed.

Lemma update_row_unfold (ws : Worksheet) (index : nat) (values : list value) :
  update_row ws index values
  = (mkWorksheet (title ws) (row_count ws)
       (if col_count ws <? length values then length values else col_count ws)
       (foldl Gspread.store_cell (cells ws) (row_cells index values)),
     (if col_count ws <? length values then [Resize (length values)] else [])
       ++ [UpdateCells (row_cells index values)]).
Proof.
  unfold update_row, row_cells.
  destruct (col_count ws <? length values); simpl;
    by rewrite cell_list_eq.
Qed.

Lemma update_row_cells (ws : Worksheet) (index : nat) (values : list value)
    (r c : nat) :
  cells (update_row ws index values).1 !! (r, c)
  = if decide (r = index ∧ 1 ≤ c ≤ length values)
    then values !! (c - 1)
    else cells ws !! (r, c).
Proof.
  rewrite update_row_unfold. simpl. unfold row_cells.
  rewrite (store_row_lookup _ index 1 values r c).
  repeat case_decide; try done; lia.
Qed.

Lemma update_row_shape (ws : Worksheet) (index : nat) (values : list value) :
  let ws' := (update_row ws index values).1 in
  (forall i v, values !! i = Some v -> cells ws' !! (index, S i) = Some v)
  /\ col_count ws' = (if col_count ws <? length values
                      then length values else col_count ws)
  /\ row_count ws' = row_count ws
  /\ title ws' = title ws.
Proof.
  simpl. split; [|rewrite update_row_unfold; simpl; repeat split].
  intros i v Hv. rewrite update_row_cells.
  pose proof (lookup_lt_Some _ _ _ Hv).
  case_decide; [|lia]. simpl. by rewrite Nat.sub_0_r.
Qed.

(** C3. For every worksheet, row index and list of values, [update_row]
    stores [values[i]] in the cell at that row and column [i+1] for every
    position [i], with one batched [update_cells] call holding exactly
    these cells; the only other call is a [resize] to [len(values)]
    columns, issued exactly when the worksheet had fewer columns, and
    otherwise the dimensions stay as they were. *)
Theorem update_row_spec (ws : Worksheet) (index : nat) (values : list value) :
  let ws' := (update_row ws index values).1 in
  let calls := (update_row ws index values).2 in
  (forall i v, values !! i = Some v -> cells ws' !! (index, S i) = Some v)
  /\ calls = (if col_count ws <? length values
              then [Resize (length values)] else [])
             ++ [UpdateCells (row_cells index values)]
  /\ (forall i, row_cells index values !! i
                = mkCell index (S i) <$> values !! i)
  /\ col_count ws' = (if col_count ws <? length values
                      then length values else col_count ws)
  /\ row_count ws' = row_count ws
  /\ title ws' = title ws.
Proof.
  simpl. split; [|rewrite update_row_unfold; simpl; repeat split].
  - intros i v Hv. rewrite update_row_cells.
    pose proof (lookup_lt_Some _ _ _ Hv).
    case_decide; [|lia]. simpl. by rewrite Nat.sub_0_r.
  - intros i. unfold row_cells. by rewrite list_lookup_imap.
Qed.

Lemma update_row_spec_witness :
  let ws := mkWorksheet "raw" 3 1 ∅ in
  cells (update_row ws 2 [VStr "a"; VInt 7]).1 !! (2, 2) = Some (VInt 7)
  /\ col_count (update_row ws 2 [VStr "a"; VInt 7]).1 = 2.
Proof.
  intros ws.
  pose proof (update_row_spec ws 2 [VStr "a"; VInt 7]) as (Hcell & _ & _ & Hcol & _).
  split.
  - apply (Hcell 1 (VInt 7)). reflexivity.
  - exact Hcol.
Defined.

(** ** Running computations *)

Lemma bind_run {A B} (m : M A) (f : A -> M B) (st : self) :
  (m ≫= f) st = match m st with
                | (Some a, st') => f a st'
                | (None, st') => (None, st')
                end.
Proof. reflexivity. Qed.

Lemma on_worksheet_run (ws : nat) (call : Worksheet -> Worksheet * list ws_call)
    (st : self) (w : Worksheet) :
  spreadsheet st !! ws = Some w ->
  Spreadsheet.on_worksheet ws call st
  = (Some tt, mkSelf (<[ws := (call w).1]> (spreadsheet st)) (next_id st)
                     (log st ++ map (OnWorksheet ws) (call w).2)
                     (worksheets st) (worksheet_titles st)).
Proof.
  intros Hw. unfold Spreadsheet.on_worksheet. rewrite Hw.
  by destruct (call w).
Qed.

Lemma updates_app (evs1 evs2 : list event) :
  updates (evs1 ++ evs2) = updates evs1 ++ updates evs2.
Proof. apply omap_app. Qed.

Lemma created_titles_app (evs1 evs2 : list event) :
  created_titles (evs1 ++ evs2) = created_titles evs1 ++ created_titles evs2.
Proof. apply omap_app. Qed.

Lemma update_row_events (ws : nat) (w : Worksheet) (index : nat)
    (values : list value) :
  let evs := map (OnWorksheet ws) (update_row w index values).2 in
  updates evs = [(ws, row_cells index values)]
  /\ created_titles evs = []
  /\ forall P : nat -> Prop, P index -> Forall (writes_rows P) evs.
Proof.
  rewrite update_row_unfold. simpl.
  destruct (col_count w <? length values); simpl; repeat split; intros P HP;
    repeat constructor; simpl; unfold row_cells;
    apply Forall_forall; intros c Hc;
    apply list_elem_of_lookup in Hc as [i Hi];
    rewrite list_lookup_imap in Hi;
    destruct (values !! i); simplify_eq/=; done.
Qed.

Lemma writes_rows_mono (P Q : nat -> Prop) (e : event) :
  (forall r, P r -> Q r) -> writes_rows P e -> writes_rows Q e.
Proof.
  intros HPQ. destruct e as [| | | |ws [| |cl]| |]; simpl; try done.
  intros Hcl. eapply Forall_impl; [exact Hcl|]. intros c. apply HPQ.
Qed.

(** ** The flattened export *)

(** The loop of [export_flattened], started at row [k] on worksheet [h]. *)
Lemma write_rows_run (h : nat) (rows : list (list string)) :
  forall (k : nat) (st : self) (w : Worksheet),
  spreadsheet st !! h = Some w ->
  exists w' evs,
    for_each (PyStr.enumerate k rows) (fun '(index, values) =>
      Spreadsheet.on_worksheet h (fun w => update_row w index (map VStr values))) st
    = (Some tt, mkSelf (<[h := w']> (spreadsheet st)) (next_id st)
                       (log st ++ evs) (worksheets st) (worksheet_titles st))
    /\ title w' = title w
    /\ row_count w' = row_count w
    /\ updates evs
       = map (fun '(i, r) => (h, row_cells i (map VStr r))) (PyStr.enumerate k rows)
    /\ created_titles evs = []
    /\ Forall (writes_rows (fun r => k <= r)) evs
    /\ (forall r c, r < k -> cells w' !! (r, c) = cells w !! (r, c))
    /\ (forall i r j x, rows !! i = Some r -> r !! j = Some x ->
          cells w' !! (k + i, S j) = Some (VStr x))
    /\ (exists first rest, evs = first ++ rest
          /\ Forall (writes_rows (fun r => r = k)) first
          /\ Forall (writes_rows (fun r => S k <= r)) rest).
Proof.
  induction rows as [|r0 rows IH]; intros k st w Hw.
  - exists w, []. simpl. destruct st; simpl in *.
    rewrite insert_id by done. rewrite app_nil_r.
    repeat split; try done. by exists [], [].
  - simpl. rewrite bind_run.
    rewrite (on_worksheet_run _ _ _ _ Hw).
    set (w1 := (update_row w k (map VStr r0)).1).
    set (c1 := (update_row w k (map VStr r0)).2).
    set (st1 := mkSelf _ _ _ _ _).
    assert (spreadsheet st1 !! h = Some w1) as Hw1 by apply lookup_insert_eq.
    destruct (IH (S k) st1 w1 Hw1)
      as (w' & evs & Hrun & Ht & Hr & Hup & Hct & Hall & Hlow & Hcells & _).
    destruct (update_row_events h w k (map VStr r0)) as (Hup1 & Hct1 & Hall1).
    destruct (update_row_shape w k (map VStr r0))
      as (Hc1 & _ & Hr1 & Ht1).
    exists w', (map (OnWorksheet h) c1 ++ evs). subst c1.
    split; [|split; [|split; [|split; [|split; [|split; [|split; [|split]]]]]]].
    + rewrite Hrun. subst st1. simpl. rewrite insert_insert_eq.
      by rewrite app_assoc.
    + by rewrite Ht.
    + by rewrite Hr.
    + rewrite updates_app, Hup. by rewrite Hup1.
    + rewrite created_titles_app, Hct. by rewrite Hct1.
    + apply Forall_app. split.
      * apply (Hall1 (fun r => k <= r)). lia.
      * eapply Forall_impl; [exact Hall|].
        intros e. apply writes_rows_mono. lia.
    + intros r c Hrk. rewrite Hlow by lia.
      subst w1. rewrite update_row_cells. case_decide; [lia|done].
    + intros i r j x Hi Hj. destruct i as [|i]; simpl in Hi.
      * simplify_eq. rewrite Nat.add_0_r. rewrite Hlow by lia.
        apply Hc1. by rewrite list_lookup_fmap, Hj.
      * replace (k + S i) with (S k + i) by lia. by eapply Hcells.
    + eexists _, evs. split; [reflexivity|]. split; [|done].
      by apply (Hall1 (fun r => r = k)).
Qed.

Lemma writes_rows_data (e : event) :
  writes_rows (fun r => 2 <= r) e -> is_data_write e.
Proof. by destruct e as [| | | |ws [| |cl]| |]. Qed.

Lemma export_flattened_empty (st : self) :
  SheetsExportBuilder.export_flattened [] st = (Some tt, st).
Proof. reflexivity. Qed.

Lemma export_flattened_run (first : list string) (rest : list (list string))
    (st : self) :
  let csv := first :: rest in
  let ws := next_id st in
  exists w evs,
    SheetsExportBuilder.export_flattened csv st
    = (Some tt, mkSelf (<[ws := w]> (spreadsheet st)) (S ws)
                       (log st ++ AddWorksheet "raw" (length csv) (length first) :: evs)
                       (worksheets st) (worksheet_titles st))
    /\ title w = "raw"%string
    /\ row_count w = length csv
    /\ updates evs
       = map (fun '(i, r) => (ws, row_cells i (map VStr r)))
             (PyStr.enumerate 1 (map (map SheetsExportBuilder.filter_na) csv))
    /\ created_titles evs = []
    /\ (forall i r j x, csv !! i = Some r -> r !! j = Some x ->
          cells w !! (S i, S j) = Some (VStr (SheetsExportBuilder.filter_na x)))
    /\ (exists hd dt, evs = hd ++ dt
          /\ Forall is_header_write hd /\ Forall is_data_write dt).
Proof.
  intros csv ws.
  set (rows := map (map SheetsExportBuilder.filter_na) csv).
  assert (SheetsExportBuilder.export_flattened csv st
          = (Spreadsheet.add_worksheet "raw" (length rows)
               (length (map SheetsExportBuilder.filter_na first))
             ≫= fun ws0 =>
                  for_each (PyStr.enumerate 1 rows) (fun '(index, values) =>
                    Spreadsheet.on_worksheet ws0
                      (fun w0 => update_row w0 index (map VStr values)))) st)
    as -> by reflexivity.
  rewrite bind_run. unfold Spreadsheet.add_worksheet at 1. cbv beta iota.
  set (w0 := mkWorksheet _ _ _ _). set (st1 := mkSelf _ _ _ _ _).
  assert (spreadsheet st1 !! ws = Some w0) as Hw0 by apply lookup_insert_eq.
  destruct (write_rows_run ws rows 1 st1 w0 Hw0)
    as (w & evs & Hrun & Ht & Hr & Hup & Hct & _ & _ & Hcells & Hsplit).
  exists w, evs. split; [|split; [|split; [|split; [|split; [|split]]]]].
  - etransitivity; [exact Hrun|]. subst st1. simpl. rewrite insert_insert_eq.
    subst rows csv. simpl. rewrite !length_map.
    by rewrite <- app_assoc.
  - by rewrite Ht.
  - rewrite Hr. subst w0 rows csv. simpl. by rewrite length_map.
  - exact Hup.
  - exact Hct.
  - intros i r j x Hi Hj.
    apply (Hcells i (map SheetsExportBuilder.filter_na r) j).
    + subst rows. by rewrite list_lookup_fmap, Hi.
    + by rewrite list_lookup_fmap, Hj.
  - destruct Hsplit as (hd & dt & -> & Hhd & Hdt).
    exists hd, dt. split; [done|]. split; [exact Hhd|].
    eapply Forall_impl; [exact Hdt|]. apply writes_rows_data.
Qed.

(** ** Copying the XLSForm and deleting the default worksheet *)

Lemma writes_rows_copy (P : nat -> Prop) (e : event) :
  writes_rows P e -> is_xlsform_copy e.
Proof. by destruct e as [| | | |ws [| |cl]| |]. Qed.

Lemma update_rows_run {A} (h : nat) (idx : A -> nat) (vals : A -> list value)
    (l : list A) :
  forall (st : self) (w : Worksheet),
  spreadsheet st !! h = Some w ->
  exists w' evs,
    for_each l (fun a =>
      Spreadsheet.on_worksheet h (fun w => update_row w (idx a) (vals a))) st
    = (Some tt, mkSelf (<[h := w']> (spreadsheet st)) (next_id st)
                       (log st ++ evs) (worksheets st) (worksheet_titles st))
    /\ title w' = title w
    /\ created_titles evs = []
    /\ Forall is_xlsform_copy evs.
Proof.
  induction l as [|a l IH]; intros st w Hw.
  - exists w, []. simpl. destruct st; simpl in *.
    rewrite insert_id by done. rewrite app_nil_r. by repeat split.
  - simpl. rewrite bind_run. rewrite (on_worksheet_run _ _ _ _ Hw).
    set (w1 := (update_row w (idx a) (vals a)).1).
    set (st1 := mkSelf _ _ _ _ _).
    assert (spreadsheet st1 !! h = Some w1) as Hw1 by apply lookup_insert_eq.
    destruct (IH st1 w1 Hw1) as (w' & evs & Hrun & Ht & Hct & Hall).
    destruct (update_row_events h w (idx a) (vals a)) as (_ & Hct1 & Hall1).
    destruct (update_row_shape w (idx a) (vals a)) as (_ & _ & _ & Ht1).
    eexists w', (_ ++ evs). split; [|split; [|split]].
    + etransitivity; [exact Hrun|]. subst st1. simpl.
      rewrite insert_insert_eq. by rewrite app_assoc.
    + by rewrite Ht.
    + rewrite created_titles_app, Hct. by rewrite Hct1.
    + apply Forall_app. split; [|done].
      eapply Forall_impl; [exact (Hall1 (fun _ => True) I)|].
      apply writes_rows_copy.
Qed.

Lemma sheet_by_name_some (workbook : list xl_sheet) (nm : string) :
  nm ∈ map sh_name workbook ->
  exists src, SheetsExportBuilder.sheet_by_name workbook nm = Some src
              /\ sh_name src = nm.
Proof.
  unfold SheetsExportBuilder.sheet_by_name.
  induction workbook as [|s workbook IH]; simpl; intros Hin.
  - by apply elem_of_nil in Hin.
  - case_bool_decide as Hs; [by exists s|].
    apply elem_of_cons in Hin as [Heq|Hin]; [congruence|]. by apply IH.
Qed.

Lemma copy_sheet_run (workbook : list xl_sheet) (nm : string) (st : self) :
  nm ∈ map sh_name workbook ->
  exists src w evs,
    SheetsExportBuilder.sheet_by_name workbook nm = Some src
    /\ SheetsExportBuilder.copy_sheet workbook nm st
       = (Some tt, mkSelf (<[next_id st := w]> (spreadsheet st)) (S (next_id st))
                          (log st ++ AddWorksheet nm (nrows src) (ncols src) :: evs)
                          (worksheets st) (worksheet_titles st))
    /\ title w = nm
    /\ created_titles evs = []
    /\ Forall is_xlsform_copy evs.
Proof.
  intros Hin. destruct (sheet_by_name_some _ _ Hin) as (src & Hsrc & Hnm).
  unfold SheetsExportBuilder.copy_sheet. rewrite Hsrc.
  rewrite bind_run. unfold Spreadsheet.add_worksheet at 1. cbv beta iota.
  set (w0 := mkWorksheet _ _ _ _). set (st1 := mkSelf _ _ _ _ _).
  assert (spreadsheet st1 !! next_id st = Some w0) as Hw0
    by apply lookup_insert_eq.
  destruct (update_rows_run (next_id st) (fun r => r + 1)
              (fun r => map (cell_value src r) (seq 0 (ncols src)))
              (seq 0 (nrows src)) st1 w0 Hw0)
    as (w & evs & Hrun & Ht & Hct & Hall).
  exists src, w, evs. split; [done|]. split; [|by rewrite Ht].
  etransitivity; [exact Hrun|]. subst st1. simpl.
  rewrite insert_insert_eq. by rewrite <- app_assoc.
Qed.

Lemma copy_sheets_run (workbook : list xl_sheet) (names : list string) :
  (forall nm, nm ∈ names -> nm ∈ map sh_name workbook) ->
  forall st, exists st' evs,
    for_each names (SheetsExportBuilder.copy_sheet workbook) st = (Some tt, st')
    /\ log st' = log st ++ evs
    /\ created_titles evs = names
    /\ Forall is_xlsform_copy evs
    /\ worksheets st' = worksheets st
    /\ worksheet_titles st' = worksheet_titles st.
Proof.
  induction names as [|nm names IH]; intros Hin st.
  - exists st, []. simpl. rewrite app_nil_r. by repeat split.
  - destruct (copy_sheet_run workbook nm st) as (src & w & evs & _ & Hrun & _ & Hct & Hall).
    { apply Hin. by left. }
    simpl. rewrite bind_run, Hrun.
    set (st1 := mkSelf _ _ _ _ _).
    destruct (IH (fun n Hn => Hin n (list_elem_of_further _ _ _ Hn)) st1)
      as (st' & evs' & Hrun' & Hlog & Hct' & Hall' & Hws & Hwt).
    exists st', (AddWorksheet nm (nrows src) (ncols src) :: evs ++ evs').
    split; [done|]. split; [|split; [|split; [|done]]].
    + rewrite Hlog. subst st1. simpl. by rewrite <- app_assoc.
    + change (AddWorksheet nm (nrows src) (ncols src) :: evs ++ evs')
        with ([AddWorksheet nm (nrows src) (ncols src)] ++ evs ++ evs').
      rewrite !created_titles_app, Hct, Hct'. done.
    + constructor; [done|]. by apply Forall_app.
Qed.

Lemma insert_xlsform_run (xlsform : option (list xl_sheet))
    (st : self) :
  exists st' evs,
    SheetsExportBuilder._insert_xlsform xlsform st = (Some tt, st')
    /\ log st' = log st ++ evs
    /\ created_titles evs = default [] (map sh_name <$> xlsform)
    /\ Forall is_xlsform_copy evs
    /\ worksheets st' = worksheets st
    /\ worksheet_titles st' = worksheet_titles st.
Proof.
  destruct xlsform as [workbook|]; simpl.
  - by apply copy_sheets_run.
  - exists st, []. rewrite app_nil_r. by repeat split.
Qed.

Lemma delete_loop_run (feed : list (nat * Worksheet)) :
  forall st, exists st',
    for_each feed (fun '(ws, w) =>
      if decide (title w = "Sheet1"%string)
      then Spreadsheet.del_worksheet ws else mret tt) st = (Some tt, st')
    /\ log st' = log st ++ map DelWorksheet (default_sheets feed)
    /\ worksheets st' = worksheets st
    /\ worksheet_titles st' = worksheet_titles st.
Proof.
  unfold default_sheets.
  induction feed as [|[ws w] feed IH]; intros st.
  - exists st. simpl. rewrite app_nil_r. by repeat split.
  - simpl. rewrite bind_run. rewrite filter_cons. simpl.
    destruct (decide (title w = "Sheet1"%string)) as [Ht|Ht].
    + unfold Spreadsheet.del_worksheet at 1. set (st1 := mkSelf _ _ _ _ _).
      destruct (IH st1) as (st' & Hrun & Hlog & Hws & Hwt).
      exists st'. split; [done|]. split; [|done].
      rewrite Hlog. subst st1. simpl. by rewrite <- app_assoc.
    + destruct (IH st) as (st' & Hrun & Hlog & Hws & Hwt).
      exists st'. split; [exact Hrun|done].
Qed.

Lemma delete_default_worksheet_run (st : self) :
  exists st',
    SheetsExportBuilder.delete_default_worksheet st = (Some tt, st')
    /\ log st' = log st ++ GetWorksheetsFeed
                   :: map DelWorksheet (default_sheets (Spreadsheet.feed st))
    /\ worksheets st' = worksheets st
    /\ worksheet_titles st' = worksheet_titles st.
Proof.
  unfold SheetsExportBuilder.delete_default_worksheet.
  unfold Spreadsheet.get_worksheets_feed.
  rewrite !bind_run. unfold emit at 1, gets at 1. cbv beta iota.
  set (st1 := mkSelf _ _ _ _ _).
  destruct (delete_loop_run (Spreadsheet.feed st1) st1)
    as (st' & Hrun & Hlog & Hws & Hwt).
  exists st'. split; [done|]. split; [|done].
  rewrite Hlog. subst st1. simpl. by rewrite <- app_assoc.
Qed.

(** ** Creating the worksheets of the sections *)

Section Tabular.

Context (eb : ExportBuilder).

Lemma desired_title_replace (section_name : string) :
  SheetsExportBuilder.desired_title section_name
  = PyStr.replace_char "/" "_" section_name.
Proof. apply join_split. Qed.

Lemma create_worksheet_run (s : section) (st : self) :
  let t := get_valid_sheet_name eb (PyStr.replace_char "/" "_" (name s))
             (dict_values (worksheet_titles st)) in
  SheetsExportBuilder.create_worksheet eb s st
  = (Some tt,
     mkSelf (<[next_id st := mkWorksheet t 1 (num_cols eb s) ∅]> (spreadsheet st))
            (S (next_id st))
            (log st ++ [AddWorksheet t 1 (num_cols eb s)])
            (<[name s := next_id st]> (worksheets st))
            (<[name s := t]> (worksheet_titles st))).
Proof.
  intros t. subst t. rewrite <- desired_title_replace. reflexivity.
Qed.

Lemma create_worksheets_run (ss : list section) :
  forall st, exists st' evs,
    for_each ss (SheetsExportBuilder.create_worksheet eb) st = (Some tt, st')
    /\ log st' = log st ++ evs
    /\ Forall is_add evs
    /\ created_titles evs = generated_titles eb (worksheet_titles st) ss
    /\ next_id st' = next_id st + length ss
    /\ worksheet_titles st' = titles_after eb (worksheet_titles st) ss
    /\ (forall h, h < next_id st -> spreadsheet st' !! h = spreadsheet st !! h)
    /\ (forall i s, ss !! i = Some s ->
          exists w, spreadsheet st' !! (next_id st + i) = Some w
                    /\ row_count w = 1 /\ col_count w = num_cols eb s
                    /\ cells w = ∅
                    /\ generated_titles eb (worksheet_titles st) ss !! i
                       = Some (title w))
    /\ (forall nm, nm ∉ map name ss -> worksheets st' !! nm = worksheets st !! nm)
    /\ (forall s, s ∈ ss ->
          exists i s', worksheets st' !! name s = Some (next_id st + i)
                       /\ ss !! i = Some s' /\ name s' = name s).
Proof.
  induction ss as [|s ss IH]; intros st.
  - exists st, []. simpl. rewrite app_nil_r, Nat.add_0_r.
    repeat split; try done.
    intros s Hs. by apply elem_of_nil in Hs.
  - simpl. rewrite bind_run, create_worksheet_run.
    set (t := get_valid_sheet_name eb _ _). set (st1 := mkSelf _ _ _ _ _).
    destruct (IH st1)
      as (st' & evs & Hrun & Hlog & Hadd & Hct & Hnext & Hwt & Hold & Hnew
          & Hframe & Hws).
    exists st', (AddWorksheet t 1 (num_cols eb s) :: evs).
    split; [done|].
    split; [rewrite Hlog; subst st1; simpl; by rewrite <- app_assoc|].
    split; [by constructor|].
    split; [simpl; by rewrite Hct|].
    split; [rewrite Hnext; subst st1; simpl; lia|].
    split; [done|].
    split; [|split; [|split]].
    + intros h Hh. rewrite Hold by (subst st1; simpl; lia).
      subst st1. simpl. apply lookup_insert_ne. lia.
    + intros [|i] s' Hi; simpl in Hi.
      * simplify_eq. rewrite Nat.add_0_r.
        rewrite Hold by (subst st1; simpl; lia).
        subst st1. simpl. rewrite lookup_insert_eq.
        eexists. split; [done|]. by repeat split.
      * destruct (Hnew i s' Hi) as (w & Hw & Hr & Hc & He & Ht).
        exists w. replace (next_id st + S i) with (next_id st1 + i)
          by (subst st1; simpl; lia).
        by repeat split.
    + intros nm Hnm. apply not_elem_of_cons in Hnm as [Hne Hnm].
      rewrite Hframe by done. subst st1. simpl.
      by apply lookup_insert_ne.
    + assert (forall s0, s0 ∈ ss ->
                exists i s', worksheets st' !! name s0 = Some (next_id st + i)
                  /\ (s :: ss) !! i = Some s' /\ name s' = name s0) as Hin.
      { intros s0 Hs0. destruct (Hws s0 Hs0) as (i & s' & Hi & Hl & Hn).
        exists (S i), s'. split; [|done].
        rewrite Hi. subst st1. simpl. f_equal. lia. }
      intros s0 Hs0. apply elem_of_cons in Hs0 as [->|Hs0]; [|by apply Hin].
      destruct (decide (name s ∈ map name ss)) as [Hdup|Hfresh].
      * apply list_elem_of_fmap in Hdup as (s2 & Hn2 & Hs2).
        destruct (Hin s2 Hs2) as (i & s' & Hi & Hl & Hn).
        exists i, s'. rewrite Hn2. split; [done|]. split; [done|]. congruence.
      * exists 0, s. rewrite Hframe by done. subst st1. simpl.
        rewrite lookup_insert_eq, Nat.add_0_r. done.
Qed.

End Tabular.

(** ** Loops and runs that only call worksheets *)

Lemma for_each_inv {A} (I : self -> Prop) (R : self -> self -> Prop)
    (l : list A) (body : A -> M unit) :
  (forall st, R st st) ->
  (forall a b c, R a b -> R b c -> R a c) ->
  (forall x st, x ∈ l -> I st -> I (body x st).2 /\ R st (body x st).2) ->
  forall st, I st -> I (for_each l body st).2 /\ R st (for_each l body st).2.
Proof.
  intros Hrefl Htrans. induction l as [|x l IH]; intros Hbody st HI.
  - simpl. split; [done|apply Hrefl].
  - simpl. rewrite bind_run.
    destruct (Hbody x st) as [HI1 HR1]; [by left|done|].
    destruct (body x st) as [[[]|] st1]; simpl in *; [|done].
    destruct (IH (fun y s Hy => Hbody y s (list_elem_of_further _ _ _ Hy)) st1 HI1)
      as [HI2 HR2].
    split; [done|]. by eapply Htrans.
Qed.

Lemma for_each_returns {A} (I : self -> Prop) (l : list A) (body : A -> M unit) :
  (forall x st, x ∈ l -> I st -> I (body x st).2 /\ (body x st).1 = Some tt) ->
  forall st, I st -> (for_each l body st).1 = Some tt.
Proof.
  induction l as [|x l IH]; intros Hbody st HI; [done|].
  simpl. rewrite bind_run.
  destruct (Hbody x st) as [HI1 Hret]; [by left|done|].
  destruct (body x st) as [r st1]; simpl in *. subst r.
  apply IH; [|done]. intros y s Hy. apply Hbody. by right.
Qed.

Lemma for_each_changed_inv {A} (I : self -> Prop) (R : self -> self -> Prop)
    (l : list A) (body : A -> M A) :
  (forall st, R st st) ->
  (forall a b c, R a b -> R b c -> R a c) ->
  (forall x st, x ∈ l -> I st -> I (body x st).2 /\ R st (body x st).2) ->
  forall st, I st ->
    I (for_each_changed l body st).2 /\ R st (for_each_changed l body st).2.
Proof.
  intros Hrefl Htrans. induction l as [|x l IH]; intros Hbody st HI.
  - simpl. split; [done|apply Hrefl].
  - simpl. rewrite bind_run.
    destruct (Hbody x st) as [HI1 HR1]; [by left|done|].
    destruct (body x st) as [[x'|] st1]; simpl in *; [|done].
    destruct (IH (fun y s Hy => Hbody y s (list_elem_of_further _ _ _ Hy)) st1 HI1)
      as [HI2 HR2].
    rewrite bind_run.
    destruct (for_each_changed l body st1) as [[l'|] st2]; simpl in *;
      (split; [done|by eapply Htrans]).
Qed.

Lemma for_each_changed_returns {A} (I : self -> Prop) (l : list A)
    (body : A -> M A) :
  (forall x st, x ∈ l -> I st -> I (body x st).2 /\ is_Some (body x st).1) ->
  forall st, I st -> is_Some (for_each_changed l body st).1.
Proof.
  induction l as [|x l IH]; intros Hbody st HI; [by eexists|].
  simpl. rewrite bind_run.
  destruct (Hbody x st) as [HI1 [x' Hret]]; [by left|done|].
  destruct (body x st) as [r st1]; simpl in *. subst r.
  rewrite bind_run.
  destruct (IH (fun y s Hy => Hbody y s (list_elem_of_further _ _ _ Hy)) st1 HI1)
    as [l' Hl'].
  destruct (for_each_changed l body st1) as [r st2]; simpl in *. subst r.
  by eexists.
Qed.

Lemma for_each_on_inv {A B} (I : self -> Prop) (R : self -> self -> Prop)
    (l : list A) (body : B -> A -> M B) :
  (forall st, R st st) ->
  (forall a b c, R a b -> R b c -> R a c) ->
  (forall obj x st, x ∈ l -> I st ->
     I (body obj x st).2 /\ R st (body obj x st).2) ->
  forall obj st, I st ->
    I (for_each_on l obj body st).2 /\ R st (for_each_on l obj body st).2.
Proof.
  intros Hrefl Htrans. induction l as [|x l IH]; intros Hbody obj st HI.
  - simpl. split; [done|apply Hrefl].
  - simpl. rewrite bind_run.
    destruct (Hbody obj x st) as [HI1 HR1]; [by left|done|].
    destruct (body obj x st) as [[obj'|] st1]; simpl in *; [|done].
    destruct (IH (fun o y s Hy => Hbody o y s (list_elem_of_further _ _ _ Hy))
                obj' st1 HI1) as [HI2 HR2].
    split; [done|]. by eapply Htrans.
Qed.

Lemma for_each_on_returns {A B} (I : self -> Prop) (l : list A)
    (body : B -> A -> M B) :
  (forall obj x st, x ∈ l -> I st ->
     I (body obj x st).2 /\ is_Some (body obj x st).1) ->
  forall obj st, I st -> is_Some (for_each_on l obj body st).1.
Proof.
  induction l as [|x l IH]; intros Hbody obj st HI; [by eexists|].
  simpl. rewrite bind_run.
  destruct (Hbody obj x st) as [HI1 [obj' Hret]]; [by left|done|].
  destruct (body obj x st) as [r st1]; simpl in *. subst r.
  apply IH; [|done]. intros o y s Hy. apply Hbody. by right.
Qed.

Lemma kept_refl (w : Worksheet) : kept w w.
Proof. by split. Qed.

Lemma kept_trans (a b c : Worksheet) : kept a b -> kept b c -> kept a c.
Proof. intros [? ?] [? ?]. split; [congruence|lia]. Qed.

Lemma grown_refl (w : Worksheet) : grown w w.
Proof. split; [apply kept_refl|done]. Qed.

Lemma grown_trans (a b c : Worksheet) : grown a b -> grown b c -> grown a c.
Proof.
  intros [Hab Hcab] [Hbc Hcbc]. split; [by eapply kept_trans|].
  intros r col Hr. destruct Hab as [_ Hle].
  rewrite Hcbc by lia. by apply Hcab.
Qed.

Section Evolves.

Context (K : Worksheet -> Worksheet -> Prop) (P : event -> Prop).
Hypothesis K_refl : forall w, K w w.
Hypothesis K_trans : forall a b c, K a b -> K b c -> K a c.

Lemma evolves_refl (st : self) : evolves K P st st.
Proof.
  repeat split; try done.
  - intros h w Hw. by exists w.
  - exists []. by rewrite app_nil_r.
Qed.

Lemma evolves_trans (a b c : self) :
  evolves K P a b -> evolves K P b c -> evolves K P a c.
Proof.
  intros (Hws1 & Hwt1 & Hn1 & Hs1 & evs1 & Hl1 & Hp1)
         (Hws2 & Hwt2 & Hn2 & Hs2 & evs2 & Hl2 & Hp2).
  repeat split; try congruence.
  - intros h w Hw. destruct (Hs1 h w Hw) as (w1 & Hw1 & Hk1).
    destruct (Hs2 h w1 Hw1) as (w2 & Hw2 & Hk2).
    exists w2. split; [done|]. by eapply K_trans.
  - exists (evs1 ++ evs2). rewrite Hl2, Hl1, app_assoc.
    split; [done|]. by apply Forall_app.
Qed.

(** One call on an existing worksheet. *)
Lemma on_worksheet_evolves (h : nat) (call : Worksheet -> Worksheet * list ws_call)
    (st : self) (w : Worksheet) :
  spreadsheet st !! h = Some w ->
  K w (call w).1 ->
  Forall P (map (OnWorksheet h) (call w).2) ->
  (Spreadsheet.on_worksheet h call st).1 = Some tt
  /\ evolves K P st (Spreadsheet.on_worksheet h call st).2.
Proof.
  intros Hw HK HP. rewrite (on_worksheet_run _ _ _ _ Hw). simpl.
  split; [done|]. repeat split; simpl.
  - intros h' w' Hw'. destruct (decide (h' = h)) as [->|Hne].
    + rewrite lookup_insert_eq. exists (call w).1. split; [done|].
      by simplify_eq.
    + rewrite lookup_insert_ne by done. by exists w'.
  - by eexists.
Qed.

End Evolves.

Lemma evolves_ready (K : Worksheet -> Worksheet -> Prop) (P : event -> Prop)
    (ss : list section) (st st' : self) :
  (forall w w', K w w' -> kept w w') ->
  evolves K P st st' -> ready ss st -> ready ss st'.
Proof.
  intros HK (Hws & _ & _ & Hsh & _) Hready s Hs.
  destruct (Hready s Hs) as (h & w & Hh & Hw & Hr).
  destruct (Hsh h w Hw) as (w' & Hw' & Hk). apply HK in Hk as [_ Hle].
  exists h, w'. rewrite Hws. split; [done|]. split; [done|lia].
Qed.

Lemma evolves_weaken (K K' : Worksheet -> Worksheet -> Prop)
    (P Q : event -> Prop) (st st' : self) :
  (forall w w', K w w' -> K' w w') -> (forall e, P e -> Q e) ->
  evolves K P st st' -> evolves K' Q st st'.
Proof.
  intros HK HP (Hws & Hwt & Hn & Hsh & evs & Hl & Hp).
  repeat split; try done.
  - intros h w Hw. destruct (Hsh h w Hw) as (w' & Hw' & Hk). eauto.
  - exists evs. split; [done|]. eapply Forall_impl; [exact Hp|done].
Qed.

(** ** Writing the headers and the data rows *)

Lemma append_row_unfold (w : Worksheet) (values : list value) :
  append_row w values
  = (mkWorksheet (title w) (row_count w + 1)
       (if col_count w <? length values then length values else col_count w)
       (foldl Gspread.store_cell (cells w)
          (row_cells (row_count w + 1) values)),
     AddRows 1
       :: (if col_count w <? length values then [Resize (length values)] else [])
       ++ [UpdateCells (row_cells (row_count w + 1) values)]).
Proof.
  unfold append_row. rewrite update_row_unfold. reflexivity.
Qed.

Lemma append_row_grown (w : Worksheet) (values : list value) :
  grown w (append_row w values).1.
Proof.
  rewrite append_row_unfold. simpl. split; [split; simpl; [done|lia]|].
  intros r c Hr. simpl. unfold row_cells.
  rewrite (store_row_lookup _ (row_count w + 1) 1 values r c).
  case_decide; [lia|done].
Qed.

Lemma update_row_kept (w : Worksheet) (index : nat) (values : list value) :
  kept w (update_row w index values).1.
Proof. rewrite update_row_unfold. by split. Qed.

Section Rows.

Context (eb : ExportBuilder).

Let ss := sections eb.

Lemma insert_header_run (s : section) (st : self) :
  ready ss st -> s ∈ ss ->
  exists h st' evs,
    worksheets st !! name s = Some h
    /\ SheetsExportBuilder.insert_header eb s st = (Some tt, st')
    /\ log st' = log st ++ evs
    /\ Forall is_header_write evs
    /\ OnWorksheet h (UpdateCells (row_cells 1 (SheetsExportBuilder.headers eb s)))
       ∈ evs
    /\ evolves kept is_header_write st st'.
Proof.
  intros Hready Hs. destruct (Hready s Hs) as (h & w & Hh & Hw & _).
  unfold SheetsExportBuilder.insert_header. rewrite bind_run.
  unfold get_worksheet at 1. rewrite Hh.
  set (call := fun w0 => update_row w0 1 (SheetsExportBuilder.headers eb s)).
  destruct (update_row_events h w 1 (SheetsExportBuilder.headers eb s))
    as (_ & _ & Hall).
  specialize (Hall (fun r => r = 1) eq_refl).
  destruct (on_worksheet_evolves kept is_header_write kept_refl h call st w Hw)
    as [Hret Hev]; [apply update_row_kept|exact Hall|].
  rewrite (on_worksheet_run h call st w Hw) in Hev |- *. simpl in Hev.
  eexists h, _, _. split; [done|]. split; [reflexivity|]. simpl.
  split; [reflexivity|]. split; [exact Hall|]. split; [|done].
  subst call. simpl. rewrite update_row_unfold. simpl.
  apply list_elem_of_fmap. eexists. split; [reflexivity|].
  apply elem_of_app. right. by left.
Qed.

Lemma insert_headers_run (l : list section) :
  (forall s, s ∈ l -> s ∈ ss) ->
  forall st, ready ss st ->
  exists st' evs,
    for_each l (SheetsExportBuilder.insert_header eb) st = (Some tt, st')
    /\ log st' = log st ++ evs
    /\ Forall is_header_write evs
    /\ (forall s, s ∈ l ->
          exists h, worksheets st !! name s = Some h
            /\ OnWorksheet h
                 (UpdateCells (row_cells 1 (SheetsExportBuilder.headers eb s)))
               ∈ evs)
    /\ evolves kept is_header_write st st'.
Proof.
  induction l as [|s l IH]; intros Hin st Hready.
  - exists st, []. simpl. rewrite app_nil_r.
    split; [done|]. split; [done|]. split; [done|].
    split; [intros s Hs; by apply elem_of_nil in Hs|].
    apply (evolves_refl _ _ kept_refl).
  - destruct (insert_header_run s st Hready) as
      (h & st1 & evs1 & Hh & Hrun1 & Hlog1 & Hall1 & Hmem1 & Hev1).
    { apply Hin. by left. }
    assert (ready ss st1) as Hready1
      by (eapply evolves_ready; [|exact Hev1|exact Hready]; done).
    destruct (IH (fun y Hy => Hin y (list_elem_of_further _ _ _ Hy)) st1 Hready1)
      as (st' & evs & Hrun & Hlog & Hall & Hmem & Hev).
    exists st', (evs1 ++ evs). simpl. rewrite bind_run, Hrun1.
    split; [done|]. split; [by rewrite Hlog, Hlog1, app_assoc|].
    split; [by apply Forall_app|]. split.
    + intros s' Hs'. apply elem_of_cons in Hs' as [->|Hs'].
      * exists h. split; [done|]. apply elem_of_app. by left.
      * destruct (Hmem s' Hs') as (h' & Hh' & Hin').
        exists h'. destruct Hev1 as (Hws & _). rewrite <- Hws.
        split; [done|]. apply elem_of_app. by right.
    + exact (evolves_trans _ _ kept_trans _ _ _ Hev1 Hev).
Qed.

End Rows.

Section Data.

Context (eb : ExportBuilder).
Context (wsmap : gmap string nat) (titles : gmap string string).

Let ss := sections eb.

(** What holds throughout [_insert_data]. *)
Let data_inv (st : self) : Prop :=
  ready ss st /\ worksheets st = wsmap /\ worksheet_titles st = titles.

Let appends : self -> self -> Prop :=
  evolves grown (data_row_call eb wsmap titles).

Lemma grown_kept (w w' : Worksheet) : grown w w' -> kept w w'.
Proof. by intros [? _]. Qed.

Lemma appends_inv (st st' : self) : data_inv st -> appends st st' -> data_inv st'.
Proof.
  intros (Hready & Hws & Hwt) Hev. split.
  - eapply evolves_ready; [exact grown_kept|exact Hev|exact Hready].
  - destruct Hev as (Hws' & Hwt' & _). split; congruence.
Qed.

Lemma appends_refl (st : self) : appends st st.
Proof. apply (evolves_refl _ _ grown_refl). Qed.

Lemma appends_trans (a b c : self) : appends a b -> appends b c -> appends a c.
Proof. apply (evolves_trans _ _ grown_trans). Qed.

Lemma append_row_calls (s : section) (h : nat) (d : row) (w : Worksheet) :
  s ∈ ss -> wsmap !! name s = Some h -> 1 <= row_count w ->
  Forall (data_row_call eb wsmap titles)
    (map (OnWorksheet h)
       (append_row w
          (SheetsExportBuilder.row_values eb (pre_process_row eb d s)
             (SheetsExportBuilder.fields eb s) titles)).2).
Proof.
  intros Hs Hh Hr. rewrite append_row_unfold. simpl.
  constructor; [by eapply drc_add|].
  rewrite map_app. apply Forall_app. split.
  - destruct (col_count w <? _); simpl; [|constructor].
    constructor; [by eapply drc_resize|constructor].
  - simpl. constructor; [|constructor].
    eapply drc_fill; [done|done|lia].
Qed.

Lemma write_section_row_run (s : section) (h : nat) (d : row) (st : self) :
  SheetsExportBuilder.write_section_row eb s h d st
  = SheetsExportBuilder.write_row eb (pre_process_row eb d s) h
      (SheetsExportBuilder.fields eb s) (worksheet_titles st) st.
Proof. reflexivity. Qed.

Lemma write_section_run (output : gmap string section_rows) (s : section)
    (h : nat) (st : self) :
  worksheets st !! name s = Some h ->
  SheetsExportBuilder.write_section eb output s st
  = match output !! name s with
    | Some (RowDict r) =>
        (r ← SheetsExportBuilder.write_section_row eb s h r;
         mret (<[name s := RowDict r]> output)) st
    | Some (RowList rs) =>
        (rs ← for_each_changed rs (SheetsExportBuilder.write_section_row eb s h);
         mret (<[name s := RowList rs]> output)) st
    | None => (Some output, st)
    end.
Proof.
  intros Hh. unfold SheetsExportBuilder.write_section. rewrite bind_run.
  unfold get_worksheet. rewrite Hh. by destruct (output !! name s) as [[?|?]|].
Qed.

Lemma write_section_row_step (s : section) (h : nat) (d : row) (st : self) :
  data_inv st -> s ∈ ss -> wsmap !! name s = Some h ->
  is_Some (SheetsExportBuilder.write_section_row eb s h d st).1
  /\ appends st (SheetsExportBuilder.write_section_row eb s h d st).2.
Proof.
  intros (Hready & Hws & Hwt) Hs Hh.
  destruct (Hready s Hs) as (h' & w & Hh' & Hw & Hr).
  assert (h' = h) as -> by congruence.
  rewrite write_section_row_run, Hwt.
  unfold SheetsExportBuilder.write_row. rewrite bind_run.
  fold (SheetsExportBuilder.row_values eb (pre_process_row eb d s)
          (SheetsExportBuilder.fields eb s) titles).
  destruct (on_worksheet_evolves _ (data_row_call eb wsmap titles) grown_refl
              h (fun w0 => append_row w0
                   (SheetsExportBuilder.row_values eb (pre_process_row eb d s)
                      (SheetsExportBuilder.fields eb s) titles)) st w Hw)
    as [Hret Hev]; [apply append_row_grown|by apply append_row_calls|].
  destruct (Spreadsheet.on_worksheet h _ st) as [r st1]; simpl in *. subst r.
  split; [by eexists|done].
Qed.

Lemma write_section_step (output : gmap string section_rows) (s : section)
    (st : self) :
  data_inv st -> s ∈ ss ->
  is_Some (SheetsExportBuilder.write_section eb output s st).1
  /\ appends st (SheetsExportBuilder.write_section eb output s st).2.
Proof.
  intros Hinv Hs. pose proof Hinv as (Hready & Hws & Hwt).
  destruct (Hready s Hs) as (h & w & Hh & Hw & Hr).
  rewrite (write_section_run output s h st Hh).
  assert (wsmap !! name s = Some h) as Hh' by congruence.
  destruct (output !! name s) as [[d|rs]|].
  - rewrite bind_run.
    destruct (write_section_row_step s h d st Hinv Hs Hh') as [[d' Hret] Hev].
    destruct (SheetsExportBuilder.write_section_row eb s h d st) as [r st1].
    simpl in *. subst r. split; [by eexists|done].
  - rewrite bind_run.
    assert (forall d st0, d ∈ rs -> data_inv st0 ->
              data_inv (SheetsExportBuilder.write_section_row eb s h d st0).2
              /\ is_Some (SheetsExportBuilder.write_section_row eb s h d st0).1
              /\ appends st0 (SheetsExportBuilder.write_section_row eb s h d st0).2)
      as Hbody.
    { intros d st0 _ Hinv0.
      destruct (write_section_row_step s h d st0 Hinv0 Hs Hh') as [Hret Hev].
      split; [by eapply appends_inv|done]. }
    destruct (for_each_changed_returns data_inv rs
                (SheetsExportBuilder.write_section_row eb s h)
                (fun d st0 Hd Hi => conj (proj1 (Hbody d st0 Hd Hi))
                                         (proj1 (proj2 (Hbody d st0 Hd Hi))))
                st Hinv) as [rs' Hret].
    destruct (for_each_changed_inv data_inv appends rs
                (SheetsExportBuilder.write_section_row eb s h)
                appends_refl appends_trans
                (fun d st0 Hd Hi => conj (proj1 (Hbody d st0 Hd Hi))
                                         (proj2 (proj2 (Hbody d st0 Hd Hi))))
                st Hinv) as [_ Hev].
    destruct (for_each_changed rs _ st) as [r st1]. simpl in *. subst r.
    split; [by eexists|done].
  - split; [by eexists|apply appends_refl].
Qed.

Lemma write_sections_step (output : gmap string section_rows) (st : self) :
  data_inv st ->
  is_Some (for_each_on ss output (SheetsExportBuilder.write_section eb) st).1
  /\ appends st (for_each_on ss output (SheetsExportBuilder.write_section eb) st).2.
Proof.
  intros Hinv. split.
  - apply (for_each_on_returns data_inv); [|done].
    intros out s st0 Hs Hinv0.
    destruct (write_section_step out s st0 Hinv0 Hs) as [Hret Hev].
    split; [|done]. by eapply appends_inv.
  - apply (for_each_on_inv data_inv appends);
      [apply appends_refl|apply appends_trans| |done].
    intros out s st0 Hs Hinv0.
    destruct (write_section_step out s st0 Hinv0 Hs) as [Hret Hev].
    split; [|done]. by eapply appends_inv.
Qed.

Lemma set_item_run (output : gmap string section_rows) (sn key : string)
    (v : value) (d : row) (st : self) :
  output !! sn = Some (RowDict d) ->
  SheetsExportBuilder.set_item output sn key v st
  = (Some (<[sn := RowDict (<[key := v]> d)]> output), st).
Proof. intros Hd. unfold SheetsExportBuilder.set_item. by rewrite Hd. Qed.

Lemma set_item_raises (output : gmap string section_rows) (sn key : string)
    (v : value) (st : self) :
  (forall d, output !! sn <> Some (RowDict d)) ->
  SheetsExportBuilder.set_item output sn key v st = (None, st).
Proof.
  intros Hd. unfold SheetsExportBuilder.set_item.
  destruct (output !! sn) as [[d|l]|]; [by destruct (Hd d)|done|done].
Qed.

(** Whether it returns or raises, [_insert_data] has only appended rows. *)
Lemma insert_data_from_appends (data : list (record eb)) :
  forall index idx st, data_inv st ->
  appends st (SheetsExportBuilder.insert_data_from eb index idx data st).2.
Proof.
  induction data as [|d data IH]; intros index idx st Hinv.
  - apply appends_refl.
  - simpl.
    destruct (dict_to_joined_export eb d index idx (survey_name eb))
      as [joined idx'].
    set (out0 := match decode_mongo_encoded_section_names eb joined
                       !! survey_name eb with
                 | Some _ => _ | None => _ end).
    rewrite bind_run.
    destruct (out0 !! survey_name eb) as [[d0|l0]|] eqn:Hout0;
      [|rewrite set_item_raises by congruence; apply appends_refl..].
    rewrite (set_item_run _ _ _ _ d0) by done. rewrite bind_run.
    rewrite (set_item_run _ _ _ _ (<[INDEX eb := VInt (Z.of_nat index)]> d0))
      by apply lookup_insert_eq.
    set (out := <[survey_name eb := _]> (<[survey_name eb := _]> out0)).
    rewrite bind_run.
    destruct (write_sections_step out st Hinv) as [[out' Hret] Hev].
    destruct (for_each_on ss out (SheetsExportBuilder.write_section eb) st)
      as [r st1] eqn:Hrun.
    simpl in Hret, Hev. subst r. fold ss. rewrite Hrun.
    eapply appends_trans; [exact Hev|].
    apply IH. by eapply appends_inv.
Qed.

Lemma insert_data_from_returns (data : list (record eb)) :
  forall index idx st, data_inv st ->
  main_rows_are_dicts eb index idx data ->
  (SheetsExportBuilder.insert_data_from eb index idx data st).1 = Some tt.
Proof.
  induction data as [|d data IH]; intros index idx st Hinv Hmain; [done|].
  simpl in *.
  destruct (dict_to_joined_export eb d index idx (survey_name eb))
    as [joined idx']. simpl in Hmain. destruct Hmain as [Hdict Hmain].
  set (out0 := match decode_mongo_encoded_section_names eb joined
                     !! survey_name eb with
               | Some _ => _ | None => _ end).
  assert (exists d0, out0 !! survey_name eb = Some (RowDict d0)) as [d0 Hd0].
  { subst out0.
    destruct (decode_mongo_encoded_section_names eb joined !! survey_name eb)
      as [[d0|l0]|] eqn:Hl.
    - by exists d0.
    - by destruct (Hdict l0).
    - exists ∅. apply lookup_insert_eq. }
  rewrite bind_run.
  rewrite (set_item_run _ _ _ _ d0) by done. rewrite bind_run.
  rewrite (set_item_run _ _ _ _ (<[INDEX eb := VInt (Z.of_nat index)]> d0))
    by apply lookup_insert_eq.
  set (out := <[survey_name eb := _]> (<[survey_name eb := _]> out0)).
  rewrite bind_run.
  destruct (write_sections_step out st Hinv) as [[out' Hret] Hev].
  destruct (for_each_on ss out (SheetsExportBuilder.write_section eb) st)
    as [r st1] eqn:Hrun.
  simpl in Hret, Hev. subst r. fold ss. rewrite Hrun.
  apply IH; [|done]. by eapply appends_inv.
Qed.

End Data.

(** ** The tabular export *)

Section TabularRun.

Context (eb : ExportBuilder).

Let ss := sections eb.

Lemma export_tabular_run (data : list (record eb)) (st : self) :
  exists st2 cr hd,
    SheetsExportBuilder.export_tabular eb data st
    = SheetsExportBuilder._insert_data eb data st2
    /\ log st2 = log st ++ cr ++ hd
    /\ Forall is_add cr
    /\ created_titles cr = generated_titles eb (worksheet_titles st) ss
    /\ Forall is_header_write hd
    /\ worksheet_titles st2 = titles_after eb (worksheet_titles st) ss
    /\ next_id st2 = next_id st + length ss
    /\ ready ss st2
    /\ (forall s, s ∈ ss ->
          exists h, worksheets st2 !! name s = Some h
            /\ OnWorksheet h
                 (UpdateCells (row_cells 1 (SheetsExportBuilder.headers eb s)))
               ∈ hd)
    /\ (forall s, s ∈ ss ->
          exists i s', worksheets st2 !! name s = Some (next_id st + i)
                       /\ ss !! i = Some s' /\ name s' = name s)
    /\ (forall i s, ss !! i = Some s ->
          exists w, spreadsheet st2 !! (next_id st + i) = Some w
                    /\ generated_titles eb (worksheet_titles st) ss !! i
                       = Some (title w)).
Proof.
  destruct (create_worksheets_run eb ss st)
    as (st1 & cr & Hrun1 & Hlog1 & Hadd & Hct & Hnext & Hwt & _ & Hnew & _ & Hws).
  assert (ready ss st1) as Hready1.
  { intros s Hs. destruct (Hws s Hs) as (i & s' & Hh & Hi & _).
    destruct (Hnew i s' Hi) as (w & Hw & Hr & _).
    exists (next_id st + i), w. split; [done|]. split; [done|lia]. }
  destruct (insert_headers_run eb ss (fun _ H => H) st1 Hready1)
    as (st2 & hd & Hrun2 & Hlog2 & Hhd & Hmem & Hev).
  destruct Hev as (Hws2 & Hwt2 & Hn2 & Hsh2 & _).
  exists st2, cr, hd.
  split.
  { unfold SheetsExportBuilder.export_tabular. rewrite bind_run.
    unfold SheetsExportBuilder._create_worksheets. fold ss. rewrite Hrun1.
    rewrite bind_run. unfold SheetsExportBuilder._insert_headers. fold ss.
    by rewrite Hrun2. }
  split; [by rewrite Hlog2, Hlog1, app_assoc|].
  split; [done|]. split; [done|]. split; [done|].
  split; [congruence|]. split; [congruence|].
  split.
  { eapply (evolves_ready kept is_header_write); [done| |exact Hready1].
    repeat split; try done. eexists. split; [exact Hlog2|done]. }
  split.
  { intros s Hs. destruct (Hmem s Hs) as (h & Hh & Hin).
    exists h. by rewrite Hws2. }
  split.
  { intros s Hs. rewrite Hws2. by apply Hws. }
  intros i s Hi. destruct (Hnew i s Hi) as (w & Hw & _ & _ & _ & Ht).
  destruct (Hsh2 _ _ Hw) as (w' & Hw' & Hk & _).
  exists w'. split; [done|]. by rewrite Hk.
Qed.

End TabularRun.

(** ** The flattened export: claims *)

Lemma enumerated_rows_lookup (ws : nat) (rows : list (list string)) (k : nat) :
  map (fun '(i, r) => (ws, row_cells i (map VStr r))) (PyStr.enumerate 1 rows) !! k
  = (fun r => (ws, row_cells (S k) (map VStr r))) <$> rows !! k.
Proof.
  rewrite list_lookup_fmap, enumerate_lookup.
  by destruct (rows !! k).
Qed.

(** C7. For every non-empty flattened CSV, [export_flattened] returns
    normally after creating the worksheet titled 'raw' and sending one
    batched update per CSV row, in CSV order: the update number [k]
    (counted from 0) fills worksheet row [k+1] with the row number [k] of
    the CSV (after the n/a filter), and at the end the cell at row [k+1],
    column [j+1] of the worksheet holds the cell [j] of that CSV row. *)
Theorem flattened_rows_in_order (csv : list (list string)) (st : self) :
  csv <> [] ->
  let st' := (SheetsExportBuilder.export_flattened csv st).2 in
  let ws := next_id st in
  exists w evs,
    (SheetsExportBuilder.export_flattened csv st).1 = Some tt
    /\ log st' = log st
         ++ AddWorksheet "raw" (length csv) (length (default [] (head csv))) :: evs
    /\ spreadsheet st' !! ws = Some w
    /\ title w = "raw"%string
    /\ row_count w = length csv
    /\ length (updates evs) = length csv
    /\ (forall k r, csv !! k = Some r ->
          updates evs !! k
          = Some (ws, row_cells (S k)
                        (map VStr (map SheetsExportBuilder.filter_na r))))
    /\ (forall k r j x, csv !! k = Some r -> r !! j = Some x ->
          cells w !! (S k, S j) = Some (VStr (SheetsExportBuilder.filter_na x))).
Proof.
  intros Hne st' ws. destruct csv as [|first rest]; [done|].
  destruct (export_flattened_run first rest st)
    as (w & evs & Hrun & Ht & Hr & Hup & _ & Hcells & _).
  subst st'. rewrite Hrun. simpl.
  exists w, evs. split; [done|]. split; [done|].
  split; [apply lookup_insert_eq|]. split; [done|]. split; [done|].
  split; [|split; [|done]].
  - rewrite Hup, length_map, enumerate_length. by rewrite length_map.
  - intros k r Hk. rewrite Hup, enumerated_rows_lookup.
    by rewrite list_lookup_fmap, Hk.
Qed.

Lemma flattened_rows_in_order_witness :
  let csv := [["name"; "age"]; ["Ann"; "n/a"]] in
  let st' := (SheetsExportBuilder.export_flattened csv Demo.fresh).2 in
  exists w, spreadsheet st' !! 0 = Some w
            /\ cells w !! (2, 1) = Some (VStr "Ann").
Proof.
  intros csv st'.
  destruct (flattened_rows_in_order csv Demo.fresh)
    as (w & evs & _ & _ & Hw & _ & _ & _ & _ & Hcells); [done|].
  exists w. split; [exact Hw|].
  apply (Hcells 1 ["Ann"; "n/a"]%string 0 "Ann"%string); reflexivity.
Defined.

Lemma filter_na_spec (x : string) :
  SheetsExportBuilder.filter_na x
  = if decide (x = "n/a"%string) then ""%string else x.
Proof.
  unfold SheetsExportBuilder.filter_na. by repeat case_decide.
Qed.

(** C8. In the flattened export every cell of the CSV that is exactly the
    string 'n/a' is written as the empty string and every other cell is
    written unchanged: this is the value in the batched update sent for
    its row and the value the worksheet cell holds at the end. *)
Theorem flattened_na_cells_blank (csv : list (list string)) (st : self)
    (k j : nat) (r : list string) (x : string) :
  csv !! k = Some r -> r !! j = Some x ->
  let st' := (SheetsExportBuilder.export_flattened csv st).2 in
  let written := VStr (if decide (x = "n/a"%string) then ""%string else x) in
  exists w evs cell_list,
    log st' = log st
      ++ AddWorksheet "raw" (length csv) (length (default [] (head csv))) :: evs
    /\ updates evs !! k = Some (next_id st, cell_list)
    /\ cell_list !! j = Some (mkCell (S k) (S j) written)
    /\ spreadsheet st' !! next_id st = Some w
    /\ cells w !! (S k, S j) = Some written.
Proof.
  intros Hk Hj st' written. destruct csv as [|first rest]; [done|].
  destruct (export_flattened_run first rest st)
    as (w & evs & Hrun & _ & _ & Hup & _ & Hcells & _).
  subst st' written. rewrite Hrun. simpl. rewrite <- filter_na_spec.
  exists w, evs. eexists. split; [done|].
  rewrite Hup, enumerated_rows_lookup.
  rewrite list_lookup_fmap, Hk. simpl. split; [reflexivity|].
  split; [|split; [apply lookup_insert_eq|by eapply Hcells]].
  unfold row_cells. rewrite list_lookup_imap, !list_lookup_fmap, Hj. done.
Qed.

Lemma flattened_na_cells_blank_witness :
  let csv := [["name"; "age"]; ["Ann"; "n/a"]] in
  let st' := (SheetsExportBuilder.export_flattened csv Demo.fresh).2 in
  exists w, spreadsheet st' !! 0 = Some w
            /\ cells w !! (2, 2) = Some (VStr "")
            /\ cells w !! (2, 1) = Some (VStr "Ann").
Proof.
  intros csv st'.
  destruct (flattened_na_cells_blank csv Demo.fresh 1 1 ["Ann"; "n/a"]%string
              "n/a"%string eq_refl eq_refl) as (w & evs & cl & _ & _ & _ & Hw & Hc).
  exists w. split; [exact Hw|]. split; [exact Hc|].
  destruct (flattened_na_cells_blank csv Demo.fresh 1 0 ["Ann"; "n/a"]%string
              "Ann"%string eq_refl eq_refl)
    as (w' & evs' & cl' & _ & _ & _ & Hw' & Hc').
  assert (w' = w) as -> by (unfold st' in *; congruence).
  exact Hc'.
Defined.

(** ** Classes of calls *)

Lemma created_titles_none (P : event -> Prop) (evs : list event) :
  (forall e, P e -> ~ is_add e) -> Forall P evs -> created_titles evs = [].
Proof.
  intros HP. induction 1 as [|e evs He _ IH]; [done|].
  specialize (HP e He).
  change (e :: evs) with ([e] ++ evs).
  rewrite created_titles_app, IH. by destruct e.
Qed.

Lemma spreadsheets_created_app (evs1 evs2 : list event) :
  spreadsheets_created (evs1 ++ evs2)
  = spreadsheets_created evs1 + spreadsheets_created evs2.
Proof.
  unfold spreadsheets_created. by rewrite omap_app, length_app.
Qed.

Lemma spreadsheets_created_none (P : event -> Prop) (evs : list event) :
  (forall e, P e -> forall t, e <> NewSpreadsheet t) -> Forall P evs ->
  spreadsheets_created evs = 0.
Proof.
  intros HP. induction 1 as [|e evs He _ IH]; [done|].
  specialize (HP e He).
  change (e :: evs) with ([e] ++ evs).
  rewrite spreadsheets_created_app, IH.
  destruct e as [|t| | | | |]; try done. by destruct (HP t).
Qed.

Lemma data_row_call_data_write (eb : ExportBuilder) (wsmap : gmap string nat)
    (titles : gmap string string) (e : event) :
  data_row_call eb wsmap titles e -> is_data_write e.
Proof.
  destruct 1 as [s h|s h n|s h r d Hs Hh Hr]; simpl; try done.
  unfold row_cells. apply Forall_forall. intros c Hc.
  apply list_elem_of_lookup in Hc as [i Hi].
  rewrite list_lookup_imap in Hi.
  destruct (_ !! i); simplify_eq/=; done.
Qed.

Lemma is_add_no_row (e : event) : is_add e -> ~ adds_row e.
Proof. destruct e as [| | | |? []| |]; simpl; tauto. Qed.

Lemma is_header_write_no_row (e : event) : is_header_write e -> ~ adds_row e.
Proof. destruct e as [| | | |? []| |]; simpl; tauto. Qed.

Lemma new_events_app (st st' : self) (evs : list event) :
  log st' = log st ++ evs -> new_events st st' = evs.
Proof. intros Hl. unfold new_events. rewrite Hl. apply drop_app_length. Qed.

(** ** The export as a whole *)

Section WholeExport.

Context (eb : ExportBuilder) (config : Config).

Lemma opened_log (blank : Worksheet) (st : self) :
  log (opened config blank st)
  = log st ++ [Login (google_token config);
               NewSpreadsheet (spreadsheet_title config);
               AddServiceAccount].
Proof. simpl. by rewrite <- !app_assoc. Qed.

Lemma export_unfold (blank : Worksheet) (csv : list (list string))
    (data : list (record eb)) (xlsform : option (list xl_sheet)) (st : self) :
  SheetsExportBuilder.export eb config blank csv data xlsform st
  = match export_data eb config csv data (opened config blank st) with
    | (Some _, st4) =>
        match (if export_xlsform config
               then SheetsExportBuilder._insert_xlsform xlsform
               else mret tt) st4 with
        | (Some _, st5) => SheetsExportBuilder.delete_default_worksheet st5
        | (None, st5) => (None, st5)
        end
    | (None, st4) => (None, st4)
    end.
Proof.
  unfold SheetsExportBuilder.export, export_data.
  rewrite !bind_run.
  unfold emit at 1, Spreadsheet.new at 1. cbv beta iota.
  rewrite bind_run. cbv beta iota. rewrite bind_run.
  unfold emit at 1. cbv beta iota. rewrite bind_run.
  fold (opened config blank st).
  destruct (_ (opened config blank st)) as [[[]|] st4]; [|done].
  rewrite bind_run.
  by destruct (_ st4) as [[[]|] st5].
Qed.

(** The survey data part: worksheets are created, then header rows are
    written, then data rows; only the tabular export can raise, and only
    while it writes data rows. *)
Lemma export_data_run (csv : list (list string)) (data : list (record eb))
    (st : self) :
  let r := export_data eb config csv data st in
  exists cr hd dt,
    log r.2 = log st ++ cr ++ hd ++ dt
    /\ Forall is_add cr
    /\ Forall is_header_write hd
    /\ Forall is_data_write dt
    /\ created_titles cr = survey_titles eb config csv st
    /\ worksheet_titles r.2
       = (if flatten_repeated_fields config then worksheet_titles st
          else titles_after eb (worksheet_titles st) (sections eb))
    /\ (r.1 = None -> flatten_repeated_fields config = false)
    /\ (main_rows_are_dicts eb 1 (no_indices eb) data -> r.1 = Some tt).
Proof.
  unfold export_data, survey_titles.
  destruct (flatten_repeated_fields config) eqn:Hflat.
  - destruct csv as [|first rest].
    + rewrite export_flattened_empty. simpl. exists [], [], [].
      rewrite app_nil_r. by repeat split.
    + destruct (export_flattened_run first rest st)
        as (w & evs & Hrun & _ & _ & _ & _ & _ & hd & dt & -> & Hhd & Hdt).
      rewrite Hrun. simpl. eexists [_], hd, dt.
      split; [done|]. split; [by repeat constructor|]. by repeat split.
  - destruct (export_tabular_run eb data st)
      as (st2 & cr & hd & Hrun & Hlog & Hcr & Hct & Hhd & Hwt & _ & Hready & _).
    rewrite Hrun. unfold SheetsExportBuilder._insert_data.
    assert (ready (sections eb) st2 /\ worksheets st2 = worksheets st2
            /\ worksheet_titles st2 = worksheet_titles st2) as Hinv by done.
    pose proof (insert_data_from_appends eb _ _ data 1 (no_indices eb) st2 Hinv)
      as (_ & Hwt' & _ & _ & dt & Hlog' & Hdt).
    simpl. exists cr, hd, dt.
    split; [by rewrite Hlog', Hlog, <- !app_assoc|].
    split; [done|]. split; [done|].
    split; [eapply Forall_impl; [exact Hdt|apply data_row_call_data_write]|].
    split; [done|]. split; [congruence|]. split; [done|].
    intros Hmain. by eapply insert_data_from_returns.
Qed.

(** What follows the survey data: the XLSForm sheets when they are
    exported, then the deletion of the default worksheet; this part always
    returns. *)
Lemma export_rest_run (xlsform : option (list xl_sheet)) (st : self) :
  exists st5 st6 xl,
    (if export_xlsform config
     then SheetsExportBuilder._insert_xlsform xlsform
     else mret tt) st = (Some tt, st5)
    /\ SheetsExportBuilder.delete_default_worksheet st5 = (Some tt, st6)
    /\ log st5 = log st ++ xl
    /\ log st6 = log st5 ++ GetWorksheetsFeed
                   :: map DelWorksheet (default_sheets (Spreadsheet.feed st5))
    /\ Forall is_xlsform_copy xl
    /\ created_titles xl = xlsform_titles config xlsform
    /\ (if export_xlsform config then True else xl = []).
Proof.
  unfold xlsform_titles.
  destruct (export_xlsform config).
  - destruct (insert_xlsform_run xlsform st)
      as (st5 & xl & Hrun & Hlog & Hct & Hxl & _).
    destruct (delete_default_worksheet_run st5) as (st6 & Hrun6 & Hlog6 & _).
    by exists st5, st6, xl.
  - destruct (delete_default_worksheet_run st) as (st6 & Hrun6 & Hlog6 & _).
    exists st, st6, []. rewrite app_nil_r. by repeat split.
Qed.

End WholeExport.

(** ** The order of the steps of an export *)

Lemma is_delete_map (handles : list nat) : Forall is_delete (map DelWorksheet handles).
Proof. induction handles; by constructor. Qed.

Lemma step_not_new (e : event) :
  is_add e \/ is_header_write e \/ is_data_write e \/ is_xlsform_copy e
    \/ is_delete e ->
  forall t, e <> NewSpreadsheet t.
Proof. destruct e; intros [|[|[|[|]]]]; done. Qed.

Lemma steps_create_no_spreadsheet (P : event -> Prop) (evs : list event) :
  (forall e, P e -> is_add e \/ is_header_write e \/ is_data_write e
                    \/ is_xlsform_copy e \/ is_delete e) ->
  Forall P evs -> spreadsheets_created evs = 0.
Proof.
  intros HP. apply spreadsheets_created_none.
  intros e He. apply step_not_new. by apply HP.
Qed.

(** The calls of an export by classes: after the login, the one new
    spreadsheet and its sharing come calls that create worksheets, calls
    that fill row 1, calls that add or fill rows below, calls that copy
    the XLSForm, the fetch of the feed and deletions; exactly one
    spreadsheet is created. *)
Lemma export_steps_classes (eb : ExportBuilder) (config : Config)
    (blank : Worksheet) (csv : list (list string)) (data : list (record eb))
    (xlsform : option (list xl_sheet)) (st : self) :
  let r := SheetsExportBuilder.export eb config blank csv data xlsform st in
  let start := [Login (google_token config);
                NewSpreadsheet (spreadsheet_title config);
                AddServiceAccount] in
  exists cr hd dt xl dl,
    Forall is_add cr
    /\ Forall is_header_write hd
    /\ Forall is_data_write dt
    /\ Forall is_xlsform_copy xl
    /\ Forall is_delete dl
    /\ (if export_xlsform config then True else xl = [])
    /\ match r.1 with
       | Some _ =>
           log r.2 = log st ++ start ++ cr ++ hd ++ dt ++ xl
                       ++ GetWorksheetsFeed :: dl
       | None =>
           flatten_repeated_fields config = false
           /\ log r.2 = log st ++ start ++ cr ++ hd ++ dt
       end
    /\ spreadsheets_created (new_events st r.2) = 1.
Proof.
  intros r start. subst r. rewrite export_unfold.
  destruct (export_data_run eb config csv data (opened config blank st))
    as (cr & hd & dt & Hlog & Hcr & Hhd & Hdt & _ & _ & Hnone & _).
  rewrite opened_log in Hlog. fold start in Hlog.
  assert (spreadsheets_created (start ++ cr ++ hd ++ dt) = 1) as Hone.
  { rewrite !spreadsheets_created_app.
    rewrite (steps_create_no_spreadsheet is_add cr) by auto.
    rewrite (steps_create_no_spreadsheet is_header_write hd) by auto.
    by rewrite (steps_create_no_spreadsheet is_data_write dt) by auto. }
  destruct (export_data eb config csv data (opened config blank st))
    as [[[]|] st4]; simpl in Hlog, Hnone.
  - destruct (export_rest_run config xlsform st4)
      as (st5 & st6 & xl & Hrun5 & Hrun6 & Hlog5 & Hlog6 & Hxl & _ & Hoff).
    rewrite Hrun5, Hrun6. simpl.
    exists cr, hd, dt, xl, (map DelWorksheet (default_sheets (Spreadsheet.feed st5))).
    assert (log st6 = log st ++ (start ++ cr ++ hd ++ dt) ++ xl
                        ++ [GetWorksheetsFeed]
                        ++ map DelWorksheet (default_sheets (Spreadsheet.feed st5)))
      as Hfull by (rewrite Hlog6, Hlog5, Hlog, <- !app_assoc; done).
    split; [done|]. split; [done|]. split; [done|]. split; [done|].
    split; [apply is_delete_map|]. split; [done|].
    split; [by rewrite Hfull, <- !app_assoc|].
    rewrite (new_events_app _ _ _ Hfull).
    repeat rewrite spreadsheets_created_app in Hone.
    repeat rewrite spreadsheets_created_app.
    rewrite (steps_create_no_spreadsheet is_xlsform_copy xl) by auto.
    rewrite (steps_create_no_spreadsheet is_delete (map _ _))
      by (auto using is_delete_map).
    simpl in Hone |- *. lia.
  - simpl. exists cr, hd, dt, [], [].
    split; [done|]. split; [done|]. split; [done|]. split; [done|].
    split; [done|]. split; [by destruct (export_xlsform config)|].
    split; [split; [by apply Hnone|by rewrite Hlog, <- !app_assoc]|].
    rewrite (new_events_app _ _ (start ++ cr ++ hd ++ dt));
      [done|by rewrite Hlog, <- !app_assoc].
Qed.

(** An export returns normally whenever it is flattened, and also when it
    is tabular and the joined export of every record keeps a [dict] under
    the survey name. *)
Lemma export_returns (eb : ExportBuilder) (config : Config)
    (blank : Worksheet) (csv : list (list string)) (data : list (record eb))
    (xlsform : option (list xl_sheet)) (st : self) :
  flatten_repeated_fields config = true
    \/ main_rows_are_dicts eb 1 (no_indices eb) data ->
  (SheetsExportBuilder.export eb config blank csv data xlsform st).1 = Some tt.
Proof.
  intros Hok. rewrite export_unfold.
  destruct (export_data_run eb config csv data (opened config blank st))
    as (_ & _ & _ & _ & _ & _ & _ & _ & _ & Hnone & Hsome).
  destruct (export_data eb config csv data (opened config blank st))
    as [[[]|] st4]; simpl in *.
  - destruct (export_rest_run config xlsform st4)
      as (st5 & st6 & xl & Hrun5 & Hrun6 & _).
    by rewrite Hrun5, Hrun6.
  - destruct Hok as [Hflat|Hmain]; [|by specialize (Hsome Hmain)].
    specialize (Hnone eq_refl). congruence.
Qed.

(** C9. When the flattened CSV has no rows, [export_flattened] returns at
    once: no worksheet is created, no row written, the state is as it
    was.  The export as a whole still returns normally, having run the
    XLSForm step (when [export_xlsform] is set) and the deletion of the
    default worksheet from the state the spreadsheet was opened in. *)
Theorem export_with_empty_csv (eb : ExportBuilder) (config : Config)
    (blank : Worksheet) (data : list (record eb))
    (xlsform : option (list xl_sheet)) (st : self) :
  flatten_repeated_fields config = true ->
  SheetsExportBuilder.export_flattened [] (opened config blank st)
  = (Some tt, opened config blank st)
  /\ exists st5 st6 xl,
       (if export_xlsform config
        then SheetsExportBuilder._insert_xlsform xlsform
        else mret tt) (opened config blank st) = (Some tt, st5)
       /\ SheetsExportBuilder.delete_default_worksheet st5 = (Some tt, st6)
       /\ SheetsExportBuilder.export eb config blank [] data xlsform st
          = (Some tt, st6)
       /\ log st6 = log st
            ++ [Login (google_token config);
                NewSpreadsheet (spreadsheet_title config);
                AddServiceAccount]
            ++ xl
            ++ GetWorksheetsFeed
                 :: map DelWorksheet (default_sheets (Spreadsheet.feed st5))
       /\ created_titles xl = xlsform_titles config xlsform
       /\ Forall is_xlsform_copy xl.
Proof.
  intros Hflat. split; [reflexivity|].
  destruct (export_rest_run config xlsform (opened config blank st))
    as (st5 & st6 & xl & Hrun5 & Hrun6 & Hlog5 & Hlog6 & Hxl & Hct & _).
  exists st5, st6, xl. split; [done|]. split; [done|].
  split; [|split; [|done]].
  - rewrite export_unfold. unfold export_data. rewrite Hflat.
    rewrite export_flattened_empty. by rewrite Hrun5.
  - rewrite Hlog6, Hlog5, opened_log. by rewrite <- !app_assoc.
Qed.

Lemma export_with_empty_csv_witness :
  let config := mkConfig "census 2014" "token" true true in
  (SheetsExportBuilder.export Demo.builder config Demo.blank [] [Demo.alice]
     (Some [Demo.survey_sheet]) Demo.fresh).1 = Some tt.
Proof.
  intros config.
  destruct (export_with_empty_csv Demo.builder config Demo.blank [Demo.alice]
              (Some [Demo.survey_sheet]) Demo.fresh eq_refl)
    as (_ & st5 & st6 & xl & _ & _ & Hrun & _).
  by rewrite Hrun.
Defined.

(** ** The generated titles *)

Lemma dict_values_elem {V} (m : gmap string V) (v : V) :
  v ∈ dict_values m <-> exists k, m !! k = Some v.
Proof.
  unfold dict_values. rewrite list_elem_of_fmap. split.
  - intros ([k v'] & -> & Hin). exists k. by apply elem_of_map_to_list.
  - intros (k & Hk). exists (k, v). split; [done|]. by apply elem_of_map_to_list.
Qed.

Section Titles.

Context (eb : ExportBuilder).

Lemma titles_after_frame (ss : list section) :
  forall (m : gmap string string) (nm : string),
  nm ∉ map name ss -> titles_after eb m ss !! nm = m !! nm.
Proof.
  induction ss as [|s ss IH]; intros m nm Hnm; [done|].
  apply not_elem_of_cons in Hnm as [Hne Hnm].
  simpl. rewrite IH by done. by apply lookup_insert_ne.
Qed.


(** The rule each title follows. *)
Lemma generated_titles_rule (ss : list section) :
  forall (m : gmap string string) (i : nat) (s : section),
  ss !! i = Some s ->
  generated_titles eb m ss !! i
  = Some (get_valid_sheet_name eb (PyStr.replace_char "/" "_" (name s))
            (dict_values (titles_after eb m (take i ss)))).
Proof.
  induction ss as [|s0 ss IH]; intros m i s Hi; [done|].
  destruct i as [|i]; simpl in *; [by simplify_eq|]. by apply IH.
Qed.

(** With distinct section names the dictionary records, under the name of
    each section, the title generated for it. *)
Lemma titles_after_lookup (ss : list section) :
  forall (m : gmap string string) (i : nat) (s : section),
  NoDup (map name ss) -> ss !! i = Some s ->
  titles_after eb m ss !! name s = generated_titles eb m ss !! i.
Proof.
  induction ss as [|s0 ss IH]; intros m i s Hnd Hi; [done|].
  apply NoDup_cons in Hnd as [Hfresh Hnd].
  destruct i as [|i]; simpl in *.
  - simplify_eq. rewrite titles_after_frame by done. apply lookup_insert_eq.
  - by apply IH.
Qed.

(** With distinct section names and a deduplicating
    [get_valid_sheet_name], the generated titles are pairwise distinct,
    and distinct from the titles the dictionary holds for other names. *)
Lemma generated_titles_fresh (ss : list section) :
  deduplicates (get_valid_sheet_name eb) ->
  forall m : gmap string string,
  NoDup (map name ss) ->
  NoDup (generated_titles eb m ss)
  /\ forall k v, m !! k = Some v -> k ∉ map name ss ->
                 v ∉ generated_titles eb m ss.
Proof.
  intros Hdedup. induction ss as [|s ss IH]; intros m Hnd.
  - split; [constructor|]. intros k v _ _ Hin. by apply elem_of_nil in Hin.
  - apply NoDup_cons in Hnd as [Hfresh Hnd]. simpl.
    set (t := get_valid_sheet_name eb _ _).
    destruct (IH (<[name s := t]> m) Hnd) as [IHnd IHold].
    split.
    + apply NoDup_cons. split; [|done].
      apply (IHold (name s) t); [apply lookup_insert_eq|done].
    + intros k v Hk Hnot. apply not_elem_of_cons in Hnot as [Hne Hnot].
      apply not_elem_of_cons. split.
      * intros ->. apply (Hdedup (PyStr.replace_char "/" "_" (name s))
                                  (dict_values m)).
        fold t. apply dict_values_elem. by exists k.
      * apply (IHold k v); [|done]. by rewrite lookup_insert_ne.
Qed.

End Titles.

(** ** The tabular export: final state *)

Lemma export_tabular_data (eb : ExportBuilder) (data : list (record eb))
    (st2 : self) :
  ready (sections eb) st2 ->
  evolves grown (data_row_call eb (worksheets st2) (worksheet_titles st2))
    st2 (SheetsExportBuilder._insert_data eb data st2).2.
Proof.
  intros Hready. unfold SheetsExportBuilder._insert_data.
  by apply insert_data_from_appends.
Qed.

Lemma NoDup_names_index (ss : list section) (i j : nat) (s s' : section) :
  NoDup (map name ss) -> ss !! i = Some s -> ss !! j = Some s' ->
  name s' = name s -> i = j.
Proof.
  intros Hnd Hi Hj Hn.
  apply (NoDup_lookup (map name ss) i j (name s)); [done| |].
  - by rewrite list_lookup_fmap, Hi.
  - rewrite list_lookup_fmap, Hj. simpl. by rewrite Hn.
Qed.



(** ** Worksheets and sections *)



Lemma demo_names_distinct (nm : string) :
  nm <> "household/members"%string ->
  NoDup (map name (sections (Demo.builder_named nm))).
Proof.
  intros Hne. simpl. apply NoDup_cons. split; [|apply NoDup_singleton].
  intros Hin. by apply list_elem_of_singleton in Hin.
Qed.


(** ** The titles of the worksheets of an export *)

Lemma created_titles_steps (P : event -> Prop) (evs : list event) :
  (forall e, P e -> is_header_write e \/ is_data_write e \/ is_delete e) ->
  Forall P evs -> created_titles evs = [].
Proof.
  intros HP. apply created_titles_none. intros e He.
  destruct (HP e He) as [H|[H|H]]; destruct e; simpl in *; tauto.
Qed.

Lemma export_created_titles (eb : ExportBuilder) (config : Config)
    (blank : Worksheet) (csv : list (list string)) (data : list (record eb))
    (xlsform : option (list xl_sheet)) (st : self) :
  let r := SheetsExportBuilder.export eb config blank csv data xlsform st in
  created_titles (new_events st r.2)
  = survey_titles eb config csv st
      ++ match r.1 with
         | Some _ => xlsform_titles config xlsform
         | None => []
         end.
Proof.
  intros r. subst r. rewrite export_unfold.
  destruct (export_data_run eb config csv data (opened config blank st))
    as (cr & hd & dt & Hlog & Hcr & Hhd & Hdt & Hct & _).
  rewrite opened_log in Hlog.
  change (survey_titles eb config csv (opened config blank st))
    with (survey_titles eb config csv st) in Hct.
  assert (created_titles (cr ++ hd ++ dt) = survey_titles eb config csv st)
    as Hbody.
  { rewrite !created_titles_app, Hct.
    rewrite (created_titles_steps is_header_write hd) by auto.
    rewrite (created_titles_steps is_data_write dt) by auto.
    by rewrite !app_nil_r. }
  destruct (export_data eb config csv data (opened config blank st))
    as [[[]|] st4]; simpl in Hlog.
  - destruct (export_rest_run config xlsform st4)
      as (st5 & st6 & xl & Hrun5 & Hrun6 & Hlog5 & Hlog6 & _ & Hxl & _).
    rewrite Hrun5, Hrun6. simpl.
    erewrite (new_events_app st st6);
      [|rewrite Hlog6, Hlog5, Hlog, <- !app_assoc; reflexivity].
    change (GetWorksheetsFeed :: ?l) with ([GetWorksheetsFeed] ++ l).
    rewrite (app_assoc cr), (app_assoc (cr ++ hd)), <- (app_assoc cr).
    rewrite (created_titles_app _ ((cr ++ hd ++ dt) ++ _)).
    rewrite (created_titles_app (cr ++ hd ++ dt)), Hbody.
    rewrite (created_titles_app xl), Hxl.
    rewrite (created_titles_app [GetWorksheetsFeed]).
    rewrite (created_titles_steps is_delete (map _ _))
      by (auto using is_delete_map).
    simpl. by rewrite app_nil_r.
  - simpl. erewrite (new_events_app st st4);
      [|rewrite Hlog, <- !app_assoc; reflexivity].
    rewrite (created_titles_app _ (cr ++ hd ++ dt)), Hbody.
    simpl. by rewrite app_nil_r.
Qed.

(** C1. The code breaks the claim: only [_create_worksheets] passes its
    titles through [get_valid_sheet_name]; [_insert_xlsform] hands the
    names of the workbook's sheets to [add_worksheet] as they are, and
    [export_flattened] the fixed title 'raw'.  A tabular export of a form
    named 'survey' asks for the worksheet 'survey' of the main section
    and then again for a worksheet 'survey', the copy of the XLSForm
    sheet of that name; a flattened export whose workbook has a sheet
    named 'raw' asks twice for a worksheet titled 'raw'. *)
Lemma export_titles_clash :
  let tabular_titles :=
    created_titles
      (new_events Demo.fresh
         (SheetsExportBuilder.export (Demo.builder_named "survey") Demo.tabular
            Demo.blank [] [Demo.alice] (Some Demo.xlsform) Demo.fresh).2) in
  let flattened_titles :=
    created_titles
      (new_events Demo.fresh
         (SheetsExportBuilder.export Demo.builder Demo.flattened
            Demo.blank [["name"]; ["Alice"]]%string [Demo.alice]
            (Some [Demo.sheet_named "raw"]) Demo.fresh).2) in
  tabular_titles
  = ["survey"; "household_members"; "survey"; "choices"; "settings"]%string
  /\ ~ NoDup tabular_titles
  /\ flattened_titles = ["raw"; "raw"]%string
  /\ ~ NoDup flattened_titles.
Proof.
  intros tabular_titles flattened_titles.
  assert (tabular_titles
          = ["survey"; "household_members"; "survey"; "choices"; "settings"]%string)
    as Ht by (vm_compute; reflexivity).
  assert (flattened_titles = ["raw"; "raw"]%string)
    as Hf by (vm_compute; reflexivity).
  rewrite Ht, Hf. repeat split.
  - intros Hnd. apply NoDup_cons in Hnd as [Hin _]. apply Hin.
    right. by left.
  - intros Hnd. apply NoDup_cons in Hnd as [Hin _]. apply Hin. by left.
Qed.

(** The titles of the worksheets an export creates: those of the survey
    data followed, when the export returns, by the names of the XLSForm
    sheets.  With a [get_valid_sheet_name] that returns a name that is
    none of the existing ones and with distinct section names, the
    survey-data titles are pairwise distinct; in a tabular export the
    title of each section is [get_valid_sheet_name] applied to the
    section name with every '/' replaced by '_' and to the titles
    recorded in [worksheet_titles] at that moment. *)
Lemma survey_titles_distinct (eb : ExportBuilder) (config : Config)
    (blank : Worksheet) (csv : list (list string)) (data : list (record eb))
    (xlsform : option (list xl_sheet)) (st : self) :
  deduplicates (get_valid_sheet_name eb) ->
  NoDup (map name (sections eb)) ->
  let r := SheetsExportBuilder.export eb config blank csv data xlsform st in
  let created := created_titles (new_events st r.2) in
  let survey := survey_titles eb config csv st in
  let copied := match r.1 with
                | Some _ => xlsform_titles config xlsform
                | None => []
                end in
  created = survey ++ copied
  /\ NoDup survey
  /\ (if flatten_repeated_fields config
      then survey = match csv with [] => [] | _ :: _ => ["raw"%string] end
      else forall i s, sections eb !! i = Some s ->
             survey !! i
             = Some (get_valid_sheet_name eb
                       (PyStr.replace_char "/" "_" (name s))
                       (dict_values
                          (titles_after eb (worksheet_titles st)
                             (take i (sections eb)))))).
Proof.
  intros Hdedup Hnd r created survey copied.
  split; [apply export_created_titles|]. split.
  - subst survey. unfold survey_titles.
    destruct (flatten_repeated_fields config).
    + destruct csv; [constructor|apply NoDup_singleton].
    + by apply generated_titles_fresh.
  - subst survey. unfold survey_titles.
    destruct (flatten_repeated_fields config); [done|].
    intros i s Hi. by apply generated_titles_rule.
Qed.

Lemma demo_deduplicates (nm : string) :
  deduplicates (get_valid_sheet_name (Demo.builder_named nm)).
Proof.
  intros desired existing. simpl. unfold Demo.valid_sheet_name.
  case_decide as Hin; [|done]. intros Hlong.
  assert (forall l : list string, forall s, s ∈ l ->
            String.length s <= Demo.max_length l) as Hmax.
  { induction l as [|x l IH]; intros s Hs; [by apply elem_of_nil in Hs|].
    apply elem_of_cons in Hs as [->|Hs]; simpl; [lia|].
    specialize (IH s Hs). lia. }
  apply Hmax in Hlong. revert Hlong.
  assert (forall a b, String.length (a +:+ b)
                      = String.length a + String.length b) as Happ
    by (induction a; intros; simpl; [done|by f_equal]).
  assert (forall n, String.length (Demo.ones n) = n) as Hones
    by (induction n; simpl; [done|by f_equal]).
  rewrite Happ, Hones. lia.
Qed.

(** ** The rows written by [write_row] *)

Lemma append_row_cells (w : Worksheet) (values : list value) (i : nat) (v : value) :
  values !! i = Some v ->
  cells (append_row w values).1 !! (row_count w + 1, S i) = Some v.
Proof.
  intros Hv. rewrite append_row_unfold. simpl. unfold row_cells.
  rewrite (store_row_lookup _ (row_count w + 1) 1 values).
  pose proof (lookup_lt_Some _ _ _ Hv).
  case_decide; [|lia]. simpl. by rewrite Nat.sub_0_r.
Qed.

Lemma append_row_updates (ws : nat) (w : Worksheet) (values : list value) :
  updates (map (OnWorksheet ws) (append_row w values).2)
  = [(ws, row_cells (row_count w + 1) values)].
Proof.
  rewrite append_row_unfold. simpl.
  by destruct (col_count w <? length values).
Qed.

Section WriteRow.

Context (eb : ExportBuilder).

Lemma row_values_lookup (data : row) (fields : list string)
    (titles : gmap string string) (i : nat) :
  SheetsExportBuilder.row_values eb data fields titles !! i
  = dict_get (with_parent_title eb titles data) <$> fields !! i.
Proof. unfold SheetsExportBuilder.row_values. apply list_lookup_fmap. Qed.

Lemma with_parent_title_other (titles : gmap string string) (data : row)
    (f : string) :
  f <> PARENT_TABLE_NAME eb ->
  dict_get (with_parent_title eb titles data) f = dict_get data f.
Proof.
  intros Hf. unfold dict_get, with_parent_title.
  by rewrite lookup_insert_ne.
Qed.

Lemma with_parent_title_parent (titles : gmap string string) (data : row) :
  dict_get (with_parent_title eb titles data) (PARENT_TABLE_NAME eb)
  = SheetsExportBuilder.titles_get titles (dict_get data (PARENT_TABLE_NAME eb)).
Proof. unfold dict_get at 1, with_parent_title. by rewrite lookup_insert_eq. Qed.

Lemma write_row_run (data : row) (ws : nat) (fields : list string)
    (titles : gmap string string) (st : self) (w : Worksheet) :
  spreadsheet st !! ws = Some w ->
  let values := SheetsExportBuilder.row_values eb data fields titles in
  SheetsExportBuilder.write_row eb data ws fields titles st
  = (Some (with_parent_title eb titles data),
     mkSelf (<[ws := (append_row w values).1]> (spreadsheet st))
            (next_id st)
            (log st ++ map (OnWorksheet ws) (append_row w values).2)
            (worksheets st) (worksheet_titles st)).
Proof.
  intros Hw values. unfold SheetsExportBuilder.write_row.
  by rewrite bind_run, (on_worksheet_run _ _ _ _ Hw).
Qed.

End WriteRow.

(** C10, as stated, fails: the value written can be a raw section name.
    In the tabular export of the demo form the title generated for the
    section 'census' is 'census' itself, and the rows of the repeat are
    written with 'census' as their parent table. *)
Lemma parent_table_written_is_section_name :
  let st' := (SheetsExportBuilder.export_tabular Demo.builder [Demo.alice]
                Demo.fresh).2 in
  Demo.main_section "census" ∈ sections Demo.builder
  /\ name (Demo.main_section "census") = "census"%string
  /\ worksheet_titles st' !! "census"%string = Some "census"%string
  /\ worksheets st' !! "household/members"%string = Some 1
  /\ SheetsExportBuilder.fields Demo.builder Demo.members !! 2
     = Some (PARENT_TABLE_NAME Demo.builder)
  /\ exists w, spreadsheet st' !! 1 = Some w
               /\ cells w !! (2, 3) = Some (VStr "census").
Proof.
  intros st'.
  split; [by left|]. split; [reflexivity|].
  split; [vm_compute; reflexivity|]. split; [vm_compute; reflexivity|].
  split; [reflexivity|].
  destruct (spreadsheet st' !! 1) as [w|] eqn:Hw.
  - exists w. split; [reflexivity|].
    revert Hw. vm_compute. intros [= <-]. reflexivity.
  - revert Hw. vm_compute. discriminate.
Qed.

(** C10, amended. For every row written by [write_row], the value written
    in a column of the field [PARENT_TABLE_NAME] is the title that
    [worksheet_titles] records under the parent table name of the row
    data (which may be that very name, when the title generated for the
    section is its name); it is [None] when the dictionary has no entry
    for the name and when the row data has no parent table name (or holds
    something that is no string there).  This is the value the row data
    holds after the call, the value in the batched update of the appended
    row and the value the cell holds afterwards. *)
Theorem parent_table_written_as_title (eb : ExportBuilder) (data : row)
    (ws : nat) (fields : list string) (titles : gmap string string)
    (st : self) (w : Worksheet) (i : nat) :
  spreadsheet st !! ws = Some w ->
  fields !! i = Some (PARENT_TABLE_NAME eb) ->
  let r := SheetsExportBuilder.write_row eb data ws fields titles st in
  let written :=
    match data !! PARENT_TABLE_NAME eb with
    | Some (VStr parent) =>
        match titles !! parent with
        | Some t => VStr t
        | None => VNone
        end
    | _ => VNone
    end in
  exists w' cell_list,
    r.1 = Some (<[PARENT_TABLE_NAME eb := written]> data)
    /\ spreadsheet r.2 !! ws = Some w'
    /\ row_count w' = row_count w + 1
    /\ updates (new_events st r.2) = [(ws, cell_list)]
    /\ cell_list !! i = Some (mkCell (row_count w + 1) (S i) written)
    /\ cells w' !! (row_count w + 1, S i) = Some written.
Proof.
  intros Hw Hi r written. subst r.
  rewrite (write_row_run eb data ws fields titles st w Hw). simpl.
  set (values := SheetsExportBuilder.row_values eb data fields titles).
  assert (SheetsExportBuilder.titles_get titles
            (dict_get data (PARENT_TABLE_NAME eb)) = written) as Hwritten.
  { subst written. unfold dict_get.
    by destruct (data !! PARENT_TABLE_NAME eb) as [[]|]. }
  assert (values !! i = Some written) as Hv.
  { subst values. rewrite row_values_lookup, Hi. simpl.
    by rewrite with_parent_title_parent, Hwritten. }
  exists (append_row w values).1, (row_cells (row_count w + 1) values).
  split; [unfold with_parent_title; by rewrite Hwritten|].
  split; [apply lookup_insert_eq|].
  split; [by rewrite append_row_unfold|].
  split; [|split; [|by apply append_row_cells]].
  - erewrite new_events_app; [|reflexivity]. apply append_row_updates.
  - unfold row_cells. by rewrite list_lookup_imap, Hv.
Qed.

Lemma parent_table_written_as_title_witness :
  let st := mkSelf {[ 2 := mkWorksheet "household_members" 1 4 ∅ ]} 3 [] ∅ ∅ in
  let titles : gmap string string := {[ "census" := "census1" ]}%string in
  let data : row := {[ "_parent_table_name" := VStr "census" ]}%string in
  let r := SheetsExportBuilder.write_row Demo.builder data 2
             ["household/members/age"; "_index"; "_parent_table_name"]%string
             titles st in
  exists w', spreadsheet r.2 !! 2 = Some w'
             /\ cells w' !! (2, 3) = Some (VStr "census1").
Proof.
  intros st titles data r.
  destruct (parent_table_written_as_title Demo.builder data 2
              ["household/members/age"; "_index"; "_parent_table_name"]%string
              titles st (mkWorksheet "household_members" 1 4 ∅) 2
              eq_refl eq_refl)
    as (w' & cl & _ & Hw' & _ & _ & _ & Hc).
  exists w'. split; [exact Hw'|exact Hc].
Defined.

(** ** The header rows *)

Section Headers.

Context (eb : ExportBuilder).

Let ss := sections eb.

Lemma insert_header_eq (s : section) (st : self) (h : nat) (w : Worksheet) :
  worksheets st !! name s = Some h ->
  spreadsheet st !! h = Some w ->
  SheetsExportBuilder.insert_header eb s st
  = (Some tt,
     mkSelf (<[h := (update_row w 1 (SheetsExportBuilder.headers eb s)).1]>
               (spreadsheet st))
            (next_id st)
            (log st ++ map (OnWorksheet h)
                         (update_row w 1 (SheetsExportBuilder.headers eb s)).2)
            (worksheets st) (worksheet_titles st)).
Proof.
  intros Hh Hw. unfold SheetsExportBuilder.insert_header. rewrite bind_run.
  unfold get_worksheet. rewrite Hh.
  by rewrite (on_worksheet_run _ _ _ _ Hw).
Qed.

(** Writing the headers of the sections [l] leaves alone every worksheet
    that is not on record for one of them. *)
Lemma insert_headers_frame (l : list section) :
  (forall s, s ∈ l -> s ∈ ss) ->
  forall st, ready ss st ->
  forall h, (forall s, s ∈ l -> worksheets st !! name s <> Some h) ->
  spreadsheet (for_each l (SheetsExportBuilder.insert_header eb) st).2 !! h
  = spreadsheet st !! h.
Proof.
  induction l as [|s l IH]; intros Hin st Hready h Hother; [done|].
  destruct (Hready s) as (h0 & w0 & Hh0 & Hw0 & Hr0); [apply Hin; by left|].
  simpl. rewrite bind_run, (insert_header_eq s st h0 w0 Hh0 Hw0).
  set (st1 := mkSelf _ _ _ _ _).
  destruct (insert_header_run eb s st Hready) as
    (h1 & st1' & evs1 & _ & Hrun1 & _ & _ & _ & Hev1); [apply Hin; by left|].
  rewrite (insert_header_eq s st h0 w0 Hh0 Hw0) in Hrun1.
  assert (st1' = st1) as -> by by simplify_eq.
  rewrite IH.
  - subst st1. simpl. apply lookup_insert_ne. intros ->.
    apply (Hother s); [by left|done].
  - intros s' Hs'. apply Hin. by right.
  - eapply evolves_ready; [|exact Hev1|exact Hready]. done.
  - intros s' Hs'. apply Hother. by right.
Qed.

(** With distinct names and distinct worksheets on record, each worksheet
    ends up with the header of its section in row 1. *)
Lemma insert_headers_content (l : list section) :
  (forall s, s ∈ l -> s ∈ ss) ->
  NoDup (map name l) ->
  forall st, ready ss st ->
  (forall s s', s ∈ l -> s' ∈ l ->
     worksheets st !! name s = worksheets st !! name s' -> name s = name s') ->
  forall s, s ∈ l ->
  exists h w,
    worksheets st !! name s = Some h
    /\ spreadsheet (for_each l (SheetsExportBuilder.insert_header eb) st).2 !! h
       = Some w
    /\ forall j v, SheetsExportBuilder.headers eb s !! j = Some v ->
                   cells w !! (1, S j) = Some v.
Proof.
  induction l as [|s0 l IH]; intros Hin Hnd st Hready Hinj s Hs;
    [by apply elem_of_nil in Hs|].
  apply NoDup_cons in Hnd as [Hfresh Hnd].
  destruct (Hready s0) as (h0 & w0 & Hh0 & Hw0 & Hr0); [apply Hin; by left|].
  destruct (insert_header_run eb s0 st Hready) as
    (h1 & st1' & evs1 & _ & Hrun1 & _ & _ & _ & Hev1); [apply Hin; by left|].
  rewrite (insert_header_eq s0 st h0 w0 Hh0 Hw0) in Hrun1.
  simpl. rewrite bind_run, (insert_header_eq s0 st h0 w0 Hh0 Hw0).
  set (st1 := mkSelf _ _ _ _ _) in *.
  assert (st1' = st1) as -> by by simplify_eq.
  assert (ready ss st1) as Hready1
    by (eapply evolves_ready; [|exact Hev1|exact Hready]; done).
  apply elem_of_cons in Hs as [->|Hs].
  - exists h0, (update_row w0 1 (SheetsExportBuilder.headers eb s0)).1.
    split; [done|]. split.
    + rewrite insert_headers_frame; [apply lookup_insert_eq| |done|].
      * intros s' Hs'. apply Hin. by right.
      * intros s' Hs' Hh'. apply Hfresh.
        apply list_elem_of_fmap. exists s'. split; [|done].
        apply (Hinj s0 s'); [by left|by right|].
        change (worksheets st1) with (worksheets st) in Hh'. congruence.
    + intros j v Hv. by apply update_row_shape.
  - apply (IH (fun y Hy => Hin y (list_elem_of_further _ _ _ Hy)) Hnd st1 Hready1);
      [|done].
    intros a b Ha Hb. apply Hinj; by right.
Qed.

End Headers.

(** C6. In a tabular export, for every section a batched update fills row
    1 of the worksheet on record for the section with the titles of the
    elements of the section, in element order, followed by the names of
    the extra fields, and no row has been added to any worksheet before
    that update.  With pairwise distinct section names, row 1 of that
    worksheet still holds this header when the export is over. *)
Theorem headers_written_first (eb : ExportBuilder) (data : list (record eb))
    (st : self) (s : section) :
  s ∈ sections eb ->
  let st' := (SheetsExportBuilder.export_tabular eb data st).2 in
  let header := map VStr (map el_title (elements s) ++ EXTRA_FIELDS eb) in
  exists h before after,
    worksheets st' !! name s = Some h
    /\ new_events st st'
       = before ++ OnWorksheet h (UpdateCells (row_cells 1 header)) :: after
    /\ Forall (fun e => ~ adds_row e) before
    /\ (forall j v, header !! j = Some v ->
          row_cells 1 header !! j = Some (mkCell 1 (S j) v))
    /\ (NoDup (map name (sections eb)) ->
        exists w, spreadsheet st' !! h = Some w
                  /\ forall j v, header !! j = Some v ->
                                 cells w !! (1, S j) = Some v).
Proof.
  intros Hs st' header. subst st'.
  change header with (SheetsExportBuilder.headers eb s).
  destruct (create_worksheets_run eb (sections eb) st)
    as (st1 & cr & Hrun1 & Hlog1 & Hcr & _ & _ & _ & _ & Hnew & _ & Hws).
  assert (ready (sections eb) st1) as Hready1.
  { intros s' Hs'. destruct (Hws s' Hs') as (i & s'' & Hh & Hi & _).
    destruct (Hnew i s'' Hi) as (w & Hw & Hr & _).
    exists (next_id st + i), w. split; [done|]. split; [done|lia]. }
  destruct (insert_headers_run eb (sections eb) (fun _ H => H) st1 Hready1)
    as (st2 & hd & Hrun2 & Hlog2 & Hhd & Hmem & Hev2).
  assert (ready (sections eb) st2) as Hready2
    by (eapply evolves_ready; [|exact Hev2|exact Hready1]; done).
  assert (SheetsExportBuilder.export_tabular eb data st
          = SheetsExportBuilder._insert_data eb data st2) as ->.
  { unfold SheetsExportBuilder.export_tabular. rewrite bind_run.
    unfold SheetsExportBuilder._create_worksheets. rewrite Hrun1.
    rewrite bind_run. unfold SheetsExportBuilder._insert_headers.
    by rewrite Hrun2. }
  destruct (export_tabular_data eb data st2 Hready2)
    as (Hws3 & _ & _ & Hsh3 & dt & Hlog3 & Hdt).
  set (st' := (SheetsExportBuilder._insert_data eb data st2).2) in *.
  destruct Hev2 as (Hws2 & _).
  destruct (Hmem s Hs) as (h & Hh & Hin).
  apply list_elem_of_split in Hin as (hd1 & hd2 & ->).
  exists h, (cr ++ hd1), (hd2 ++ dt).
  split; [by rewrite Hws3, Hws2|].
  split.
  { apply new_events_app. rewrite Hlog3, Hlog2, Hlog1.
    by rewrite <- !app_assoc. }
  split.
  { apply Forall_app. split.
    - eapply Forall_impl; [exact Hcr|]. apply is_add_no_row.
    - apply Forall_app in Hhd as [Hhd1 _].
      eapply Forall_impl; [exact Hhd1|]. apply is_header_write_no_row. }
  split.
  { intros j v Hv. unfold row_cells. by rewrite list_lookup_imap, Hv. }
  intros Hnd.
  destruct (insert_headers_content eb (sections eb) (fun _ H => H) Hnd st1
              Hready1) with (s := s) as (h' & w & Hh' & Hw & Hcells); [|done|].
  { intros a b Ha Hb Heq.
    destruct (Hws a Ha) as (i & a' & Hia & Hla & Hna).
    destruct (Hws b Hb) as (j & b' & Hjb & Hlb & Hnb).
    assert (i = j) as <- by (rewrite Hia, Hjb in Heq; simplify_eq; lia).
    congruence. }
  assert (h' = h) as -> by congruence.
  rewrite Hrun2 in Hw. simpl in Hw.
  destruct (Hsh3 h w Hw) as (w' & Hw' & [_ Hkeep]).
  exists w'. split; [done|]. intros j v Hv.
  rewrite Hkeep; [by apply Hcells|].
  destruct (Hready2 s Hs) as (h2 & w2 & Hh2 & Hw2 & Hr2).
  assert (h2 = h) as -> by congruence. by simplify_eq.
Qed.

Lemma headers_written_first_witness :
  let st' := (SheetsExportBuilder.export_tabular Demo.builder [Demo.alice]
                Demo.fresh).2 in
  exists h w, worksheets st' !! "household/members"%string = Some h
              /\ spreadsheet st' !! h = Some w
              /\ cells w !! (1, 1) = Some (VStr "Age").
Proof.
  intros st'.
  destruct (headers_written_first Demo.builder [Demo.alice] Demo.fresh
              Demo.members)
    as (h & before & after & Hh & _ & _ & _ & Hfinal).
  { right. by left. }
  destruct (Hfinal (demo_names_distinct "census" ltac:(done)))
    as (w & Hw & Hcells).
  exists h, w. split; [exact Hh|]. split; [exact Hw|].
  apply (Hcells 0). reflexivity.
Defined.

(** * Further properties of the module *)

(** ** Properties kept by every step *)

Lemma preserves_ret {A} (I : self -> Prop) (a : A) : preserves I (mret a).
Proof. by intros st. Qed.

Lemma preserves_raise {A} (I : self -> Prop) : preserves I (@raise A).
Proof. by intros st. Qed.

Lemma preserves_gets {A} (I : self -> Prop) (f : self -> A) : preserves I (gets f).
Proof. by intros st. Qed.

Lemma preserves_get_worksheet (I : self -> Prop) (nm : string) :
  preserves I (get_worksheet nm).
Proof. intros st HI. unfold get_worksheet. by destruct (worksheets st !! nm). Qed.

Lemma preserves_bind {A B} (I : self -> Prop) (m : M A) (f : A -> M B) :
  preserves I m -> (forall a, preserves I (f a)) -> preserves I (m ≫= f).
Proof.
  intros Hm Hf st HI. rewrite bind_run. specialize (Hm st HI).
  destruct (m st) as [[a|] st1]; simpl in *; [by apply Hf|done].
Qed.

Lemma preserves_for_each {A} (I : self -> Prop) (l : list A) (body : A -> M unit) :
  (forall x, x ∈ l -> preserves I (body x)) -> preserves I (for_each l body).
Proof.
  induction l as [|x l IH]; intros Hbody; [by intros st|].
  simpl. apply preserves_bind; [apply Hbody; by left|].
  intros _. apply IH. intros y Hy. apply Hbody. by right.
Qed.

Lemma preserves_for_each_changed {A} (I : self -> Prop) (l : list A)
    (body : A -> M A) :
  (forall x, x ∈ l -> preserves I (body x)) ->
  preserves I (for_each_changed l body).
Proof.
  induction l as [|x l IH]; intros Hbody; [by intros st|].
  simpl. apply preserves_bind; [apply Hbody; by left|].
  intros x'. apply preserves_bind; [|intros l'; apply preserves_ret].
  apply IH. intros y Hy. apply Hbody. by right.
Qed.

Lemma preserves_for_each_on {A B} (I : self -> Prop) (l : list A)
    (body : B -> A -> M B) :
  (forall obj x, x ∈ l -> preserves I (body obj x)) ->
  forall obj, preserves I (for_each_on l obj body).
Proof.
  induction l as [|x l IH]; intros Hbody obj; [by intros st|].
  simpl. apply preserves_bind; [apply Hbody; by left|].
  intros obj'. apply IH. intros o y Hy. apply Hbody. by right.
Qed.

(** ** The worksheets the feed lists *)

Lemma bounded_emit (e : event) : preserves bounded (emit e).
Proof. by intros st. Qed.

Lemma bounded_set_worksheet (nm : string) (ws : nat) :
  preserves bounded (set_worksheet nm ws).
Proof. by intros st. Qed.

Lemma bounded_set_worksheet_title (nm t : string) :
  preserves bounded (set_worksheet_title nm t).
Proof. by intros st. Qed.

Lemma bounded_add_worksheet (t : string) (rows cols : nat) :
  preserves bounded (Spreadsheet.add_worksheet t rows cols).
Proof.
  intros st Hb h. simpl. destruct (decide (h = next_id st)) as [->|Hne]; [lia|].
  rewrite lookup_insert_ne by done. intros Hh. specialize (Hb h Hh). lia.
Qed.

Lemma bounded_on_worksheet (ws : nat) (call : Worksheet -> Worksheet * list ws_call) :
  preserves bounded (Spreadsheet.on_worksheet ws call).
Proof.
  intros st Hb. unfold Spreadsheet.on_worksheet.
  destruct (spreadsheet st !! ws) as [w|] eqn:Hw; [|done].
  destruct (call w) as [w' calls]. intros h. simpl.
  destruct (decide (h = ws)) as [->|Hne].
  - intros _. apply Hb. by rewrite Hw.
  - rewrite lookup_insert_ne by done. apply Hb.
Qed.

Lemma bounded_del_worksheet (ws : nat) : preserves bounded (Spreadsheet.del_worksheet ws).
Proof.
  intros st Hb h. simpl. destruct (decide (h = ws)) as [->|Hne].
  - rewrite lookup_delete_eq. by intros [? ?].
  - rewrite lookup_delete_ne by done. apply Hb.
Qed.

Lemma bounded_opened (config : Config) (blank : Worksheet) (st : self) :
  bounded (opened config blank st).
Proof.
  intros h. simpl. destruct (decide (h = 0)) as [->|Hne]; [lia|].
  rewrite lookup_singleton_ne by done. by intros [? ?].
Qed.

Lemma bounded_export_flattened (csv : list (list string)) :
  preserves bounded (SheetsExportBuilder.export_flattened csv).
Proof.
  unfold SheetsExportBuilder.export_flattened.
  destruct (map (map SheetsExportBuilder.filter_na) csv) as [|first rows];
    [apply preserves_ret|].
  apply preserves_bind; [apply bounded_add_worksheet|].
  intros ws. apply preserves_for_each. intros [index values] _.
  apply bounded_on_worksheet.
Qed.

Lemma bounded_insert_xlsform (xlsform : option (list xl_sheet)) :
  preserves bounded (SheetsExportBuilder._insert_xlsform xlsform).
Proof.
  destruct xlsform as [workbook|]; [|apply preserves_ret].
  apply preserves_for_each. intros nm _.
  unfold SheetsExportBuilder.copy_sheet.
  destruct (SheetsExportBuilder.sheet_by_name workbook nm) as [src|];
    [|apply preserves_raise].
  apply preserves_bind; [apply bounded_add_worksheet|].
  intros ws. apply preserves_for_each. intros r _. apply bounded_on_worksheet.
Qed.

Section BoundedTabular.

Context (eb : ExportBuilder).

Lemma bounded_create_worksheets :
  preserves bounded (SheetsExportBuilder._create_worksheets eb).
Proof.
  apply preserves_for_each. intros s _.
  unfold SheetsExportBuilder.create_worksheet.
  apply preserves_bind; [apply preserves_gets|]. intros titles.
  apply preserves_bind; [apply bounded_set_worksheet_title|]. intros _.
  apply preserves_bind; [apply bounded_add_worksheet|]. intros ws.
  apply bounded_set_worksheet.
Qed.

Lemma bounded_insert_headers :
  preserves bounded (SheetsExportBuilder._insert_headers eb).
Proof.
  apply preserves_for_each. intros s _.
  unfold SheetsExportBuilder.insert_header.
  apply preserves_bind; [apply preserves_get_worksheet|]. intros ws.
  apply bounded_on_worksheet.
Qed.

Lemma bounded_write_section_row (s : section) (ws : nat) (r : row) :
  preserves bounded (SheetsExportBuilder.write_section_row eb s ws r).
Proof.
  unfold SheetsExportBuilder.write_section_row.
  apply preserves_bind; [apply preserves_gets|]. intros titles.
  unfold SheetsExportBuilder.write_row.
  apply preserves_bind; [apply bounded_on_worksheet|].
  intros _. apply preserves_ret.
Qed.

Lemma bounded_write_section (output : gmap string section_rows) (s : section) :
  preserves bounded (SheetsExportBuilder.write_section eb output s).
Proof.
  unfold SheetsExportBuilder.write_section.
  apply preserves_bind; [apply preserves_get_worksheet|]. intros ws.
  destruct (output !! name s) as [[r|rs]|].
  - apply preserves_bind; [apply bounded_write_section_row|].
    intros r'. apply preserves_ret.
  - apply preserves_bind; [|intros rs'; apply preserves_ret].
    apply preserves_for_each_changed. intros r _.
    apply bounded_write_section_row.
  - apply preserves_ret.
Qed.

Lemma preserves_set_item (I : self -> Prop) (output : gmap string section_rows)
    (sn key : string) (v : value) :
  preserves I (SheetsExportBuilder.set_item output sn key v).
Proof.
  unfold SheetsExportBuilder.set_item.
  destruct (output !! sn) as [[d|l]|];
    [apply preserves_ret|apply preserves_raise..].
Qed.

Lemma bounded_insert_data (data : list (record eb)) :
  preserves bounded (SheetsExportBuilder._insert_data eb data).
Proof.
  unfold SheetsExportBuilder._insert_data.
  generalize 1 (no_indices eb).
  induction data as [|d data IH]; intros index idx; [apply preserves_ret|].
  simpl. destruct (dict_to_joined_export eb d index idx (survey_name eb))
    as [joined idx'].
  apply preserves_bind; [apply preserves_set_item|]. intros out1.
  apply preserves_bind; [apply preserves_set_item|]. intros out2.
  apply preserves_bind; [|intros _; apply IH].
  apply preserves_for_each_on. intros out s _. apply bounded_write_section.
Qed.

Lemma bounded_export_data (config : Config) (csv : list (list string))
    (data : list (record eb)) :
  preserves bounded (export_data eb config csv data).
Proof.
  unfold export_data. destruct (flatten_repeated_fields config).
  - apply bounded_export_flattened.
  - unfold SheetsExportBuilder.export_tabular.
    apply preserves_bind; [apply bounded_create_worksheets|]. intros _.
    apply preserves_bind; [apply bounded_insert_headers|]. intros _.
    apply bounded_insert_data.
Qed.

End BoundedTabular.

(** ** Deleting the default worksheet *)

Lemma feed_elem (st : self) (h : nat) (w : Worksheet) :
  (h, w) ∈ Spreadsheet.feed st <-> h < next_id st /\ spreadsheet st !! h = Some w.
Proof.
  unfold Spreadsheet.feed. rewrite list_elem_of_omap. split.
  - intros (k & Hk & Hf). apply elem_of_seq in Hk.
    destruct (spreadsheet st !! k) as [w'|] eqn:Hw; simplify_eq/=.
    split; [lia|done].
  - intros [Hh Hw]. exists h. split; [apply elem_of_seq; lia|].
    by rewrite Hw.
Qed.

Lemma default_sheets_elem (feed : list (nat * Worksheet)) (h : nat) :
  h ∈ default_sheets feed
  <-> exists w, (h, w) ∈ feed /\ title w = "Sheet1"%string.
Proof.
  unfold default_sheets. rewrite list_elem_of_fmap. split.
  - intros ([h' w] & -> & Hin). apply list_elem_of_filter in Hin as [Ht Hin].
    by exists w.
  - intros (w & Hin & Ht). exists (h, w). split; [done|].
    by apply list_elem_of_filter.
Qed.

Lemma delete_loop_sheets (feed : list (nat * Worksheet)) :
  forall st h,
  spreadsheet
    (for_each feed (fun '(ws, w) =>
       if decide (title w = "Sheet1"%string)
       then Spreadsheet.del_worksheet ws else mret tt) st).2 !! h
  = if decide (h ∈ default_sheets feed) then None else spreadsheet st !! h.
Proof.
  unfold default_sheets.
  induction feed as [|[ws w] feed IH]; intros st h.
  - by simpl.
  - simpl. rewrite bind_run. rewrite filter_cons. simpl.
    destruct (decide (title w = "Sheet1"%string)) as [Ht|Ht].
    + unfold Spreadsheet.del_worksheet at 1. cbv beta iota. rewrite IH. simpl.
      destruct (decide (h = ws)) as [->|Hne].
      * rewrite lookup_delete_eq.
        rewrite (decide_True (P := ws ∈ ws :: _)) by (by left).
        by case_decide.
      * rewrite lookup_delete_ne by done. apply decide_ext.
        rewrite elem_of_cons. tauto.
    + exact (IH st h).
Qed.

Lemma delete_default_worksheet_sheets (st : self) (h : nat) :
  bounded st ->
  spreadsheet (SheetsExportBuilder.delete_default_worksheet st).2 !! h
  = spreadsheet st !! h ≫= unless_default.
Proof.
  intros Hb. unfold SheetsExportBuilder.delete_default_worksheet.
  unfold Spreadsheet.get_worksheets_feed. rewrite !bind_run.
  unfold emit at 1, gets at 1. cbv beta iota.
  rewrite delete_loop_sheets. simpl.
  change (Spreadsheet.feed (mkSelf (spreadsheet st) (next_id st)
            (log st ++ [GetWorksheetsFeed]) (worksheets st)
            (worksheet_titles st)))
    with (Spreadsheet.feed st).
  unfold unless_default.
  destruct (spreadsheet st !! h) as [w|] eqn:Hw; simpl.
  - apply decide_ext. rewrite default_sheets_elem. split.
    + intros (w' & Hin & Ht). apply feed_elem in Hin as [_ Hw']. congruence.
    + intros Ht. exists w. split; [|done]. apply feed_elem. split; [|done].
      apply Hb. by rewrite Hw.
  - by case_decide.
Qed.

Lemma delete_default_worksheet_titles (st : self) (h : nat) (w : Worksheet) :
  bounded st ->
  spreadsheet (SheetsExportBuilder.delete_default_worksheet st).2 !! h = Some w ->
  title w <> "Sheet1"%string.
Proof.
  intros Hb Hw. rewrite delete_default_worksheet_sheets in Hw by done.
  unfold unless_default in Hw.
  destruct (spreadsheet st !! h) as [w0|]; simpl in Hw; [|done].
  case_decide; by simplify_eq.
Qed.

(** X5. The deletion loop that ends [export] returns normally, fetches
    the worksheets feed once, deletes exactly the worksheets of the feed
    titled 'Sheet1', in feed order, and leaves every other worksheet as it
    was; no worksheet titled 'Sheet1' is left. *)
Theorem delete_default_worksheet_spec (st : self) :
  bounded st ->
  let r := SheetsExportBuilder.delete_default_worksheet st in
  r.1 = Some tt
  /\ (forall h, spreadsheet r.2 !! h = spreadsheet st !! h ≫= unless_default)
  /\ (forall h w, spreadsheet r.2 !! h = Some w -> title w <> "Sheet1"%string)
  /\ new_events st r.2
     = GetWorksheetsFeed
         :: map DelWorksheet (default_sheets (Spreadsheet.feed st)).
Proof.
  intros Hb r.
  split; [|split; [|split]].
  - subst r. by destruct (delete_default_worksheet_run st) as (st' & -> & _).
  - intros h. by apply delete_default_worksheet_sheets.
  - intros h w. by apply delete_default_worksheet_titles.
  - subst r. destruct (delete_default_worksheet_run st) as (st' & -> & Hlog & _).
    by apply new_events_app.
Qed.

Lemma export_final_state (eb : ExportBuilder) (config : Config)
    (blank : Worksheet) (csv : list (list string)) (data : list (record eb))
    (xlsform : option (list xl_sheet)) (st : self) :
  (SheetsExportBuilder.export eb config blank csv data xlsform st).1 = Some tt ->
  exists st5,
    bounded st5
    /\ SheetsExportBuilder.export eb config blank csv data xlsform st
       = SheetsExportBuilder.delete_default_worksheet st5.
Proof.
  rewrite export_unfold.
  pose proof (bounded_export_data eb config csv data _
                (bounded_opened config blank st)) as Hb4.
  destruct (export_data eb config csv data (opened config blank st))
    as [[[]|] st4]; simpl in *; [|done].
  assert (preserves bounded
            (if export_xlsform config
             then SheetsExportBuilder._insert_xlsform xlsform
             else mret tt)) as Hxl
    by (destruct (export_xlsform config);
        [apply bounded_insert_xlsform|apply preserves_ret]).
  specialize (Hxl st4 Hb4).
  destruct ((if export_xlsform config
             then SheetsExportBuilder._insert_xlsform xlsform
             else mret tt) st4) as [[[]|] st5]; simpl in *; [|done].
  intros _. by exists st5.
Qed.

(** X4. After an [export] that returns, no worksheet of the
    spreadsheet is titled 'Sheet1', whichever worksheets the export itself
    created under that title. *)
Theorem export_leaves_no_default_title (eb : ExportBuilder) (config : Config)
    (blank : Worksheet) (csv : list (list string)) (data : list (record eb))
    (xlsform : option (list xl_sheet)) (st : self) (h : nat) (w : Worksheet) :
  let r := SheetsExportBuilder.export eb config blank csv data xlsform st in
  r.1 = Some tt ->
  spreadsheet r.2 !! h = Some w ->
  title w <> "Sheet1"%string.
Proof.
  intros r Hret. subst r.
  destruct (export_final_state eb config blank csv data xlsform st Hret)
    as (st5 & Hb & ->).
  by apply delete_default_worksheet_titles.
Qed.

(** ** The copy of the XLSForm *)

Lemma copy_rows_run (h : nat) (src : xl_sheet) (l : list nat) :
  forall (st : self) (w : Worksheet),
  spreadsheet st !! h = Some w ->
  exists evs,
    for_each l (fun r =>
      Spreadsheet.on_worksheet h (fun w =>
        update_row w (r + 1) (map (cell_value src r) (seq 0 (ncols src))))) st
    = (Some tt, mkSelf (<[h := copied_rows src l w]> (spreadsheet st)) (next_id st)
                       (log st ++ evs) (worksheets st) (worksheet_titles st)).
Proof.
  induction l as [|r l IH]; intros st w Hw.
  - exists []. simpl. destruct st; simpl in *.
    by rewrite insert_id, app_nil_r.
  - simpl. rewrite bind_run, (on_worksheet_run _ _ _ _ Hw).
    set (st1 := mkSelf _ _ _ _ _).
    edestruct (IH st1) as (evs & Hrun); [apply lookup_insert_eq|].
    eexists. etransitivity; [exact Hrun|]. subst st1. simpl.
    rewrite insert_insert_eq. by rewrite <- app_assoc.
Qed.

Lemma copied_rows_spec (src : xl_sheet) (l : list nat) :
  forall w : Worksheet,
  ncols src <= col_count w ->
  let w' := copied_rows src l w in
  title w' = title w
  /\ row_count w' = row_count w
  /\ col_count w' = col_count w
  /\ (forall r c, r ∈ l -> c < ncols src ->
        cells w' !! (r + 1, c + 1) = Some (cell_value src r c))
  /\ (forall r' c, (forall r, r ∈ l -> r + 1 <> r') ->
        cells w' !! (r', c) = cells w !! (r', c)).
Proof.
  induction l as [|a l IH]; intros w Hfit; simpl.
  - repeat split; try done. intros r c Hr. by apply elem_of_nil in Hr.
  - set (values := map (cell_value src a) (seq 0 (ncols src))).
    assert (length values = ncols src) as Hlen
      by (subst values; by rewrite length_map, length_seq).
    pose proof (update_row_shape w (a + 1) values)
      as (_ & Hcol & Hrow & Htitle).
    simpl in Hcol. rewrite Hlen in Hcol.
    assert ((col_count w <? ncols src) = false) as Hnarrow
      by (apply Nat.ltb_ge; lia).
    rewrite Hnarrow in Hcol.
    set (w1 := (update_row w (a + 1) values).1) in *.
    destruct (IH w1) as (Ht & Hr & Hc & Hcells & Hframe); [lia|].
    fold (copied_rows src l w1).
    split; [congruence|]. split; [congruence|]. split; [congruence|].
    split.
    + intros r c Hr' Hc'.
      destruct (decide (r ∈ l)) as [Hin|Hout]; [by apply Hcells|].
      apply elem_of_cons in Hr' as [->|Hr']; [|done].
      rewrite Hframe.
      * subst w1. rewrite update_row_cells.
        rewrite decide_True by lia.
        replace (c + 1 - 1) with c by lia. subst values.
        rewrite list_lookup_fmap, lookup_seq_lt by done. done.
      * intros r0 Hr0 Heq. assert (r0 = a) as -> by lia. done.
    + intros r' c Hother. rewrite Hframe.
      * subst w1. rewrite update_row_cells.
        rewrite decide_False; [done|].
        intros [-> _]. apply (Hother a); [by left|done].
      * intros r0 Hr0. apply Hother. by right.
Qed.

Lemma copy_sheet_state (workbook : list xl_sheet) (nm : string) (src : xl_sheet)
    (st : self) :
  SheetsExportBuilder.sheet_by_name workbook nm = Some src ->
  exists evs,
    SheetsExportBuilder.copy_sheet workbook nm st
    = (Some tt,
       mkSelf (<[next_id st :=
                   copied_rows src (seq 0 (nrows src))
                     (mkWorksheet nm (nrows src) (ncols src) ∅)]> (spreadsheet st))
              (S (next_id st)) (log st ++ evs)
              (worksheets st) (worksheet_titles st)).
Proof.
  intros Hsrc. unfold SheetsExportBuilder.copy_sheet. rewrite Hsrc.
  rewrite bind_run. unfold Spreadsheet.add_worksheet at 1. cbv beta iota.
  set (st1 := mkSelf _ _ _ _ _).
  edestruct (copy_rows_run (next_id st) src (seq 0 (nrows src)) st1)
    as (evs & Hrun); [apply lookup_insert_eq|].
  eexists. etransitivity; [exact Hrun|]. subst st1. simpl.
  rewrite insert_insert_eq. by rewrite <- app_assoc.
Qed.

Lemma copy_sheets_frame (workbook : list xl_sheet) (names : list string) :
  (forall nm, nm ∈ names -> nm ∈ map sh_name workbook) ->
  forall st,
  let st' := (for_each names (SheetsExportBuilder.copy_sheet workbook) st).2 in
  next_id st' = next_id st + length names
  /\ forall h, h < next_id st -> spreadsheet st' !! h = spreadsheet st !! h.
Proof.
  induction names as [|nm names IH]; intros Hin st; simpl.
  - split; [lia|done].
  - destruct (sheet_by_name_some workbook nm) as (src & Hsrc & _);
      [apply Hin; by left|].
    destruct (copy_sheet_state workbook nm src st Hsrc) as (evs & Hrun).
    rewrite bind_run, Hrun. set (st1 := mkSelf _ _ _ _ _).
    destruct (IH (fun n Hn => Hin n (list_elem_of_further _ _ _ Hn)) st1)
      as [Hnext Hold].
    split; [rewrite Hnext; subst st1; simpl; lia|].
    intros h Hh. rewrite Hold by (subst st1; simpl; lia).
    subst st1. simpl. apply lookup_insert_ne. lia.
Qed.

(** X8. [_insert_xlsform] returns normally and copies each sheet of
    the workbook that [sheet_by_name] finds under its name: the worksheet
    created for the sheet at position [i] carries the sheet's name, has the
    sheet's numbers of rows and columns, and holds source cell
    [(row, col)] at row [row + 1], column [col + 1]. *)
Theorem insert_xlsform_copies (workbook : list xl_sheet) (st : self)
    (i : nat) (src : xl_sheet) :
  workbook !! i = Some src ->
  SheetsExportBuilder.sheet_by_name workbook (sh_name src) = Some src ->
  let r := SheetsExportBuilder._insert_xlsform (Some workbook) st in
  exists w,
    r.1 = Some tt
    /\ spreadsheet r.2 !! (next_id st + i) = Some w
    /\ title w = sh_name src
    /\ row_count w = nrows src
    /\ col_count w = ncols src
    /\ forall row col, row < nrows src -> col < ncols src ->
         cells w !! (row + 1, col + 1) = Some (cell_value src row col).
Proof.
  intros Hi Hsrc r. subst r. simpl.
  assert (forall names, (forall nm, nm ∈ names -> nm ∈ map sh_name workbook) ->
          forall st0 j, names !! j = Some (sh_name src) ->
          spreadsheet
            (for_each names (SheetsExportBuilder.copy_sheet workbook) st0).2
            !! (next_id st0 + j)
          = Some (copied_rows src (seq 0 (nrows src))
                    (mkWorksheet (sh_name src) (nrows src) (ncols src) ∅)))
    as Hcopy.
  { induction names as [|nm names IH]; intros Hin st0 j Hj; [done|].
    destruct (sheet_by_name_some workbook nm) as (src0 & Hsrc0 & _);
      [apply Hin; by left|].
    destruct (copy_sheet_state workbook nm src0 st0 Hsrc0) as (evs & Hrun).
    simpl. rewrite bind_run, Hrun. set (st1 := mkSelf _ _ _ _ _).
    destruct j as [|j]; simpl in Hj.
    - simplify_eq. rewrite Nat.add_0_r.
      destruct (copy_sheets_frame workbook names
                  (fun n Hn => Hin n (list_elem_of_further _ _ _ Hn)) st1)
        as [_ Hold].
      rewrite Hold by (subst st1; simpl; lia).
      subst st1. simpl. apply lookup_insert_eq.
    - replace (next_id st0 + S j) with (next_id st1 + j)
        by (subst st1; simpl; lia).
      apply IH; [|done]. intros n Hn. apply Hin. by right. }
  destruct (copy_sheets_run workbook (map sh_name workbook) (fun _ H => H) st)
    as (st' & evs & Hrun & _).
  specialize (Hcopy (map sh_name workbook) (fun _ H => H) st i).
  rewrite list_lookup_fmap, Hi in Hcopy. specialize (Hcopy eq_refl).
  destruct (copied_rows_spec src (seq 0 (nrows src))
              (mkWorksheet (sh_name src) (nrows src) (ncols src) ∅))
    as (Ht & Hr & Hc & Hcells & _); [simpl; lia|].
  eexists. split; [by rewrite Hrun|]. split; [exact Hcopy|].
  split; [done|]. split; [done|]. split; [done|].
  intros row col Hrow Hcol. apply Hcells; [|done]. apply elem_of_seq. lia.
Qed.

(** ** Rows of a worksheet *)

Lemma update_row_width (ws : Worksheet) (index : nat) (values : list value) :
  col_count (update_row ws index values).1
  = Nat.max (col_count ws) (length values).
Proof.
  rewrite update_row_unfold. simpl.
  destruct (col_count ws <? length values) eqn:Hlt.
  - apply Nat.ltb_lt in Hlt. lia.
  - apply Nat.ltb_ge in Hlt. lia.
Qed.

(** X1. [update_row] touches one row only: every cell outside row [index], or
    in that row but beyond the values written (column 0 or a column after
    [len(values)]), keeps what it held, and the worksheet ends with the
    larger of its old width and [len(values)] as column count, so it is
    never narrowed. *)
Theorem update_row_frame (ws : Worksheet) (index : nat) (values : list value) :
  let ws' := (update_row ws index values).1 in
  (forall r c, r <> index \/ c = 0 \/ length values < c ->
     cells ws' !! (r, c) = cells ws !! (r, c))
  /\ col_count ws' = Nat.max (col_count ws) (length values)
  /\ col_count ws <= col_count ws'.
Proof.
  simpl. split; [|rewrite update_row_unfold; simpl].
  - intros r c Hout. rewrite update_row_cells. case_decide; [lia|done].
  - destruct (col_count ws <? length values) eqn:Hlt.
    + apply Nat.ltb_lt in Hlt. lia.
    + apply Nat.ltb_ge in Hlt. lia.
Qed.

Lemma worksheet_eq (a b : Worksheet) :
  title a = title b -> row_count a = row_count b -> col_count a = col_count b ->
  (forall r c, cells a !! (r, c) = cells b !! (r, c)) -> a = b.
Proof.
  destruct a, b; simpl. intros -> -> -> Hcells. f_equal.
  apply map_eq. intros [r c]. apply Hcells.
Qed.

(** X2. Writing a row over an earlier, not longer row at the same index
    leaves the worksheet exactly as if only the later row had been written;
    and writing the same row a second time changes nothing and issues the
    one [update_cells] call without any [resize]. *)
Theorem update_row_again (ws : Worksheet) (index : nat) (old new : list value) :
  length old <= length new ->
  (update_row (update_row ws index old).1 index new).1
  = (update_row ws index new).1
  /\ update_row (update_row ws index new).1 index new
     = ((update_row ws index new).1, [UpdateCells (row_cells index new)]).
Proof.
  intros Hlen.
  assert (forall a b : list value, length a <= length b ->
            (update_row (update_row ws index a).1 index b).1
            = (update_row ws index b).1) as Hover.
  { intros a b Hab. apply worksheet_eq.
    - by rewrite !update_row_unfold.
    - by rewrite !update_row_unfold.
    - rewrite !update_row_width. lia.
    - intros r c. rewrite !update_row_cells.
      repeat case_decide; try done; lia. }
  split; [by apply Hover|].
  rewrite <- (Hover new new) at 2 by done.
  rewrite (update_row_unfold (update_row ws index new).1).
  pose proof (update_row_width ws index new) as Hcol.
  assert ((col_count (update_row ws index new).1 <? length new) = false)
    as Hfits by (apply Nat.ltb_ge; lia).
  rewrite Hfits. reflexivity.
Qed.

(** ** The size of the flattened worksheet *)

Lemma write_rows_width (h : nat) (rows : list (list string)) :
  forall (k : nat) (st : self) (w : Worksheet),
  spreadsheet st !! h = Some w ->
  exists w' evs,
    for_each (PyStr.enumerate k rows) (fun '(index, values) =>
      Spreadsheet.on_worksheet h (fun w => update_row w index (map VStr values))) st
    = (Some tt, mkSelf (<[h := w']> (spreadsheet st)) (next_id st)
                       (log st ++ evs) (worksheets st) (worksheet_titles st))
    /\ row_count w' = row_count w
    /\ col_count w' = Nat.max (col_count w) (max_list (length <$> rows)).
Proof.
  induction rows as [|r0 rows IH]; intros k st w Hw.
  - exists w, []. simpl. destruct st; simpl in *.
    rewrite insert_id by done. rewrite app_nil_r.
    split; [done|]. split; [done|lia].
  - simpl. rewrite bind_run, (on_worksheet_run _ _ _ _ Hw).
    set (w1 := (update_row w k (map VStr r0)).1).
    set (st1 := mkSelf _ _ _ _ _).
    destruct (IH (S k) st1 w1) as (w' & evs & Hrun & Hr & Hc);
      [apply lookup_insert_eq|].
    pose proof (update_row_width w k (map VStr r0)) as Hc1.
    destruct (update_row_shape w k (map VStr r0)) as (_ & _ & Hr1 & _).
    rewrite length_map in Hc1. fold w1 in Hc1, Hr1.
    eexists w', _. split; [|split].
    + etransitivity; [exact Hrun|]. subst st1. simpl.
      rewrite insert_insert_eq. by rewrite <- app_assoc.
    + congruence.
    + rewrite Hc, Hc1. symmetry. apply Nat.max_assoc.
Qed.

Lemma filter_na_lengths (rows : list (list string)) :
  length <$> map (map SheetsExportBuilder.filter_na) rows = length <$> rows.
Proof.
  induction rows as [|r rows IH]; [done|].
  simpl. rewrite length_map. f_equal. exact IH.
Qed.

(** X6. For a CSV that has rows, [export_flattened] leaves a worksheet
    with one row per CSV row and as many columns as the longest CSV row
    has cells: the worksheet is created as wide as the first row and
    widened by the longer rows that follow. *)
Theorem flattened_worksheet_size (csv : list (list string)) (st : self) :
  csv <> [] ->
  let st' := (SheetsExportBuilder.export_flattened csv st).2 in
  exists w,
    spreadsheet st' !! next_id st = Some w
    /\ row_count w = length csv
    /\ col_count w = max_list (length <$> csv).
Proof.
  intros Hne st'. destruct csv as [|first rest]; [done|].
  set (rows := map (map SheetsExportBuilder.filter_na) (first :: rest)).
  assert (SheetsExportBuilder.export_flattened (first :: rest) st
          = (Spreadsheet.add_worksheet "raw" (length rows)
               (length (map SheetsExportBuilder.filter_na first))
             ≫= fun ws0 =>
                  for_each (PyStr.enumerate 1 rows) (fun '(index, values) =>
                    Spreadsheet.on_worksheet ws0
                      (fun w0 => update_row w0 index (map VStr values)))) st)
    as Hunfold by reflexivity.
  subst st'. rewrite Hunfold. clear Hunfold.
  rewrite bind_run. unfold Spreadsheet.add_worksheet at 1. cbv beta iota.
  set (w0 := mkWorksheet _ _ _ _). set (st1 := mkSelf _ _ _ _ _).
  destruct (write_rows_width (next_id st) rows 1 st1 w0) as
    (w & evs & Hrun & Hr & Hc); [apply lookup_insert_eq|].
  exists w. split; [|split].
  - etransitivity; [by rewrite Hrun|]. simpl. apply lookup_insert_eq.
  - rewrite Hr. subst w0 rows. simpl. by rewrite length_map.
  - rewrite Hc. subst rows. rewrite filter_na_lengths.
    change (col_count w0) with (length (map SheetsExportBuilder.filter_na first)).
    rewrite length_map.
    change (max_list (length <$> first :: rest))
      with (Nat.max (length first) (max_list (length <$> rest))).
    lia.
Qed.

(** ** Composing steps that keep a property and a relation *)

Section Respects.

Context (I : self -> Prop) (R : self -> self -> Prop).
Hypothesis R_refl : forall st, R st st.
Hypothesis R_trans : forall a b c, R a b -> R b c -> R a c.

Lemma respects_ret {A} (a : A) (st : self) : I st -> respects_at I R (mret a) st.
Proof. intros HI. by split. Qed.

Lemma respects_raise {A} (st : self) : I st -> respects_at I R (@raise A) st.
Proof. intros HI. by split. Qed.

Lemma respects_bind {A B} (m : M A) (f : A -> M B) (st : self) :
  respects_at I R m st ->
  (forall a st1, m st = (Some a, st1) -> I st1 -> respects_at I R (f a) st1) ->
  respects_at I R (m ≫= f) st.
Proof.
  intros [HI HR] Hf. unfold respects_at. rewrite bind_run.
  destruct (m st) as [[a|] st1] eqn:Hm; simpl in *; [|done].
  destruct (Hf a st1 eq_refl HI) as [HI' HR']. split; [done|].
  by eapply R_trans.
Qed.

Lemma respects_for_each {A} (l : list A) (body : A -> M unit) :
  (forall x st, x ∈ l -> I st -> respects_at I R (body x) st) ->
  forall st, I st -> respects_at I R (for_each l body) st.
Proof.
  induction l as [|x l IH]; intros Hbody st HI; [by apply respects_ret|].
  simpl. apply respects_bind; [apply Hbody; [by left|done]|].
  intros _ st1 _ HI1. apply IH; [|done].
  intros y st0 Hy. apply Hbody. by right.
Qed.

Lemma respects_for_each_changed {A} (l : list A) (body : A -> M A) :
  (forall x st, x ∈ l -> I st -> respects_at I R (body x) st) ->
  forall st, I st -> respects_at I R (for_each_changed l body) st.
Proof.
  induction l as [|x l IH]; intros Hbody st HI; [by apply respects_ret|].
  simpl. apply respects_bind; [apply Hbody; [by left|done]|].
  intros x' st1 _ HI1. apply respects_bind.
  - apply IH; [|done]. intros y st0 Hy. apply Hbody. by right.
  - intros l' st2 _ HI2. by apply respects_ret.
Qed.

Lemma respects_for_each_on {A B} (l : list A) (body : B -> A -> M B) :
  (forall obj x st, x ∈ l -> I st -> respects_at I R (body obj x) st) ->
  forall obj st, I st -> respects_at I R (for_each_on l obj body) st.
Proof.
  induction l as [|x l IH]; intros Hbody obj st HI; [by apply respects_ret|].
  simpl. apply respects_bind; [apply Hbody; [by left|done]|].
  intros obj' st1 _ HI1. apply IH; [|done].
  intros o y st0 Hy. apply Hbody. by right.
Qed.

Lemma respects_set_item (output : gmap string section_rows)
    (sn key : string) (v : value) (st : self) :
  I st -> respects_at I R (SheetsExportBuilder.set_item output sn key v) st.
Proof.
  intros HI. unfold SheetsExportBuilder.set_item.
  destruct (output !! sn) as [[d|l]|];
    [by apply respects_ret|by apply respects_raise..].
Qed.

End Respects.

(** ** The width of the worksheets of the sections *)

Lemma same_width_refl (w : Worksheet) : same_width w w.
Proof. split; [apply kept_refl|done]. Qed.

Lemma same_width_trans (a b c : Worksheet) :
  same_width a b -> same_width b c -> same_width a c.
Proof.
  intros [Hab Hcab] [Hbc Hcbc]. split; [by eapply kept_trans|congruence].
Qed.

Lemma update_row_fits (h : nat) (w : Worksheet) (index : nat)
    (values : list value) :
  length values <= col_count w ->
  same_width w (update_row w index values).1
  /\ Forall no_resize (map (OnWorksheet h) (update_row w index values).2).
Proof.
  intros Hfit.
  assert ((col_count w <? length values) = false) as Hlt
    by (apply Nat.ltb_ge; lia).
  rewrite update_row_unfold, Hlt. simpl. split.
  - split; [|done]. by split.
  - by repeat constructor.
Qed.

Lemma append_row_fits (h : nat) (w : Worksheet) (values : list value) :
  length values <= col_count w ->
  same_width w (append_row w values).1
  /\ Forall no_resize (map (OnWorksheet h) (append_row w values).2).
Proof.
  intros Hfit.
  assert ((col_count w <? length values) = false) as Hlt
    by (apply Nat.ltb_ge; lia).
  rewrite append_row_unfold, Hlt. simpl. split.
  - split; [|done]. split; simpl; [done|lia].
  - by repeat constructor.
Qed.

Section Fitted.

Context (eb : ExportBuilder).

Let ss := sections eb.

Let steady : self -> self -> Prop := evolves same_width no_resize.

Lemma steady_refl (st : self) : steady st st.
Proof. apply (evolves_refl _ _ same_width_refl). Qed.

Lemma steady_trans (a b c : self) : steady a b -> steady b c -> steady a c.
Proof. apply (evolves_trans _ _ same_width_trans). Qed.

Lemma steady_fitted (st st' : self) : fitted eb st -> steady st st' -> fitted eb st'.
Proof.
  intros Hfit (Hws & _ & _ & Hsh & _) s Hs.
  destruct (Hfit s Hs) as (h & w & Hh & Hw & Hr & Hc).
  destruct (Hsh h w Hw) as (w' & Hw' & [[_ Hle] Hcol]).
  exists h, w'. rewrite Hws. split; [done|]. split; [done|].
  split; [lia|congruence].
Qed.

(** A call on the worksheet of a section that fits its width. *)
Lemma fitted_on_worksheet (s : section) (h : nat)
    (call : Worksheet -> Worksheet * list ws_call) (st : self) :
  fitted eb st -> s ∈ ss -> worksheets st !! name s = Some h ->
  (forall w, col_count w = num_cols eb s ->
     same_width w (call w).1
     /\ Forall no_resize (map (OnWorksheet h) (call w).2)) ->
  (Spreadsheet.on_worksheet h call st).1 = Some tt
  /\ respects_at (fitted eb) steady (Spreadsheet.on_worksheet h call) st.
Proof.
  intros Hfit Hs Hh Hcall.
  destruct (Hfit s Hs) as (h' & w & Hh' & Hw & Hr & Hc).
  assert (h' = h) as -> by congruence.
  destruct (Hcall w Hc) as [Hsame Hevs].
  destruct (on_worksheet_evolves same_width no_resize same_width_refl h call st w
              Hw Hsame Hevs) as [Hret Hev].
  split; [done|]. split; [|done]. by eapply steady_fitted.
Qed.

Lemma headers_length (s : section) :
  length (SheetsExportBuilder.headers eb s) = num_cols eb s.
Proof.
  unfold SheetsExportBuilder.headers, num_cols.
  by rewrite length_map, length_app, length_map.
Qed.

Lemma row_values_length (data : row) (s : section) (titles : gmap string string) :
  length (SheetsExportBuilder.row_values eb data (SheetsExportBuilder.fields eb s)
            titles) = num_cols eb s.
Proof.
  unfold SheetsExportBuilder.row_values, SheetsExportBuilder.fields, num_cols.
  by rewrite length_map, length_app, length_map.
Qed.

Lemma fitted_insert_header (s : section) (st : self) :
  fitted eb st -> s ∈ ss ->
  respects_at (fitted eb) steady (SheetsExportBuilder.insert_header eb s) st.
Proof.
  intros Hfit Hs. unfold SheetsExportBuilder.insert_header.
  apply (respects_bind _ _ steady_trans).
  { unfold get_worksheet. split; destruct (worksheets st !! name s);
      simpl; done || apply steady_refl. }
  intros ws st1 Hget Hfit1. unfold get_worksheet in Hget.
  destruct (worksheets st !! name s) as [h|] eqn:Hh; simplify_eq.
  apply (fitted_on_worksheet s); [done..|].
  intros w Hc. apply update_row_fits. rewrite headers_length. lia.
Qed.

Lemma fitted_write_section_row (s : section) (h : nat) (r : row) (st : self) :
  fitted eb st -> s ∈ ss -> worksheets st !! name s = Some h ->
  respects_at (fitted eb) steady
    (SheetsExportBuilder.write_section_row eb s h r) st.
Proof.
  intros Hfit Hs Hh.
  assert (respects_at (fitted eb) steady
            (Spreadsheet.on_worksheet h (fun w =>
               append_row w
                 (SheetsExportBuilder.row_values eb (pre_process_row eb r s)
                    (SheetsExportBuilder.fields eb s) (worksheet_titles st)))) st)
    as Hcall.
  { apply (fitted_on_worksheet s); [done..|].
    intros w Hc. apply append_row_fits. rewrite row_values_length. lia. }
  unfold respects_at in *.
  rewrite write_section_row_run. unfold SheetsExportBuilder.write_row.
  rewrite bind_run.
  fold (SheetsExportBuilder.row_values eb (pre_process_row eb r s)
          (SheetsExportBuilder.fields eb s) (worksheet_titles st)).
  by destruct (Spreadsheet.on_worksheet h _ st) as [[[]|] st1].
Qed.

Lemma fitted_write_section (output : gmap string section_rows) (s : section)
    (st : self) :
  fitted eb st -> s ∈ ss ->
  respects_at (fitted eb) steady
    (SheetsExportBuilder.write_section eb output s) st.
Proof.
  intros Hfit Hs. destruct (Hfit s Hs) as (h & w & Hh & _).
  unfold respects_at. rewrite (write_section_run eb output s h st Hh).
  destruct (output !! name s) as [[r|rs]|].
  - rewrite bind_run.
    pose proof (fitted_write_section_row s h r st Hfit Hs Hh) as Hrow.
    unfold respects_at in Hrow.
    by destruct (SheetsExportBuilder.write_section_row eb s h r st)
      as [[r'|] st1].
  - pose (I := fun st0 => fitted eb st0 /\ worksheets st0 !! name s = Some h).
    destruct (respects_for_each_changed I steady steady_refl steady_trans rs
                (SheetsExportBuilder.write_section_row eb s h)) with (st := st)
      as [[Hfit' _] Hsteady]; [|done|].
    { intros r st0 _ [Hfit0 Hh0].
      destruct (fitted_write_section_row s h r st0 Hfit0 Hs Hh0) as [Hf Hst].
      split; [|done]. split; [done|].
      destruct Hst as (Hws & _). by rewrite Hws. }
    rewrite bind_run.
    by destruct (for_each_changed rs _ st) as [[rs'|] st1].
  - split; [done|apply steady_refl].
Qed.

Lemma fitted_insert_data (data : list (record eb)) :
  forall index idx st, fitted eb st ->
  respects_at (fitted eb) steady
    (SheetsExportBuilder.insert_data_from eb index idx data) st.
Proof.
  induction data as [|d data IH]; intros index idx st Hfit.
  - by apply respects_ret; [apply steady_refl|].
  - simpl. destruct (dict_to_joined_export eb d index idx (survey_name eb))
      as [joined idx'].
    apply (respects_bind _ _ steady_trans);
      [by apply respects_set_item; [apply steady_refl|]|].
    intros out1 st1 _ Hfit1.
    apply (respects_bind _ _ steady_trans);
      [by apply respects_set_item; [apply steady_refl|]|].
    intros out2 st2 _ Hfit2.
    apply (respects_bind _ _ steady_trans).
    + apply (respects_for_each_on _ _ steady_refl steady_trans); [|done].
      intros out s st0 Hs Hfit0. by apply fitted_write_section.
    + intros _ st3 _ Hfit3. by apply IH.
Qed.

Lemma fitted_created (st : self) :
  NoDup (map name ss) ->
  exists st1 cr,
    SheetsExportBuilder._create_worksheets eb st = (Some tt, st1)
    /\ log st1 = log st ++ cr
    /\ Forall is_add cr
    /\ fitted eb st1.
Proof.
  intros Hnd.
  destruct (create_worksheets_run eb ss st)
    as (st1 & cr & Hrun & Hlog & Hcr & _ & _ & _ & _ & Hnew & _ & Hws).
  exists st1, cr. split; [done|]. split; [done|]. split; [done|].
  intros s Hs. destruct (Hws s Hs) as (i & s' & Hh & Hi & Hn).
  apply list_elem_of_lookup_1 in Hs as [j Hj].
  assert (j = i) as -> by (eapply NoDup_names_index; done).
  assert (Some s' = Some s) as [= ->] by (rewrite <- Hi; exact Hj).
  destruct (Hnew i s Hi) as (w & Hw & Hr & Hc & _).
  exists (next_id st + i), w. split; [done|]. split; [done|].
  split; [lia|done].
Qed.

End Fitted.

(** X7. When the sections have distinct names, [export_tabular] never
    calls [resize]: the worksheet of a section is created with one column
    per element and extra field, the header row and every data row have
    exactly that many values, and the worksheet on record for each section
    ends with that width. *)
Theorem tabular_export_never_resizes (eb : ExportBuilder)
    (data : list (record eb)) (st : self) :
  NoDup (map name (sections eb)) ->
  let st' := (SheetsExportBuilder.export_tabular eb data st).2 in
  Forall no_resize (new_events st st')
  /\ forall s, s ∈ sections eb ->
       exists h w, worksheets st' !! name s = Some h
                   /\ spreadsheet st' !! h = Some w
                   /\ col_count w = length (elements s) + length (EXTRA_FIELDS eb).
Proof.
  intros Hnd st'. subst st'.
  destruct (fitted_created eb st Hnd) as (st1 & cr & Hrun1 & Hlog1 & Hcr & Hfit1).
  unfold SheetsExportBuilder.export_tabular. rewrite bind_run, Hrun1.
  set (rest := SheetsExportBuilder._insert_headers eb
               ≫= fun _ => SheetsExportBuilder._insert_data eb data).
  assert (respects_at (fitted eb) (evolves same_width no_resize) rest st1)
    as [Hfit (_ & _ & _ & _ & evs & Hlog & Hevs)].
  { apply (respects_bind _ _ (steady_trans)).
    - apply (respects_for_each _ _ steady_refl steady_trans); [|done].
      intros s st0 Hs Hfit0. by apply fitted_insert_header.
    - intros _ st2 _ Hfit2. by apply fitted_insert_data. }
  split.
  - rewrite (new_events_app st _ (cr ++ evs))
      by (rewrite Hlog, Hlog1, <- app_assoc; done).
    apply Forall_app. split; [|done].
    eapply Forall_impl; [exact Hcr|]. by intros [].
  - intros s Hs. destruct (Hfit s Hs) as (h & w & Hh & Hw & _ & Hc).
    by exists h, w.
Qed.

(** ** Titles across exports *)

(** X14. The title dictionary is shared by all builders, so a title
    recorded for a section by an earlier export is still among the
    existing titles when [_create_worksheets] runs again: with a
    deduplicating [get_valid_sheet_name] and distinct section names, the
    section gets a worksheet under a title different from the recorded
    one. *)
Theorem recorded_title_is_not_reused (eb : ExportBuilder) (st : self)
    (s : section) (recorded : string) :
  deduplicates (get_valid_sheet_name eb) ->
  NoDup (map name (sections eb)) ->
  s ∈ sections eb ->
  worksheet_titles st !! name s = Some recorded ->
  let st' := (SheetsExportBuilder._create_worksheets eb st).2 in
  exists t, worksheet_titles st' !! name s = Some t
            /\ t <> recorded
            /\ t ∈ created_titles (new_events st st').
Proof.
  intros Hdedup Hnd Hs Hold st'. subst st'.
  destruct (create_worksheets_run eb (sections eb) st)
    as (st1 & cr & Hrun & Hlog & _ & Hct & _ & Hwt & _).
  unfold SheetsExportBuilder._create_worksheets. rewrite Hrun. simpl.
  apply list_elem_of_lookup_1 in Hs as [i Hi].
  pose proof (generated_titles_rule eb (sections eb) (worksheet_titles st) i s Hi)
    as Hrule.
  set (t := get_valid_sheet_name eb _ _) in Hrule.
  exists t. split; [|split].
  - rewrite Hwt. by rewrite (titles_after_lookup eb _ _ i s Hnd Hi).
  - intros Heq. apply (Hdedup (PyStr.replace_char "/" "_" (name s))
                          (dict_values (titles_after eb (worksheet_titles st)
                                          (take i (sections eb))))).
    fold t. rewrite Heq. apply dict_values_elem. exists (name s).
    rewrite titles_after_frame; [done|].
    intros Hin. apply list_elem_of_fmap in Hin as (s' & Hn & Hs').
    apply list_elem_of_lookup_1 in Hs' as [j Hj].
    pose proof (lookup_lt_Some _ _ _ Hj) as Hlt. rewrite length_take in Hlt.
    rewrite lookup_take_lt in Hj by lia.
    assert (i = j) by (eapply NoDup_names_index; done). lia.
  - rewrite (new_events_app _ _ _ Hlog), Hct.
    by eapply list_elem_of_lookup_2.
Qed.

(** ** Appending a row *)

(** X15. [write_row] on an existing worksheet returns normally and
    appends one row: the row count grows by one, the cells of the rows that
    were there are kept, the new last row holds for each field the value of
    the data with its parent table replaced by the generated title, and the
    other worksheets and both dictionaries of the builder are untouched.
    The call leaves the row data with its parent table so replaced. *)
Theorem write_row_appends (eb : ExportBuilder) (data : row) (ws : nat)
    (fields : list string) (titles : gmap string string) (st : self)
    (w : Worksheet) :
  spreadsheet st !! ws = Some w ->
  let r := SheetsExportBuilder.write_row eb data ws fields titles st in
  exists w',
    r.1 = Some (with_parent_title eb titles data)
    /\ spreadsheet r.2 !! ws = Some w'
    /\ title w' = title w
    /\ row_count w' = row_count w + 1
    /\ (forall row col, row <= row_count w ->
          cells w' !! (row, col) = cells w !! (row, col))
    /\ (forall i f, fields !! i = Some f ->
          cells w' !! (row_count w + 1, S i)
          = Some (dict_get (with_parent_title eb titles data) f))
    /\ (forall h, h <> ws -> spreadsheet r.2 !! h = spreadsheet st !! h)
    /\ worksheets r.2 = worksheets st
    /\ worksheet_titles r.2 = worksheet_titles st.
Proof.
  intros Hw r. subst r.
  rewrite (write_row_run eb data ws fields titles st w Hw). simpl.
  set (values := SheetsExportBuilder.row_values eb data fields titles).
  destruct (append_row_grown w values) as [[Ht Hr] Hkeep].
  exists (append_row w values).1.
  split; [done|]. split; [apply lookup_insert_eq|]. split; [done|].
  split; [by rewrite append_row_unfold|]. split; [done|].
  split; [|split; [|done]].
  - intros i f Hf. apply append_row_cells. subst values.
    by rewrite row_values_lookup, Hf.
  - intros h Hne. by apply lookup_insert_ne.
Qed.

(** ** The title asked for *)

Lemma replace_char_length (old new : Ascii.ascii) (s : string) :
  String.length (PyStr.replace_char old new s) = String.length s.
Proof. induction s as [|c s IH]; simpl; [done|]. by rewrite IH. Qed.

Lemma replace_char_free (old new : Ascii.ascii) (s : string) :
  old <> new -> old ∉ String.list_ascii_of_string (PyStr.replace_char old new s).
Proof.
  intros Hne. induction s as [|c s IH]; simpl; [apply not_elem_of_nil|].
  apply not_elem_of_cons. split; [|done].
  destruct (Ascii.eqb c old) eqn:Hc; [done|].
  apply Ascii.eqb_neq in Hc. congruence.
Qed.

Lemma replace_char_id (old new : Ascii.ascii) (s : string) :
  old ∉ String.list_ascii_of_string s -> PyStr.replace_char old new s = s.
Proof.
  induction s as [|c s IH]; simpl; [done|].
  intros Hout. apply not_elem_of_cons in Hout as [Hne Hout].
  rewrite IH by done.
  destruct (Ascii.eqb c old) eqn:Hc; [|done].
  apply Ascii.eqb_eq in Hc. congruence.
Qed.

(** X13. The title [_create_worksheets] asks for,
    ["_".join(section_name.split("/"))], is the section name with every
    '/' replaced by '_': it holds no '/', has the length of the name,
    agrees with the name at every other character, and is the name itself
    when the name holds no '/'. *)
Theorem desired_title_spec (section_name : string) :
  let t := SheetsExportBuilder.desired_title section_name in
  (("/" : Ascii.ascii) ∉ String.list_ascii_of_string t)
  /\ String.length t = String.length section_name
  /\ (forall i, String.get i t
                = (fun c => if Ascii.eqb c "/" then ("_" : Ascii.ascii) else c)
                    <$> String.get i section_name)
  /\ (("/" : Ascii.ascii) ∉ String.list_ascii_of_string section_name ->
      t = section_name).
Proof.
  intros t. subst t. rewrite desired_title_replace.
  split; [by apply replace_char_free|].
  split; [apply replace_char_length|]. split; [|apply replace_char_id].
  induction section_name as [|c s IH]; intros i; [done|].
  destruct i as [|i]; simpl; [done|apply IH].
Qed.

(** ** When an export returns *)

Lemma insert_data_from_raises (eb : ExportBuilder) (data : list (record eb)) :
  forall index idx st,
  ready (sections eb) st ->
  (SheetsExportBuilder.insert_data_from eb index idx data st).1 = Some tt ->
  main_rows_are_dicts eb index idx data.
Proof.
  induction data as [|d data IH]; intros index idx st Hready Hret; [done|].
  simpl in *.
  destruct (dict_to_joined_export eb d index idx (survey_name eb))
    as [joined idx']. simpl.
  set (decoded := decode_mongo_encoded_section_names eb joined) in *.
  set (out0 := match decoded !! survey_name eb with
               | Some _ => _ | None => _ end) in Hret.
  rewrite bind_run in Hret.
  destruct (decoded !! survey_name eb) as [[d0|l0]|] eqn:Hmain.
  - assert (out0 !! survey_name eb = Some (RowDict d0)) as Hd0
      by (subst out0; done).
    split; [congruence|].
    rewrite (set_item_run _ _ _ _ d0) in Hret by done. rewrite bind_run in Hret.
    rewrite (set_item_run _ _ _ _ (<[INDEX eb := VInt (Z.of_nat index)]> d0))
      in Hret by apply lookup_insert_eq.
    set (out := <[survey_name eb := _]> (<[survey_name eb := _]> out0)) in Hret.
    rewrite bind_run in Hret.
    destruct (write_sections_step eb (worksheets st) (worksheet_titles st) out st)
      as [[out' Hsome] Hev]; [done|].
    destruct (for_each_on (sections eb) out (SheetsExportBuilder.write_section eb) st)
      as [o st1]; simpl in Hsome, Hev. subst o.
    apply (IH (S index) idx' st1); [|done].
    eapply evolves_ready; [exact grown_kept|exact Hev|exact Hready].
  - rewrite set_item_raises in Hret; [done|].
    intros d0. subst out0. simpl. congruence.
  - assert (out0 !! survey_name eb = Some (RowDict ∅)) as Hd0
      by (subst out0; apply lookup_insert_eq).
    split; [congruence|].
    rewrite (set_item_run _ _ _ _ ∅) in Hret by done. rewrite bind_run in Hret.
    rewrite (set_item_run _ _ _ _ (<[INDEX eb := VInt (Z.of_nat index)]> ∅))
      in Hret by apply lookup_insert_eq.
    set (out := <[survey_name eb := _]> (<[survey_name eb := _]> out0)) in Hret.
    rewrite bind_run in Hret.
    destruct (write_sections_step eb (worksheets st) (worksheet_titles st) out st)
      as [[out' Hsome] Hev]; [done|].
    destruct (for_each_on (sections eb) out (SheetsExportBuilder.write_section eb) st)
      as [o st1]; simpl in Hsome, Hev. subst o.
    apply (IH (S index) idx' st1); [|done].
    eapply evolves_ready; [exact grown_kept|exact Hev|exact Hready].
Qed.

(** X3. With the remote calls of the model, which always answer,
    [export] returns normally exactly when the export is flattened or the
    joined export of every record holds no list under the name of the
    survey; a tabular export of a record whose main row is a list raises. *)
Theorem export_returns_iff (eb : ExportBuilder) (config : Config)
    (blank : Worksheet) (csv : list (list string)) (data : list (record eb))
    (xlsform : option (list xl_sheet)) (st : self) :
  (SheetsExportBuilder.export eb config blank csv data xlsform st).1 = Some tt
  <-> flatten_repeated_fields config = true
      \/ main_rows_are_dicts eb 1 (no_indices eb) data.
Proof.
  split; [|apply export_returns].
  intros Hret. destruct (flatten_repeated_fields config) eqn:Hflat; [by left|].
  right. rewrite export_unfold in Hret. unfold export_data in Hret.
  rewrite Hflat in Hret.
  destruct (export_tabular_run eb data (opened config blank st))
    as (st2 & cr & hd & Hrun & _ & _ & _ & _ & _ & _ & Hready & _).
  rewrite Hrun in Hret. unfold SheetsExportBuilder._insert_data in Hret.
  apply (insert_data_from_raises eb data 1 (no_indices eb) st2 Hready).
  destruct (SheetsExportBuilder.insert_data_from eb 1 (no_indices eb) data st2)
    as [[[]|] st4]; [done|]. by simpl in Hret.
Qed.

(** X10. A tabular [export] whose first record has a list under the
    name of the survey raises when it attaches the index, after the login,
    the creation of the spreadsheet, its sharing, and the creation of the
    worksheets and the writing of their header rows: no data row, no
    XLSForm sheet and no deletion follow, so the default worksheet is still
    there. *)
Theorem tabular_export_stops_at_list_row (eb : ExportBuilder) (config : Config)
    (blank : Worksheet) (csv : list (list string)) (d : record eb)
    (rest : list (record eb)) (xlsform : option (list xl_sheet)) (st : self)
    (children : list row) :
  flatten_repeated_fields config = false ->
  decode_mongo_encoded_section_names eb
    (dict_to_joined_export eb d 1 (no_indices eb) (survey_name eb)).1
    !! survey_name eb = Some (RowList children) ->
  let r := SheetsExportBuilder.export eb config blank csv (d :: rest) xlsform st in
  r.1 = None
  /\ exists cr hd w,
       log r.2 = log st
         ++ [Login (google_token config);
             NewSpreadsheet (spreadsheet_title config);
             AddServiceAccount]
         ++ cr ++ hd
       /\ Forall is_add cr
       /\ created_titles cr
          = generated_titles eb (worksheet_titles st) (sections eb)
       /\ Forall is_header_write hd
       /\ spreadsheet r.2 !! 0 = Some w
       /\ title w = title blank.
Proof.
  intros Hflat Hlist r. subst r. rewrite export_unfold.
  unfold export_data. rewrite Hflat.
  set (st3 := opened config blank st).
  destruct (create_worksheets_run eb (sections eb) st3)
    as (st1 & cr & Hrun1 & Hlog1 & Hcr & Hct & _ & _ & Hold & Hnew & _ & Hws).
  assert (ready (sections eb) st1) as Hready1.
  { intros s' Hs'. destruct (Hws s' Hs') as (i & s'' & Hh & Hi & _).
    destruct (Hnew i s'' Hi) as (w & Hw & Hr & _).
    exists (next_id st3 + i), w. split; [done|]. split; [done|lia]. }
  destruct (insert_headers_run eb (sections eb) (fun _ H => H) st1 Hready1)
    as (st2 & hd & Hrun2 & Hlog2 & Hhd & _ & Hev2).
  assert (SheetsExportBuilder.export_tabular eb (d :: rest) st3 = (None, st2))
    as ->.
  { unfold SheetsExportBuilder.export_tabular. rewrite bind_run.
    unfold SheetsExportBuilder._create_worksheets. rewrite Hrun1.
    rewrite bind_run. unfold SheetsExportBuilder._insert_headers.
    rewrite Hrun2. unfold SheetsExportBuilder._insert_data. simpl.
    destruct (dict_to_joined_export eb d 1 (no_indices eb) (survey_name eb))
      as [joined idx']. simpl in Hlist. rewrite Hlist.
    rewrite bind_run. by rewrite set_item_raises by congruence. }
  simpl. split; [done|].
  destruct Hev2 as (_ & _ & _ & Hsh & _).
  assert (spreadsheet st1 !! 0 = Some blank) as Hblank.
  { rewrite Hold by (subst st3; simpl; lia). subst st3. simpl.
    apply lookup_singleton_eq. }
  destruct (Hsh 0 blank Hblank) as (w & Hw & Ht & _).
  exists cr, hd, w.
  split; [rewrite Hlog2, Hlog1; subst st3; rewrite opened_log;
          by rewrite <- !app_assoc|].
  by repeat split.
Qed.

(** ** The rows of a repeat *)

Lemma rows_added_app (ws : nat) (evs1 evs2 : list event) :
  rows_added ws (evs1 ++ evs2) = rows_added ws evs1 + rows_added ws evs2.
Proof. unfold rows_added. by rewrite omap_app, sum_list_with_app. Qed.

Section Children.

Context (eb : ExportBuilder).

Lemma children_rows_run (s : section) (h : nat) (rs : list row) :
  forall (st : self) (w : Worksheet),
  spreadsheet st !! h = Some w ->
  exists w' evs,
    for_each_changed rs (SheetsExportBuilder.write_section_row eb s h) st
    = (Some (map (fun child => with_parent_title eb (worksheet_titles st)
                                 (pre_process_row eb child s)) rs),
       mkSelf (<[h := w']> (spreadsheet st)) (next_id st)
              (log st ++ evs) (worksheets st) (worksheet_titles st))
    /\ title w' = title w
    /\ row_count w' = row_count w + length rs
    /\ (forall row col, row <= row_count w ->
          cells w' !! (row, col) = cells w !! (row, col))
    /\ (forall k child i f,
          rs !! k = Some child ->
          SheetsExportBuilder.fields eb s !! i = Some f ->
          cells w' !! (row_count w + k + 1, S i)
          = Some (dict_get (with_parent_title eb (worksheet_titles st)
                              (pre_process_row eb child s)) f))
    /\ rows_added h evs = length rs.
Proof.
  induction rs as [|r0 rs IH]; intros st w Hw.
  - exists w, []. simpl. destruct st; simpl in *.
    rewrite insert_id by done. rewrite app_nil_r, Nat.add_0_r.
    by repeat split.
  - simpl. rewrite bind_run, write_section_row_run.
    rewrite (write_row_run eb _ h _ _ st w Hw).
    set (values := SheetsExportBuilder.row_values eb _ _ _).
    set (w1 := (append_row w values).1).
    set (st1 := mkSelf _ _ _ _ _).
    destruct (IH st1 w1) as (w' & evs & Hrun & Ht & Hr & Hkeep & Hcells & Hadds);
      [apply lookup_insert_eq|].
    destruct (append_row_grown w values) as [[Ht1 _] Hkeep1].
    assert (row_count w1 = row_count w + 1) as Hr1
      by (subst w1; by rewrite append_row_unfold).
    fold w1 in Ht1, Hkeep1.
    eexists w', _.
    split; [|split; [|split; [|split; [|split]]]].
    + rewrite bind_run, Hrun. subst st1. simpl.
      rewrite insert_insert_eq. by rewrite <- app_assoc.
    + congruence.
    + rewrite Hr, Hr1. simpl. lia.
    + intros row col Hrow. rewrite Hkeep by lia. by apply Hkeep1.
    + intros k child i f Hk Hf. destruct k as [|k]; simpl in Hk.
      * simplify_eq. rewrite Nat.add_0_r. rewrite Hkeep by lia.
        subst w1. apply append_row_cells. subst values.
        by rewrite row_values_lookup, Hf.
      * replace (row_count w + S k + 1) with (row_count w1 + k + 1) by lia.
        by apply (Hcells k child i f).
    + rewrite rows_added_app, Hadds.
      subst values. rewrite append_row_unfold. unfold rows_added. simpl.
      rewrite decide_True by done. simpl.
      by destruct (col_count w <? _).
Qed.

End Children.

(** X11. For a section whose entry in the joined export is a list of
    child rows, the loop body of [_insert_data] appends one row per child to
    the worksheet on record for the section, in the order of the list: the
    row count grows by the length of the list, the rows that were there are
    kept, and the row of the [k]-th child holds, field by field, the values
    of the pre-processed child with its parent table replaced by the
    generated title.  The joined export is left holding the children so
    changed. *)
Theorem write_section_appends_children (eb : ExportBuilder)
    (output : gmap string section_rows) (s : section) (st : self)
    (h : nat) (w : Worksheet) (rs : list row) :
  worksheets st !! name s = Some h ->
  spreadsheet st !! h = Some w ->
  output !! name s = Some (RowList rs) ->
  let r := SheetsExportBuilder.write_section eb output s st in
  exists w',
    r.1 = Some (<[name s :=
                    RowList (map (fun child =>
                                    with_parent_title eb (worksheet_titles st)
                                      (pre_process_row eb child s)) rs)]> output)
    /\ spreadsheet r.2 !! h = Some w'
    /\ row_count w' = row_count w + length rs
    /\ (forall row col, row <= row_count w ->
          cells w' !! (row, col) = cells w !! (row, col))
    /\ (forall k child i f,
          rs !! k = Some child ->
          SheetsExportBuilder.fields eb s !! i = Some f ->
          cells w' !! (row_count w + k + 1, S i)
          = Some (dict_get (with_parent_title eb (worksheet_titles st)
                              (pre_process_row eb child s)) f))
    /\ rows_added h (new_events st r.2) = length rs.
Proof.
  intros Hh Hw Hout r. subst r.
  rewrite (write_section_run eb output s h st Hh), Hout.
  destruct (children_rows_run eb s h rs st w Hw)
    as (w' & evs & Hrun & _ & Hr & Hkeep & Hcells & Hadds).
  rewrite bind_run, Hrun. simpl. exists w'.
  split; [done|]. split; [apply lookup_insert_eq|]. split; [done|].
  split; [done|]. split; [done|].
  by erewrite new_events_app.
Qed.

(** ** Headers without worksheets on record *)

Lemma insert_headers_key (eb : ExportBuilder) (l : list section) :
  forall st,
  (forall s h, s ∈ l -> worksheets st !! name s = Some h ->
     is_Some (spreadsheet st !! h)) ->
  (for_each l (SheetsExportBuilder.insert_header eb) st).1 = Some tt
  <-> forall s, s ∈ l -> is_Some (worksheets st !! name s).
Proof.
  induction l as [|x l IH]; intros st Hsheets.
  - split; [|done]. intros _ s Hs. by apply elem_of_nil in Hs.
  - simpl. rewrite bind_run.
    destruct (worksheets st !! name x) as [h|] eqn:Hh.
    + destruct (Hsheets x h) as [w Hw]; [by left|done|].
      rewrite (insert_header_eq eb x st h w Hh Hw).
      set (st1 := mkSelf _ _ _ _ _).
      rewrite (IH st1).
      * change (worksheets st1) with (worksheets st). split.
        -- intros Hall s Hs. apply elem_of_cons in Hs as [->|Hs];
             [by rewrite Hh|by apply Hall].
        -- intros Hall s Hs. apply Hall. by right.
      * intros s h' Hs Hh'. change (worksheets st1) with (worksheets st) in Hh'.
        subst st1. simpl. destruct (decide (h' = h)) as [->|Hne].
        -- rewrite lookup_insert_eq. by eexists.
        -- rewrite lookup_insert_ne by done. apply (Hsheets s); [by right|done].
    + assert (SheetsExportBuilder.insert_header eb x st = (None, st)) as ->.
      { unfold SheetsExportBuilder.insert_header. rewrite bind_run.
        unfold get_worksheet. by rewrite Hh. }
      simpl. split; [done|]. intros Hall.
      destruct (Hall x) as [h Hx]; [by left|]. congruence.
Qed.

(** X12. When the worksheets on record exist in the spreadsheet,
    [_insert_headers] returns normally exactly when every section has a
    worksheet on record; a section without one makes the lookup
    [self.worksheets[section_name]] raise. *)
Theorem insert_headers_returns_iff (eb : ExportBuilder) (st : self) :
  (forall s h, s ∈ sections eb -> worksheets st !! name s = Some h ->
     is_Some (spreadsheet st !! h)) ->
  (SheetsExportBuilder._insert_headers eb st).1 = Some tt
  <-> forall s, s ∈ sections eb -> is_Some (worksheets st !! name s).
Proof. apply insert_headers_key. Qed.

(** ** The properties at work on the demo form *)

Lemma update_row_frame_witness :
  let ws := mkWorksheet "raw" 3 1 {[ (1, 1) := VStr "name" ]} in
  cells (update_row ws 2 [VStr "Ann"; VInt 7]).1 !! (1, 1) = cells ws !! (1, 1).
Proof.
  intros ws.
  apply (proj1 (update_row_frame ws 2 [VStr "Ann"; VInt 7]) 1 1).
  left. lia.
Defined.

Lemma update_row_again_witness :
  let ws := mkWorksheet "raw" 3 1 ∅ in
  (update_row (update_row ws 1 [VStr "Ann"]).1 1 [VStr "Bob"; VInt 7]).1
  = (update_row ws 1 [VStr "Bob"; VInt 7]).1.
Proof.
  intros ws.
  apply (proj1 (update_row_again ws 1 [VStr "Ann"] [VStr "Bob"; VInt 7]
                  ltac:(simpl; lia))).
Defined.

Lemma flattened_worksheet_size_witness :
  let csv := [["name"]; ["Ann"; "31"; "Kano"]]%string in
  exists w,
    spreadsheet (SheetsExportBuilder.export_flattened csv Demo.fresh).2 !! 0
    = Some w
    /\ col_count w = 3.
Proof.
  intros csv.
  destruct (flattened_worksheet_size csv Demo.fresh ltac:(discriminate))
    as (w & Hw & _ & Hc).
  exists w. split; [exact Hw|exact Hc].
Defined.

Lemma insert_xlsform_copies_witness :
  let r := SheetsExportBuilder._insert_xlsform (Some Demo.xlsform) Demo.fresh in
  exists w, spreadsheet r.2 !! 1 = Some w
            /\ title w = "choices"%string
            /\ cells w !! (2, 2) = Some (VInt 11).
Proof.
  intros r.
  destruct (insert_xlsform_copies Demo.xlsform Demo.fresh 1
              (Demo.sheet_named "choices") eq_refl eq_refl)
    as (w & _ & Hw & Ht & _ & _ & Hcells).
  exists w. split; [exact Hw|]. split; [exact Ht|].
  apply (Hcells 1 1); simpl; lia.
Defined.

Lemma delete_default_worksheet_spec_witness :
  let st := opened Demo.tabular Demo.blank Demo.fresh in
  (SheetsExportBuilder.delete_default_worksheet st).1 = Some tt.
Proof.
  intros st.
  apply (delete_default_worksheet_spec st
           (bounded_opened Demo.tabular Demo.blank Demo.fresh)).
Defined.

Lemma export_leaves_no_default_title_witness :
  let r := SheetsExportBuilder.export Demo.builder Demo.flattened Demo.blank
             [["name"]; ["Ann"]]%string [] None Demo.fresh in
  exists w, spreadsheet r.2 !! 1 = Some w /\ title w <> "Sheet1"%string.
Proof.
  intros r.
  assert (r.1 = Some tt) as Hret
    by (apply export_returns; left; reflexivity).
  destruct (spreadsheet r.2 !! 1) as [w|] eqn:Hw.
  - exists w. split; [reflexivity|].
    exact (export_leaves_no_default_title Demo.builder Demo.flattened Demo.blank
             [["name"]; ["Ann"]]%string [] None Demo.fresh 1 w Hret Hw).
  - vm_compute in Hw. discriminate Hw.
Defined.

Lemma tabular_export_stops_at_list_row_witness :
  (SheetsExportBuilder.export DemoRepeat.builder Demo.tabular Demo.blank []
     [Demo.alice] (Some Demo.xlsform) Demo.fresh).1 = None.
Proof.
  apply (tabular_export_stops_at_list_row DemoRepeat.builder Demo.tabular
           Demo.blank [] Demo.alice [] (Some Demo.xlsform) Demo.fresh
           Demo.alice.2 eq_refl).
  apply lookup_singleton_eq.
Defined.

Lemma recorded_title_is_not_reused_witness :
  let st := mkSelf ∅ 0 [] ∅ {[ "census" := "census" ]}%string in
  let st' := (SheetsExportBuilder._create_worksheets Demo.builder st).2 in
  exists t, worksheet_titles st' !! "census"%string = Some t
            /\ t <> "census"%string.
Proof.
  intros st st'.
  destruct (recorded_title_is_not_reused Demo.builder st
              (Demo.main_section "census") "census"
              (demo_deduplicates "census")
              (demo_names_distinct "census" ltac:(discriminate)))
    as (t & Ht & Hne & _).
  - left.
  - apply lookup_singleton_eq.
  - exists t. split; [exact Ht|exact Hne].
Defined.

Lemma tabular_export_never_resizes_witness :
  Forall no_resize
    (new_events Demo.fresh
       (SheetsExportBuilder.export_tabular Demo.builder [Demo.alice] Demo.fresh).2).
Proof.
  apply (tabular_export_never_resizes Demo.builder [Demo.alice] Demo.fresh
           (demo_names_distinct "census" ltac:(discriminate))).
Defined.

Lemma write_row_appends_witness :
  let st := mkSelf {[ 2 := mkWorksheet "household_members" 1 4 ∅ ]} 3 [] ∅ ∅ in
  let data : row := {[ "household/members/age" := VInt 31 ]}%string in
  let r := SheetsExportBuilder.write_row Demo.builder data 2
             ["household/members/age"; "_index"]%string ∅ st in
  exists w', spreadsheet r.2 !! 2 = Some w' /\ row_count w' = 2.
Proof.
  intros st data r.
  destruct (write_row_appends Demo.builder data 2
              ["household/members/age"; "_index"]%string ∅ st
              (mkWorksheet "household_members" 1 4 ∅) eq_refl)
    as (w' & _ & Hw' & _ & Hr & _).
  exists w'. split; [exact Hw'|exact Hr].
Defined.

Lemma desired_title_spec_witness :
  SheetsExportBuilder.desired_title "census" = "census"%string.
Proof.
  apply (desired_title_spec "census").
  simpl. rewrite !elem_of_cons, elem_of_nil. intuition discriminate.
Defined.

Lemma insert_headers_returns_iff_witness :
  let st := (SheetsExportBuilder._create_worksheets Demo.builder Demo.fresh).2 in
  (SheetsExportBuilder._insert_headers Demo.builder st).1 = Some tt.
Proof.
  intros st.
  assert (Forall (fun s => exists h w, worksheets st !! name s = Some h
                                       /\ spreadsheet st !! h = Some w)
            (sections Demo.builder)) as Hall.
  { repeat constructor.
    - exists 0. eexists. split; vm_compute; reflexivity.
    - exists 1. eexists. split; vm_compute; reflexivity. }
  apply (insert_headers_returns_iff Demo.builder st).
  - intros s h Hs Hh.
    destruct (proj1 (Forall_forall _ _) Hall s Hs) as (h' & w & Hh' & Hw).
    exists w. rewrite Hh' in Hh. injection Hh as <-. exact Hw.
  - intros s Hs.
    destruct (proj1 (Forall_forall _ _) Hall s Hs) as (h' & w & Hh' & Hw).
    exists h'. exact Hh'.
Defined.

Lemma export_returns_iff_witness :
  (SheetsExportBuilder.export Demo.builder Demo.flattened Demo.blank
     [["name"]; ["Ann"]]%string [] None Demo.fresh).1 = Some tt.
Proof.
  apply export_returns_iff. left. reflexivity.
Defined.

Lemma write_section_appends_children_witness :
  let st := mkSelf {[ 2 := mkWorksheet "household_members" 1 4 ∅ ]} 3 []
              {[ "household/members" := 2 ]}%string ∅ in
  let output : gmap string section_rows :=
    {[ "household/members" := RowList Demo.alice.2 ]}%string in
  let r := SheetsExportBuilder.write_section Demo.builder output Demo.members st in
  exists w', spreadsheet r.2 !! 2 = Some w' /\ row_count w' = 3.
Proof.
  intros st output r.
  destruct (write_section_appends_children Demo.builder output Demo.members st 2
              (mkWorksheet "household_members" 1 4 ∅) Demo.alice.2
              eq_refl eq_refl eq_refl)
    as (w' & _ & Hw' & Hr & _).
  exists w'. split; [exact Hw'|exact Hr].
Defined.

(** ** The numbering of the records *)

Lemma insert_data_from_numbered (eb : ExportBuilder) (data : list (record eb)) :
  forall index idx st,
  main_rows_are_dicts eb index idx data ->
  SheetsExportBuilder.insert_data_from eb index idx data st
  = for_each (numbered_outputs eb index idx data)
      (fun output =>
         for_each_on (sections eb) output (SheetsExportBuilder.write_section eb) ;;
         mret tt) st.
Proof.
  induction data as [|d data IH]; intros index idx st Hmain; [done|].
  simpl in *.
  destruct (dict_to_joined_export eb d index idx (survey_name eb))
    as [joined idx']. simpl in *. destruct Hmain as [Hdict Hmain].
  set (decoded := decode_mongo_encoded_section_names eb joined) in *.
  assert (exists d0 out0,
            (match decoded !! survey_name eb with
             | Some _ => decoded
             | None => <[survey_name eb := RowDict ∅]> decoded
             end) = out0
            /\ out0 !! survey_name eb = Some (RowDict d0)
            /\ match decoded !! survey_name eb with
               | Some (RowDict r) => r
               | _ => ∅
               end = d0
            /\ forall x, <[survey_name eb := x]> out0
                         = <[survey_name eb := x]> decoded)
    as (d0 & out0 & -> & Hd0 & -> & Hins).
  { destruct (decoded !! survey_name eb) as [[r|l]|] eqn:Hl.
    - by exists r, decoded.
    - by destruct (Hdict l).
    - exists ∅, (<[survey_name eb := RowDict ∅]> decoded).
      split; [done|]. split; [apply lookup_insert_eq|]. split; [done|].
      intros x. apply insert_insert_eq. }
  rewrite bind_run, (set_item_run _ _ _ _ d0) by done.
  rewrite bind_run.
  rewrite (set_item_run _ _ _ _ (<[INDEX eb := VInt (Z.of_nat index)]> d0))
    by apply lookup_insert_eq.
  rewrite insert_insert_eq, Hins. rewrite !bind_run.
  destruct (for_each_on (sections eb) _ _ st) as [[out'|] st1]; [|done].
  by apply IH.
Qed.

Lemma numbered_outputs_length (eb : ExportBuilder) (data : list (record eb)) :
  forall idx index, length (numbered_outputs eb index idx data) = length data.
Proof.
  induction data as [|d data IH]; intros idx index; [done|].
  cbn [numbered_outputs length]. f_equal. apply IH.
Qed.

Lemma numbered_outputs_lookup (eb : ExportBuilder) (data : list (record eb)) :
  forall idx index k output,
  numbered_outputs eb index idx data !! k = Some output ->
  exists main,
    output !! survey_name eb = Some (RowDict main)
    /\ main !! PARENT_INDEX eb = Some (VInt (-1))
    /\ (INDEX eb <> PARENT_INDEX eb ->
        main !! INDEX eb = Some (VInt (Z.of_nat (k + index)))).
Proof.
  induction data as [|d data IH]; intros idx index k output Hk; [done|].
  destruct k as [|k]; simpl in Hk.
  - simplify_eq. eexists. split; [apply lookup_insert_eq|].
    split; [apply lookup_insert_eq|]. intros Hne.
    rewrite lookup_insert_ne by done. by rewrite lookup_insert_eq.
  - destruct (IH _ _ _ _ Hk) as (main & Hm & Hp & Hi).
    exists main. split; [done|]. split; [done|].
    intros Hne. rewrite (Hi Hne). do 3 f_equal. lia.
Qed.

(** X9. When the main rows are dicts, [_insert_data] writes the
    sections of one prepared joined export per record, in the order of the
    records; in the export prepared for the record at position [k] (from 0)
    the row of the main section carries the parent index [-1] and, the two
    field names being different, the index [k + 1]. *)
Theorem insert_data_numbers_records (eb : ExportBuilder)
    (data : list (record eb)) (st : self) :
  main_rows_are_dicts eb 1 (no_indices eb) data ->
  let outputs := numbered_outputs eb 1 (no_indices eb) data in
  SheetsExportBuilder._insert_data eb data st
  = for_each outputs
      (fun output =>
         for_each_on (sections eb) output (SheetsExportBuilder.write_section eb) ;;
         mret tt) st
  /\ length outputs = length data
  /\ forall k output, outputs !! k = Some output ->
       exists main,
         output !! survey_name eb = Some (RowDict main)
         /\ main !! PARENT_INDEX eb = Some (VInt (-1))
         /\ (INDEX eb <> PARENT_INDEX eb ->
             main !! INDEX eb = Some (VInt (Z.of_nat (k + 1)))).
Proof.
  intros Hmain outputs. split; [by apply insert_data_from_numbered|].
  split; [apply numbered_outputs_length|].
  intros k output Hk. by apply (numbered_outputs_lookup eb data (no_indices eb) 1).
Qed.

Lemma insert_data_numbers_records_witness :
  exists output main,
    numbered_outputs Demo.builder 1 (no_indices Demo.builder)
      [Demo.alice; Demo.alice] !! 1 = Some output
    /\ output !! "census"%string = Some (RowDict main)
    /\ main !! "_index"%string = Some (VInt 2).
Proof.
  assert (main_rows_are_dicts Demo.builder 1 (no_indices Demo.builder)
            [Demo.alice; Demo.alice]) as Hmain.
  { simpl. split; [|split; [|exact I]];
      intros children Hc; rewrite lookup_insert_eq in Hc; discriminate Hc. }
  destruct (insert_data_numbers_records Demo.builder [Demo.alice; Demo.alice]
              Demo.fresh Hmain) as (_ & _ & Hnum).
  destruct (Hnum 1 _ eq_refl) as (main & Hm & _ & Hi).
  eexists _, main. split; [reflexivity|]. split; [exact Hm|].
  apply Hi. discriminate.
Defined.

(** * The steps of an export, call by call *)

(** ** Worksheets by handle *)

Lemma created_titles_on_worksheet (h : nat) (calls : list ws_call) :
  created_titles (map (OnWorksheet h) calls) = [].
Proof. induction calls as [|c calls IH]; [done|exact IH]. Qed.

Lemma tracks_refl (st : self) : tracks st st.
Proof.
  exists []. rewrite app_nil_r. simpl. rewrite Nat.add_0_r.
  split; [done|]. split; [done|]. split; [|done].
  intros h w Hw. by exists w.
Qed.

Lemma tracks_trans (a b c : self) : tracks a b -> tracks b c -> tracks a c.
Proof.
  intros (evs1 & Hl1 & Hn1 & Hold1 & Hnew1) (evs2 & Hl2 & Hn2 & Hold2 & Hnew2).
  exists (evs1 ++ evs2). rewrite created_titles_app, length_app.
  split; [by rewrite Hl2, Hl1, app_assoc|]. split; [lia|]. split.
  - intros h w Hw. destruct (Hold1 h w Hw) as (w1 & Hw1 & Ht1).
    destruct (Hold2 h w1 Hw1) as (w2 & Hw2 & Ht2).
    exists w2. split; [done|congruence].
  - intros i t Hi.
    destruct (decide (i < length (created_titles evs1))) as [Hlt|Hge].
    + rewrite lookup_app_l in Hi by done.
      destruct (Hnew1 i t Hi) as (w1 & Hw1 & Ht1).
      destruct (Hold2 _ w1 Hw1) as (w2 & Hw2 & Ht2).
      exists w2. split; [done|congruence].
    + rewrite lookup_app_r in Hi by lia.
      destruct (Hnew2 _ t Hi) as (w2 & Hw2 & Ht2).
      exists w2. split; [|done].
      rewrite <- Hw2. f_equal. lia.
Qed.

Section Tracks.

Lemma tracks_add_worksheet (t : string) (rows cols : nat) (st : self) :
  bounded st ->
  respects_at bounded tracks (Spreadsheet.add_worksheet t rows cols) st.
Proof.
  intros Hb. split; [by apply bounded_add_worksheet|].
  exists [AddWorksheet t rows cols]. simpl.
  split; [done|]. split; [lia|]. split.
  - intros h w Hw. exists w. split; [|done].
    rewrite lookup_insert_ne; [done|].
    intros <-. assert (next_id st < next_id st) by (apply Hb; by rewrite Hw). lia.
  - intros [|i] t' Hi; simpl in Hi; [|done]. simplify_eq.
    rewrite Nat.add_0_r, lookup_insert_eq. by eexists.
Qed.

Lemma tracks_on_worksheet (h : nat) (call : Worksheet -> Worksheet * list ws_call)
    (st : self) :
  (forall w, title (call w).1 = title w) ->
  bounded st ->
  respects_at bounded tracks (Spreadsheet.on_worksheet h call) st.
Proof.
  intros Hcall Hb. split; [by apply bounded_on_worksheet|].
  unfold Spreadsheet.on_worksheet.
  destruct (spreadsheet st !! h) as [w|] eqn:Hw; [|apply tracks_refl].
  specialize (Hcall w). destruct (call w) as [w' calls]. simpl in *.
  exists (map (OnWorksheet h) calls). rewrite created_titles_on_worksheet.
  simpl. split; [done|]. split; [lia|]. split; [|done].
  intros h0 w0 Hw0. destruct (decide (h0 = h)) as [->|Hne].
  - rewrite lookup_insert_eq. exists w'. split; [done|]. congruence.
  - rewrite lookup_insert_ne by done. by exists w0.
Qed.

Lemma tracks_update_row (h index : nat) (values : list value) (st : self) :
  bounded st ->
  respects_at bounded tracks
    (Spreadsheet.on_worksheet h (fun w => update_row w index values)) st.
Proof.
  apply tracks_on_worksheet. intros w. by rewrite update_row_unfold.
Qed.

Lemma tracks_append_row (h : nat) (values : list value) (st : self) :
  bounded st ->
  respects_at bounded tracks
    (Spreadsheet.on_worksheet h (fun w => append_row w values)) st.
Proof.
  apply tracks_on_worksheet. intros w. by rewrite append_row_unfold.
Qed.

Lemma tracks_same_sheets {A} (m : M A) (st : self) :
  bounded st ->
  spreadsheet (m st).2 = spreadsheet st ->
  next_id (m st).2 = next_id st ->
  log (m st).2 = log st ->
  respects_at bounded tracks m st.
Proof.
  intros Hb Hs Hn Hl. split.
  - intros h Hh. rewrite Hs in Hh. rewrite Hn. by apply Hb.
  - exists []. rewrite app_nil_r. simpl. rewrite Nat.add_0_r, Hs.
    split; [done|]. split; [done|]. split; [|done].
    intros h w Hw. by exists w.
Qed.

Lemma tracks_get_worksheet (nm : string) (st : self) :
  bounded st -> respects_at bounded tracks (get_worksheet nm) st.
Proof.
  intros Hb. apply tracks_same_sheets; [done|..];
    unfold get_worksheet; by destruct (worksheets st !! nm).
Qed.

Let bind := @respects_bind bounded tracks tracks_trans.
Let ret := @respects_ret bounded tracks tracks_refl.

Lemma tracks_export_flattened (csv : list (list string)) (st : self) :
  bounded st ->
  respects_at bounded tracks (SheetsExportBuilder.export_flattened csv) st.
Proof.
  intros Hb. unfold SheetsExportBuilder.export_flattened.
  destruct (map _ csv) as [|first rest]; [by apply ret|].
  apply bind; [by apply tracks_add_worksheet|].
  intros ws st1 _ Hb1.
  apply (respects_for_each _ _ tracks_refl tracks_trans); [|done].
  intros [index values] st2 _ Hb2. by apply tracks_update_row.
Qed.

Lemma tracks_insert_xlsform (xlsform : option (list xl_sheet)) (st : self) :
  bounded st ->
  respects_at bounded tracks (SheetsExportBuilder._insert_xlsform xlsform) st.
Proof.
  intros Hb. destruct xlsform as [workbook|]; [|by apply ret].
  apply (respects_for_each _ _ tracks_refl tracks_trans); [|done].
  intros nm st1 _ Hb1. unfold SheetsExportBuilder.copy_sheet.
  destruct (SheetsExportBuilder.sheet_by_name workbook nm) as [src|];
    [|by apply respects_raise; [apply tracks_refl|]].
  apply bind; [by apply tracks_add_worksheet|].
  intros ws st2 _ Hb2.
  apply (respects_for_each _ _ tracks_refl tracks_trans); [|done].
  intros r st3 _ Hb3. by apply tracks_update_row.
Qed.

Lemma tracks_export_tabular (eb : ExportBuilder) (data : list (record eb))
    (st : self) :
  bounded st ->
  respects_at bounded tracks (SheetsExportBuilder.export_tabular eb data) st.
Proof.
  intros Hb. unfold SheetsExportBuilder.export_tabular.
  apply bind.
  { apply (respects_for_each _ _ tracks_refl tracks_trans); [|done].
    intros s st1 _ Hb1. unfold SheetsExportBuilder.create_worksheet.
    apply bind; [by apply tracks_same_sheets|]. intros titles st2 _ Hb2.
    apply bind; [by apply tracks_same_sheets|]. intros _ st3 _ Hb3.
    apply bind; [by apply tracks_add_worksheet|]. intros ws st4 _ Hb4.
    by apply tracks_same_sheets. }
  intros _ st1 _ Hb1. apply bind.
  { apply (respects_for_each _ _ tracks_refl tracks_trans); [|done].
    intros s st2 _ Hb2. unfold SheetsExportBuilder.insert_header.
    apply bind; [by apply tracks_get_worksheet|]. intros ws st3 _ Hb3.
    by apply tracks_update_row. }
  intros _ st2 _ Hb2. unfold SheetsExportBuilder._insert_data.
  generalize 1 (no_indices eb). revert st2 Hb2.
  induction data as [|d data IH]; intros st2 Hb2 index idx; [by apply ret|].
  simpl. destruct (dict_to_joined_export eb d index idx (survey_name eb))
    as [joined idx'].
  apply bind;
    [by apply respects_set_item; [apply tracks_refl|]|].
  intros out1 st3 _ Hb3.
  apply bind;
    [by apply respects_set_item; [apply tracks_refl|]|].
  intros out2 st4 _ Hb4. apply bind; [|intros _ st5 _ Hb5; by apply IH].
  apply (respects_for_each_on _ _ tracks_refl tracks_trans); [|done].
  intros out s st5 _ Hb5. unfold SheetsExportBuilder.write_section.
  apply bind; [by apply tracks_get_worksheet|]. intros ws st6 _ Hb6.
  assert (forall r st0, bounded st0 ->
            respects_at bounded tracks
              (SheetsExportBuilder.write_section_row eb s ws r) st0) as Hrow.
  { intros r st0 Hb0. unfold SheetsExportBuilder.write_section_row.
    apply bind; [by apply tracks_same_sheets|]. intros titles st7 _ Hb7.
    unfold SheetsExportBuilder.write_row.
    apply bind; [by apply tracks_append_row|]. intros _ st8 _ Hb8.
    by apply ret. }
  destruct (out !! name s) as [[r|rs]|]; [| |by apply ret].
  - apply bind; [by apply Hrow|]. intros r' st7 _ Hb7. by apply ret.
  - apply bind; [|intros rs' st7 _ Hb7; by apply ret].
    apply (respects_for_each_changed _ _ tracks_refl tracks_trans); [|done].
    intros r st7 _ Hb7. by apply Hrow.
Qed.

End Tracks.

(** ** The calls that fill rows *)

Lemma update_row_calls (h : nat) (w : Worksheet) (index : nat)
    (values : list value) :
  row_write h index values (map (OnWorksheet h) (update_row w index values).2)
  /\ (length values <= col_count w ->
      map (OnWorksheet h) (update_row w index values).2
      = [OnWorksheet h (UpdateCells (row_cells index values))]).
Proof.
  rewrite update_row_unfold. simpl.
  destruct (col_count w <? length values) eqn:Hlt; simpl.
  - split; [by right|]. apply Nat.ltb_lt in Hlt. lia.
  - split; [by left|done].
Qed.

Lemma append_row_calls_shape (h : nat) (w : Worksheet) (values : list value) :
  row_append h (row_count w + 1) values
    (map (OnWorksheet h) (append_row w values).2)
  /\ (length values <= col_count w ->
      map (OnWorksheet h) (append_row w values).2
      = [OnWorksheet h (AddRows 1);
         OnWorksheet h (UpdateCells (row_cells (row_count w + 1) values))]).
Proof.
  rewrite append_row_unfold. simpl.
  destruct (col_count w <? length values) eqn:Hlt; simpl.
  - split; [eexists; split; [done|by right]|].
    apply Nat.ltb_lt in Hlt. lia.
  - split; [eexists; split; [done|by left]|done].
Qed.

Lemma created_titles_row_write (h index : nat) (values : list value)
    (calls : list event) :
  row_write h index values calls -> created_titles calls = [].
Proof. by intros [->| ->]. Qed.

Lemma created_titles_concat {A} (P : A -> list event -> Prop) (l : list A)
    (chunks : list (list event)) :
  (forall a calls, P a calls -> created_titles calls = []) ->
  Forall2 P l chunks -> created_titles (concat chunks) = [].
Proof.
  intros HP. induction 1 as [|a calls l chunks Hc _ IH]; [done|].
  simpl. rewrite created_titles_app, IH, (HP a calls Hc). done.
Qed.

(** The rows of the flattened CSV from row [k] on. *)
Lemma write_rows_calls (h : nat) (rows : list (list string)) :
  forall (k : nat) (st : self) (w : Worksheet),
  spreadsheet st !! h = Some w ->
  exists w' chunks,
    for_each (PyStr.enumerate k rows) (fun '(index, values) =>
      Spreadsheet.on_worksheet h (fun w => update_row w index (map VStr values))) st
    = (Some tt, mkSelf (<[h := w']> (spreadsheet st)) (next_id st)
                       (log st ++ concat chunks)
                       (worksheets st) (worksheet_titles st))
    /\ Forall2 (fun '(index, values) calls =>
                  row_write h index (map VStr values) calls)
         (PyStr.enumerate k rows) chunks.
Proof.
  induction rows as [|r0 rows IH]; intros k st w Hw.
  - exists w, []. simpl. destruct st; simpl in *.
    rewrite insert_id by done. rewrite app_nil_r. split; [done|constructor].
  - simpl. rewrite bind_run, (on_worksheet_run _ _ _ _ Hw).
    set (w1 := (update_row w k (map VStr r0)).1).
    set (st1 := mkSelf _ _ _ _ _).
    destruct (IH (S k) st1 w1) as (w' & chunks & Hrun & Hall);
      [apply lookup_insert_eq|].
    exists w', (map (OnWorksheet h) (update_row w k (map VStr r0)).2 :: chunks).
    split.
    + etransitivity; [exact Hrun|]. subst st1. simpl.
      rewrite insert_insert_eq. by rewrite <- app_assoc.
    + constructor; [|exact Hall]. apply update_row_calls.
Qed.

(** Rows that fit the width of the worksheet: no call but the updates. *)
Lemma update_rows_calls {A} (h : nat) (idx : A -> nat) (vals : A -> list value)
    (l : list A) :
  forall (st : self) (w : Worksheet),
  spreadsheet st !! h = Some w ->
  (forall a, a ∈ l -> length (vals a) <= col_count w) ->
  exists w',
    for_each l (fun a =>
      Spreadsheet.on_worksheet h (fun w => update_row w (idx a) (vals a))) st
    = (Some tt,
       mkSelf (<[h := w']> (spreadsheet st)) (next_id st)
              (log st
                 ++ map (fun a => OnWorksheet h
                                    (UpdateCells (row_cells (idx a) (vals a)))) l)
              (worksheets st) (worksheet_titles st)).
Proof.
  induction l as [|a l IH]; intros st w Hw Hfit.
  - exists w. simpl. destruct st; simpl in *.
    rewrite insert_id by done. by rewrite app_nil_r.
  - simpl. rewrite bind_run, (on_worksheet_run _ _ _ _ Hw).
    set (w1 := (update_row w (idx a) (vals a)).1).
    set (st1 := mkSelf _ _ _ _ _).
    assert (col_count w1 = col_count w) as Hcol.
    { subst w1. rewrite update_row_width.
      assert (length (vals a) <= col_count w) by (apply Hfit; by left). lia. }
    destruct (IH st1 w1) as (w' & Hrun); [apply lookup_insert_eq| |].
    { intros b Hb. rewrite Hcol. apply Hfit. by right. }
    exists w'. etransitivity; [exact Hrun|]. subst st1. simpl.
    rewrite insert_insert_eq.
    rewrite (proj2 (update_row_calls h w (idx a) (vals a)))
      by (apply Hfit; by left).
    by rewrite <- app_assoc.
Qed.

(** ** The calls of the flattened export and of the XLSForm copy *)

Lemma export_flattened_calls (csv : list (list string)) (st : self) :
  next_id st = 1 ->
  exists st' cr hd dt,
    SheetsExportBuilder.export_flattened csv st = (Some tt, st')
    /\ log st' = log st ++ cr ++ hd ++ dt
    /\ flattened_steps csv cr hd dt.
Proof.
  intros Hnext. unfold SheetsExportBuilder.export_flattened, flattened_steps.
  destruct (map (map SheetsExportBuilder.filter_na) csv) as [|first rest].
  - exists st, [], [], []. simpl. by rewrite app_nil_r.
  - rewrite bind_run. unfold Spreadsheet.add_worksheet at 1. cbv beta iota.
    rewrite Hnext.
    set (w0 := mkWorksheet _ _ _ _). set (st1 := mkSelf _ _ _ _ _).
    change (PyStr.enumerate 1 (first :: rest))
      with ((1, first) :: PyStr.enumerate 2 rest).
    cbn [for_each]. rewrite bind_run.
    assert (spreadsheet st1 !! 1 = Some w0) as Hw0 by apply lookup_insert_eq.
    rewrite (on_worksheet_run _ _ _ _ Hw0).
    pose proof (proj2 (update_row_calls 1 w0 1 (map VStr first))) as Hcalls.
    rewrite length_map in Hcalls. specialize (Hcalls (Nat.le_refl _)).
    rewrite Hcalls.
    set (w1 := (update_row w0 1 (map VStr first)).1).
    set (st2 := mkSelf _ _ _ _ _).
    destruct (write_rows_calls 1 rest 2 st2 w1) as (w' & chunks & Hrun & Hall);
      [apply lookup_insert_eq|].
    rewrite Hrun.
    eexists _, [_], [_], (concat chunks).
    split; [reflexivity|]. subst st2 st1. cbn [log].
    split; [by rewrite <- !app_assoc|].
    split; [done|]. split; [done|]. by exists chunks.
Qed.

Lemma copy_sheets_calls (workbook l : list xl_sheet) :
  (forall s, s ∈ l -> s ∈ workbook) ->
  forall st,
  log (for_each (map sh_name l) (SheetsExportBuilder.copy_sheet workbook) st).2
  = log st
      ++ concat
           (imap (fun i source =>
                    copy_calls (next_id st + i)
                      (default source
                         (SheetsExportBuilder.sheet_by_name workbook
                            (sh_name source))))
              l).
Proof.
  induction l as [|s0 l IH]; intros Hin st.
  - simpl. by rewrite app_nil_r.
  - destruct (sheet_by_name_some workbook (sh_name s0)) as (src & Hsrc & Hnm).
    { apply list_elem_of_fmap. exists s0. split; [done|]. apply Hin. by left. }
    cbn [map for_each imap concat]. rewrite bind_run.
    unfold SheetsExportBuilder.copy_sheet at 1. rewrite Hsrc. simpl default.
    rewrite bind_run. unfold Spreadsheet.add_worksheet at 1. cbv beta iota.
    set (w0 := mkWorksheet _ _ _ _). set (st1 := mkSelf _ _ _ _ _).
    destruct (update_rows_calls (next_id st) (fun r => r + 1)
                (fun r => map (cell_value src r) (seq 0 (ncols src)))
                (seq 0 (nrows src)) st1 w0) as (w' & Hrun);
      [apply lookup_insert_eq| |].
    { intros r _. simpl. by rewrite length_map, length_seq. }
    rewrite Hrun. set (st2 := mkSelf _ _ _ _ _).
    rewrite (IH (fun y Hy => Hin y (list_elem_of_further _ _ _ Hy)) st2).
    subst st2 st1. simpl. rewrite <- !app_assoc. f_equal.
    rewrite Nat.add_0_r, Hnm. simpl. f_equal. f_equal. f_equal.
    apply imap_ext. intros i s _. simpl. f_equal. lia.
Qed.

Lemma insert_xlsform_calls (config : Config) (xlsform : option (list xl_sheet))
    (st : self) :
  log ((if export_xlsform config
        then SheetsExportBuilder._insert_xlsform xlsform
        else mret tt) st).2
  = log st ++ xlsform_calls config xlsform (next_id st).
Proof.
  unfold xlsform_calls. destruct (export_xlsform config);
    [|simpl; by rewrite app_nil_r].
  destruct xlsform as [workbook|]; [|simpl; by rewrite app_nil_r].
  by apply copy_sheets_calls.
Qed.

Lemma created_titles_copy_calls (h : nat) (source : xl_sheet) :
  created_titles (copy_calls h source) = [sh_name source].
Proof.
  unfold copy_calls.
  change (AddWorksheet ?t ?r ?c :: ?evs) with ([AddWorksheet t r c] ++ evs).
  rewrite created_titles_app. simpl. f_equal.
  apply (created_titles_none
           (fun e => exists h0 cl, e = OnWorksheet h0 (UpdateCells cl))).
  - intros e (h0 & cl & ->) [] .
  - apply Forall_forall. intros e He.
    apply list_elem_of_fmap in He as (r & -> & _). by eexists _, _.
Qed.

Lemma created_titles_xlsform_calls (config : Config)
    (xlsform : option (list xl_sheet)) (h : nat) :
  created_titles (xlsform_calls config xlsform h) = xlsform_titles config xlsform.
Proof.
  unfold xlsform_calls, xlsform_titles.
  destruct (export_xlsform config); [|done].
  destruct xlsform as [workbook|]; [|done]. simpl.
  assert (forall l : list xl_sheet, (forall s, s ∈ l -> s ∈ workbook) ->
          forall k,
            created_titles
              (concat (imap (fun i source =>
                               copy_calls (k + i)
                                 (default source
                                    (SheetsExportBuilder.sheet_by_name workbook
                                       (sh_name source)))) l))
            = map sh_name l) as Hl.
  { induction l as [|s0 l IH]; intros Hin k; [done|].
    destruct (sheet_by_name_some workbook (sh_name s0)) as (src & Hsrc & Hnm).
    { apply list_elem_of_fmap. exists s0. split; [done|]. apply Hin. by left. }
    cbn [imap concat map]. rewrite created_titles_app, Hsrc. simpl default.
    rewrite created_titles_copy_calls, Hnm. simpl. f_equal.
    rewrite <- (IH (fun y Hy => Hin y (list_elem_of_further _ _ _ Hy)) (S k)).
    f_equal. f_equal. apply imap_ext. intros i s _. simpl. f_equal. lia. }
  by apply Hl.
Qed.

(** ** The calls of the tabular export *)

Section TabularCalls.

Context (eb : ExportBuilder).

Let ss := sections eb.

Lemma create_worksheets_calls (l : list section) :
  forall st,
  log (for_each l (SheetsExportBuilder.create_worksheet eb) st).2
  = log st
      ++ zip_with (fun s t => AddWorksheet t 1 (num_cols eb s)) l
           (generated_titles eb (worksheet_titles st) l).
Proof.
  induction l as [|s l IH]; intros st.
  - simpl. by rewrite app_nil_r.
  - simpl. rewrite bind_run, create_worksheet_run.
    set (st1 := mkSelf _ _ _ _ _). rewrite (IH st1).
    subst st1. simpl. by rewrite <- app_assoc.
Qed.

Lemma insert_headers_calls (l : list section) :
  (forall s, s ∈ l -> s ∈ ss) ->
  forall st, ready ss st ->
  exists chunks,
    log (for_each l (SheetsExportBuilder.insert_header eb) st).2
    = log st ++ concat chunks
    /\ Forall2 (step_header eb (worksheets st)) l chunks.
Proof.
  induction l as [|s l IH]; intros Hin st Hready.
  - exists []. simpl. rewrite app_nil_r. split; [done|constructor].
  - destruct (Hready s) as (h & w & Hh & Hw & _); [apply Hin; by left|].
    destruct (insert_header_run eb s st Hready) as
      (h1 & st1' & evs1 & _ & Hrun1 & _ & _ & _ & Hev1); [apply Hin; by left|].
    rewrite (insert_header_eq eb s st h w Hh Hw) in Hrun1.
    simpl. rewrite bind_run, (insert_header_eq eb s st h w Hh Hw).
    set (st1 := mkSelf _ _ _ _ _) in *.
    assert (st1' = st1) as -> by by simplify_eq.
    destruct (IH (fun y Hy => Hin y (list_elem_of_further _ _ _ Hy)) st1)
      as (chunks & Hlog & Hall).
    { eapply evolves_ready; [|exact Hev1|exact Hready]. done. }
    exists (map (OnWorksheet h)
              (update_row w 1 (SheetsExportBuilder.headers eb s)).2 :: chunks).
    split; [rewrite Hlog; subst st1; simpl; by rewrite <- app_assoc|].
    constructor; [|exact Hall].
    exists h. split; [done|]. apply update_row_calls.
Qed.

End TabularCalls.

(** ** The calls that write the data rows *)

Lemma rows_of_section_written (eb : ExportBuilder) (titles : gmap string string)
    (output : gmap string section_rows) (s s' : section) :
  rows_of (section_written eb titles output s) s'
  = if decide (name s' = name s)
    then map (fun r => with_parent_title eb titles (pre_process_row eb r s))
           (rows_of output s)
    else rows_of output s'.
Proof.
  unfold rows_of, section_written.
  case_decide as Hn.
  - rewrite Hn. destruct (output !! name s) as [[r|rs]|] eqn:Hout.
    + by rewrite lookup_insert_eq.
    + by rewrite lookup_insert_eq.
    + by rewrite Hout.
  - destruct (output !! name s) as [[r|rs]|]; [| |done];
      by rewrite lookup_insert_ne.
Qed.

Lemma rows_of_section_written_length (eb : ExportBuilder)
    (titles : gmap string string) (output : gmap string section_rows)
    (s s' : section) :
  length (rows_of (section_written eb titles output s) s')
  = length (rows_of output s').
Proof.
  rewrite rows_of_section_written. case_decide as Hn; [|done].
  rewrite length_map. unfold rows_of. by rewrite Hn.
Qed.

Lemma written_records_dicts (eb : ExportBuilder) (data : list (record eb)) :
  forall index idx,
  main_rows_are_dicts eb index idx (written_records eb index idx data).
Proof.
  induction data as [|d data IH]; intros index idx; [done|].
  simpl.
  destruct (decode_mongo_encoded_section_names eb _ !! survey_name eb)
    as [[r|rs]|] eqn:Hmain; [|done|].
  - simpl. rewrite Hmain. split; [done|apply IH].
  - simpl. rewrite Hmain. split; [done|apply IH].
Qed.

Section DataCalls.

Context (eb : ExportBuilder).
Context (wsmap : gmap string nat) (titles : gmap string string).

Let ss := sections eb.

Let inv (st : self) : Prop :=
  ready ss st /\ worksheets st = wsmap /\ worksheet_titles st = titles.

Lemma write_section_row_calls (s : section) (h : nat) (r : row) (st : self) :
  inv st -> s ∈ ss -> wsmap !! name s = Some h ->
  exists st' calls,
    SheetsExportBuilder.write_section_row eb s h r st
    = (Some (with_parent_title eb titles (pre_process_row eb r s)), st')
    /\ inv st'
    /\ log st' = log st ++ calls
    /\ step_data_row eb wsmap s calls.
Proof.
  intros Hinv Hs Hh. pose proof Hinv as (Hready & Hws & Hwt).
  destruct (Hready s Hs) as (h' & w & Hh' & Hw & Hr).
  assert (h' = h) as -> by congruence.
  destruct (write_section_row_step eb wsmap titles s h r st Hinv Hs Hh)
    as [_ Hev].
  rewrite write_section_row_run, Hwt in Hev |- *.
  rewrite (write_row_run eb _ h _ _ st w Hw) in Hev |- *.
  set (values := SheetsExportBuilder.row_values eb _ _ _) in *.
  eexists _, _. split; [reflexivity|]. simpl in Hev. split; [|split].
  - by eapply appends_inv.
  - reflexivity.
  - exists h, (row_count w + 1), values.
    split; [done|]. split; [lia|].
    split; [apply row_values_length|apply append_row_calls_shape].
Qed.

Lemma write_rows_of_calls (s : section) (h : nat) (rs : list row) :
  s ∈ ss -> wsmap !! name s = Some h ->
  forall st, inv st ->
  exists st' chunks,
    for_each_changed rs (SheetsExportBuilder.write_section_row eb s h) st
    = (Some (map (fun r => with_parent_title eb titles (pre_process_row eb r s))
               rs), st')
    /\ inv st'
    /\ log st' = log st ++ concat chunks
    /\ Forall2 (fun _ calls => step_data_row eb wsmap s calls) rs chunks.
Proof.
  intros Hs Hh. induction rs as [|r rs IH]; intros st Hinv.
  - exists st, []. simpl. rewrite app_nil_r.
    split; [done|]. split; [done|]. split; [done|constructor].
  - destruct (write_section_row_calls s h r st Hinv Hs Hh)
      as (st1 & calls & Hrun1 & Hinv1 & Hlog1 & Hstep1).
    destruct (IH st1 Hinv1) as (st' & chunks & Hrun & Hinv' & Hlog & Hall).
    exists st', (calls :: chunks). simpl.
    rewrite bind_run, Hrun1, bind_run, Hrun.
    split; [done|]. split; [done|].
    split; [by rewrite Hlog, Hlog1, <- app_assoc|by constructor].
Qed.

Lemma write_section_calls (output : gmap string section_rows) (s : section)
    (st : self) :
  inv st -> s ∈ ss ->
  exists st' chunks,
    SheetsExportBuilder.write_section eb output s st
    = (Some (section_written eb titles output s), st')
    /\ inv st'
    /\ log st' = log st ++ concat chunks
    /\ Forall2 (fun _ calls => step_data_row eb wsmap s calls)
         (rows_of output s) chunks.
Proof.
  intros Hinv Hs. pose proof Hinv as (Hready & Hws & Hwt).
  destruct (Hready s Hs) as (h & w & Hh & Hw & Hr).
  assert (wsmap !! name s = Some h) as Hh' by congruence.
  rewrite (write_section_run eb output s h st Hh).
  unfold section_written, rows_of.
  destruct (output !! name s) as [[r|rs]|].
  - destruct (write_section_row_calls s h r st Hinv Hs Hh')
      as (st1 & calls & Hrun1 & Hinv1 & Hlog1 & Hstep1).
    exists st1, [calls]. rewrite bind_run, Hrun1. simpl.
    rewrite app_nil_r. split; [done|]. split; [done|]. split; [done|].
    by repeat constructor.
  - destruct (write_rows_of_calls s h rs Hs Hh' st Hinv)
      as (st1 & chunks & Hrun1 & Hinv1 & Hlog1 & Hall1).
    exists st1, chunks. by rewrite bind_run, Hrun1.
  - exists st, []. simpl. rewrite app_nil_r.
    split; [done|]. split; [done|]. split; [done|constructor].
Qed.

Lemma write_sections_calls (l : list section) :
  (forall s, s ∈ l -> s ∈ ss) ->
  forall output st, inv st ->
  exists st' chunks,
    for_each_on l output (SheetsExportBuilder.write_section eb) st
    = (Some (foldl (section_written eb titles) output l), st')
    /\ inv st'
    /\ log st' = log st ++ concat chunks
    /\ Forall2 (step_data_row eb wsmap)
         (flat_map (fun s => map (pair s) (rows_of output s)) l).*1 chunks.
Proof.
  induction l as [|s l IH]; intros Hin output st Hinv.
  - exists st, []. simpl. rewrite app_nil_r.
    split; [done|]. split; [done|]. split; [done|constructor].
  - destruct (write_section_calls output s st Hinv) as
      (st1 & chunks1 & Hrun1 & Hinv1 & Hlog1 & Hall1); [apply Hin; by left|].
    destruct (IH (fun y Hy => Hin y (list_elem_of_further _ _ _ Hy))
                (section_written eb titles output s) st1 Hinv1)
      as (st' & chunks & Hrun & Hinv' & Hlog & Hall).
    exists st', (chunks1 ++ chunks). simpl.
    rewrite bind_run, Hrun1, Hrun.
    split; [done|]. split; [done|].
    split; [by rewrite Hlog, Hlog1, concat_app, <- app_assoc|].
    rewrite fmap_app. apply Forall2_app.
    + clear -Hall1. induction Hall1; simpl; by constructor.
    + assert ((flat_map (fun s0 => map (pair s0)
                           (rows_of (section_written eb titles output s) s0)) l).*1
              = (flat_map (fun s0 => map (pair s0) (rows_of output s0)) l).*1)
        as <-; [|exact Hall].
      clear. induction l as [|s0 l IH]; [done|].
      simpl. rewrite !fmap_app, IH. f_equal.
      pose proof (rows_of_section_written_length eb titles output s s0) as Hlen.
      revert Hlen. generalize (rows_of (section_written eb titles output s) s0).
      generalize (rows_of output s0).
      induction l0 as [|a l0 IHl]; intros [|b l1] Hlen; simpl in *;
        try done. f_equal. apply IHl. lia.
Qed.

End DataCalls.

Lemma insert_data_from_written (eb : ExportBuilder) (data : list (record eb)) :
  forall index idx st,
  (SheetsExportBuilder.insert_data_from eb index idx data st).2
  = (SheetsExportBuilder.insert_data_from eb index idx
       (written_records eb index idx data) st).2.
Proof.
  induction data as [|d data IH]; intros index idx st; [done|].
  cbn [written_records SheetsExportBuilder.insert_data_from].
  destruct (dict_to_joined_export eb d index idx (survey_name eb))
    as [joined idx'] eqn:Hjoined. cbn [fst snd].
  destruct (decode_mongo_encoded_section_names eb joined !! survey_name eb)
    as [[r|rs]|] eqn:Hmain.
  - cbn [SheetsExportBuilder.insert_data_from]. rewrite Hjoined, Hmain.
    rewrite !bind_run.
    destruct (SheetsExportBuilder.set_item _ _ _ _ st) as [[out1|] st1]; [|done].
    rewrite !bind_run.
    destruct (SheetsExportBuilder.set_item _ _ _ _ st1) as [[out2|] st2]; [|done].
    rewrite !bind_run.
    destruct (for_each_on _ _ _ st2) as [[out3|] st3]; [|done].
    apply IH.
  - rewrite bind_run, set_item_raises; [done|]. intros d0. congruence.
  - cbn [SheetsExportBuilder.insert_data_from]. rewrite Hjoined, Hmain.
    rewrite !bind_run.
    destruct (SheetsExportBuilder.set_item _ _ _ _ st) as [[out1|] st1]; [|done].
    rewrite !bind_run.
    destruct (SheetsExportBuilder.set_item _ _ _ _ st1) as [[out2|] st2]; [|done].
    rewrite !bind_run.
    destruct (for_each_on _ _ _ st2) as [[out3|] st3]; [|done].
    apply IH.
Qed.

Section RecordCalls.

Context (eb : ExportBuilder).
Context (wsmap : gmap string nat) (titles : gmap string string).

Let ss := sections eb.

Let inv (st : self) : Prop :=
  ready ss st /\ worksheets st = wsmap /\ worksheet_titles st = titles.

Lemma insert_outputs_calls (outputs : list (gmap string section_rows)) :
  forall st, inv st ->
  exists st' chunks,
    for_each outputs
      (fun output =>
         for_each_on ss output (SheetsExportBuilder.write_section eb) ;;
         mret tt) st
    = (Some tt, st')
    /\ inv st'
    /\ log st' = log st ++ concat chunks
    /\ Forall2 (step_data_row eb wsmap)
         (flat_map (fun output =>
                      flat_map (fun s => map (pair s) (rows_of output s)) ss)
            outputs).*1 chunks.
Proof.
  induction outputs as [|output outputs IH]; intros st Hinv.
  - exists st, []. simpl. rewrite app_nil_r.
    split; [done|]. split; [done|]. split; [done|constructor].
  - destruct (write_sections_calls eb wsmap titles ss (fun _ H => H) output st Hinv)
      as (st1 & chunks1 & Hrun1 & Hinv1 & Hlog1 & Hall1).
    destruct (IH st1 Hinv1) as (st' & chunks & Hrun & Hinv' & Hlog & Hall).
    exists st', (chunks1 ++ chunks). cbn [for_each].
    rewrite bind_run, bind_run. fold ss. rewrite Hrun1. simpl. rewrite Hrun.
    split; [done|]. split; [done|].
    split; [by rewrite Hlog, Hlog1, concat_app, <- app_assoc|].
    rewrite fmap_app. by apply Forall2_app.
Qed.

Lemma insert_data_calls (data : list (record eb)) (st : self) :
  inv st ->
  exists chunks,
    inv (SheetsExportBuilder._insert_data eb data st).2
    /\ log (SheetsExportBuilder._insert_data eb data st).2
       = log st ++ concat chunks
    /\ Forall2 (step_data_row eb wsmap) (rows_to_write eb data).*1 chunks.
Proof.
  intros Hinv. unfold SheetsExportBuilder._insert_data.
  rewrite insert_data_from_written.
  rewrite insert_data_from_numbered by apply written_records_dicts.
  destruct (insert_outputs_calls
              (numbered_outputs eb 1 (no_indices eb)
                 (written_records eb 1 (no_indices eb) data)) st Hinv)
    as (st' & chunks & Hrun & Hinv' & Hlog & Hall).
  fold ss. rewrite Hrun. by exists chunks.
Qed.

End RecordCalls.

(** ** The worksheets the last step deletes *)

Lemma default_sheets_from (m : gmap nat Worksheet) (titles : list string) :
  forall start,
  (forall i t, titles !! i = Some t ->
     exists w, m !! (start + i) = Some w /\ title w = t) ->
  (filter (fun p : nat * Worksheet => title p.2 = "Sheet1"%string)
     (omap (fun ws => pair ws <$> m !! ws) (seq start (length titles)))).*1
  = (filter (fun p : nat * string => p.2 = "Sheet1"%string)
       (imap (fun i t => (start + i, t)) titles)).*1.
Proof.
  induction titles as [|t titles IH]; intros start Hm; [done|].
  destruct (Hm 0 t eq_refl) as (w & Hw & Ht). rewrite Nat.add_0_r in Hw.
  cbn [length seq omap list_omap imap]. rewrite Hw.
  cbn [fmap option_fmap option_map].
  fold (@omap list _ nat (nat * Worksheet)%type (fun ws => pair ws <$> m !! ws)
          (seq (S start) (length titles))).
  rewrite !filter_cons. cbn [snd]. rewrite Nat.add_0_r, Ht.
  assert ((filter (fun p : nat * Worksheet => title p.2 = "Sheet1"%string)
             (omap (fun ws => pair ws <$> m !! ws)
                (seq (S start) (length titles)))).*1
          = (filter (fun p : nat * string => p.2 = "Sheet1"%string)
               (imap ((fun i t0 => (start + i, t0)) ∘ S) titles)).*1) as Hrest.
  { rewrite (IH (S start)).
    - f_equal. f_equal. apply imap_ext. intros i t0 _. simpl. f_equal. lia.
    - intros i t0 Hi. destruct (Hm (S i) t0 Hi) as (w0 & Hw0 & Ht0).
      exists w0. split; [|done]. rewrite <- Hw0. f_equal. lia. }
  destruct (decide (t = "Sheet1"%string)); [|exact Hrest].
  rewrite !fmap_cons. cbn [fst]. by rewrite Hrest.
Qed.

Lemma default_sheets_titled (titles : list string) (st : self) :
  next_id st = length titles ->
  (forall i t, titles !! i = Some t ->
     exists w, spreadsheet st !! i = Some w /\ title w = t) ->
  default_sheets (Spreadsheet.feed st) = titled "Sheet1" titles.
Proof.
  intros Hnext Hm. unfold default_sheets, Spreadsheet.feed, titled.
  rewrite Hnext. rewrite (default_sheets_from (spreadsheet st) titles 0 Hm).
  done.
Qed.

Lemma tracks_opened (config : Config) (blank : Worksheet) (st st' : self) :
  tracks (opened config blank st) st' ->
  default_sheets (Spreadsheet.feed st')
  = titled "Sheet1"
      (title blank
         :: created_titles (new_events (opened config blank st) st')).
Proof.
  intros (evs & Hlog & Hnext & Hold & Hnew).
  rewrite (new_events_app _ _ _ Hlog).
  apply default_sheets_titled.
  - rewrite Hnext. simpl. lia.
  - intros [|i] t Hi; simpl in Hi.
    + simplify_eq. destruct (Hold 0 blank) as (w & Hw & Ht);
        [apply lookup_singleton_eq|]. by exists w.
    + destruct (Hnew i t Hi) as (w & Hw & Ht). by exists w.
Qed.

(** ** The steps of an export in order *)

Lemma created_titles_adds (evs : list event) :
  Forall is_add evs -> length (created_titles evs) = length evs.
Proof.
  induction 1 as [|e evs He _ IH]; [done|].
  destruct e; try done. simpl. by rewrite IH.
Qed.

Lemma created_titles_step_header (eb : ExportBuilder) (wsmap : gmap string nat)
    (l : list section) (chunks : list (list event)) :
  Forall2 (step_header eb wsmap) l chunks -> created_titles (concat chunks) = [].
Proof.
  apply created_titles_concat. intros s calls (h & _ & Hw).
  by eapply created_titles_row_write.
Qed.

Lemma created_titles_step_data_row (eb : ExportBuilder) (wsmap : gmap string nat)
    (l : list section) (chunks : list (list event)) :
  Forall2 (step_data_row eb wsmap) l chunks -> created_titles (concat chunks) = [].
Proof.
  apply created_titles_concat.
  intros s calls (h & n & values & _ & _ & _ & fill & -> & Hw).
  change (OnWorksheet h (AddRows 1) :: fill)
    with ([OnWorksheet h (AddRows 1)] ++ fill).
  rewrite created_titles_app. simpl. by eapply created_titles_row_write.
Qed.

Lemma creation_calls_adds (eb : ExportBuilder) (titles : gmap string string) :
  Forall is_add (creation_calls eb titles).
Proof.
  unfold creation_calls.
  generalize (generated_titles eb titles (sections eb)).
  induction (sections eb) as [|s l IH]; intros ts; [constructor|].
  destruct ts as [|t ts]; [constructor|].
  simpl. constructor; [done|apply IH].
Qed.

Lemma export_tabular_calls (eb : ExportBuilder) (data : list (record eb))
    (st : self) :
  let st' := (SheetsExportBuilder.export_tabular eb data st).2 in
  exists cr hd dt,
    log st' = log st ++ cr ++ hd ++ dt
    /\ cr = creation_calls eb (worksheet_titles st)
    /\ (forall s, s ∈ sections eb ->
          exists i s', worksheets st' !! name s = Some (next_id st + i)
                       /\ sections eb !! i = Some s' /\ name s' = name s)
    /\ (exists chunks,
          hd = concat chunks
          /\ Forall2 (step_header eb (worksheets st')) (sections eb) chunks)
    /\ (exists chunks,
          dt = concat chunks
          /\ Forall2 (step_data_row eb (worksheets st'))
               (rows_to_write eb data).*1 chunks).
Proof.
  intros st'. subst st'.
  destruct (create_worksheets_run eb (sections eb) st)
    as (st1 & cr & Hrun1 & Hlog1 & _ & _ & _ & _ & _ & Hnew & _ & Hws).
  pose proof (create_worksheets_calls eb (sections eb) st) as Hcr.
  rewrite Hrun1 in Hcr. simpl in Hcr. rewrite Hlog1 in Hcr.
  apply app_inv_head in Hcr.
  assert (ready (sections eb) st1) as Hready1.
  { intros s Hs. destruct (Hws s Hs) as (i & s' & Hh & Hi & _).
    destruct (Hnew i s' Hi) as (w & Hw & Hr & _).
    exists (next_id st + i), w. split; [done|]. split; [done|lia]. }
  destruct (insert_headers_run eb (sections eb) (fun _ H => H) st1 Hready1)
    as (st2 & hd & Hrun2 & Hlog2 & _ & _ & Hev2).
  destruct (insert_headers_calls eb (sections eb) (fun _ H => H) st1 Hready1)
    as (chunks2 & Hhd & Hall2).
  rewrite Hrun2 in Hhd. simpl in Hhd. rewrite Hlog2 in Hhd.
  apply app_inv_head in Hhd.
  assert (ready (sections eb) st2) as Hready2
    by (eapply evolves_ready; [|exact Hev2|exact Hready1]; done).
  destruct Hev2 as (Hws2 & _).
  destruct (insert_data_calls eb (worksheets st2) (worksheet_titles st2) data st2)
    as (chunks3 & (_ & Hws3 & _) & Hlog3 & Hall3); [done|].
  assert (SheetsExportBuilder.export_tabular eb data st
          = SheetsExportBuilder._insert_data eb data st2) as ->.
  { unfold SheetsExportBuilder.export_tabular. rewrite bind_run.
    unfold SheetsExportBuilder._create_worksheets. rewrite Hrun1.
    rewrite bind_run. unfold SheetsExportBuilder._insert_headers.
    by rewrite Hrun2. }
  exists cr, hd, (concat chunks3).
  split; [by rewrite Hlog3, Hlog2, Hlog1, <- !app_assoc|].
  split; [done|]. rewrite Hws3.
  split; [intros s Hs; rewrite Hws2; by apply Hws|].
  split; [exists chunks2; by rewrite Hws2|by exists chunks3].
Qed.

(** C2. Every call to [export] issues its calls in this order.  First the
    login, the creation of the one spreadsheet and its sharing with the
    service account.  Then the creation of the worksheets: in a tabular
    export one worksheet per section, in section order, under the title
    generated for the section; in a flattened export the worksheet 'raw'.
    Then the header rows: for each section, in section order, row 1 of
    the worksheet on record for it is filled with its headers; in a
    flattened export row 1 is filled with the first line of the CSV.
    Then the data rows: for each row of each section of each record, in
    that order, a row is appended below row 1 to the worksheet on record
    for the section; in a flattened export the rows 2, 3, ... are filled
    with the further lines of the CSV.  Then, when [export_xlsform] is
    set, each sheet of the XLSForm is copied in workbook order: a
    worksheet is created, then filled row by row.  Finally the feed is
    fetched and exactly the worksheets titled 'Sheet1' are deleted, in
    the order of their creation.  A call that returns has gone through
    all of this; the only call that raises is a tabular export that stops
    at the first record whose main row is a list, having written the
    rows of the records before it.  In both cases exactly one
    spreadsheet was created. *)
Theorem export_steps_in_order (eb : ExportBuilder) (config : Config)
    (blank : Worksheet) (csv : list (list string)) (data : list (record eb))
    (xlsform : option (list xl_sheet)) (st : self) :
  let r := SheetsExportBuilder.export eb config blank csv data xlsform st in
  let start := [Login (google_token config);
                NewSpreadsheet (spreadsheet_title config);
                AddServiceAccount] in
  exists cr hd dt,
    (if flatten_repeated_fields config
     then flattened_steps csv cr hd dt
     else tabular_steps eb data (worksheet_titles st) (worksheets r.2) cr hd dt)
    /\ match r.1 with
       | Some _ =>
           let xl := xlsform_calls config xlsform (1 + length cr) in
           let dl := map DelWorksheet
                       (titled "Sheet1"
                          (title blank :: created_titles (cr ++ xl))) in
           log r.2 = log st ++ start ++ cr ++ hd ++ dt ++ xl
                       ++ GetWorksheetsFeed :: dl
       | None =>
           flatten_repeated_fields config = false
           /\ log r.2 = log st ++ start ++ cr ++ hd ++ dt
       end
    /\ spreadsheets_created (new_events st r.2) = 1.
Proof.
  intros r start.
  pose proof (export_steps_classes eb config blank csv data xlsform st)
    as (_ & _ & _ & _ & _ & _ & _ & _ & _ & _ & _ & _ & Hone).
  fold r in Hone. subst r. rewrite export_unfold in *.
  set (st0 := opened config blank st) in *.
  assert (bounded st0) as Hb0 by apply bounded_opened.
  (* the survey data *)
  assert (exists cr hd dt,
            log (export_data eb config csv data st0).2
            = log st0 ++ cr ++ hd ++ dt
            /\ (if flatten_repeated_fields config
                then flattened_steps csv cr hd dt
                else tabular_steps eb data (worksheet_titles st)
                       (worksheets (export_data eb config csv data st0).2)
                       cr hd dt)
            /\ Forall is_add cr
            /\ created_titles (hd ++ dt) = []
            /\ ((export_data eb config csv data st0).1 = None ->
                flatten_repeated_fields config = false))
    as (cr & hd & dt & Hlog4 & Hsteps & Hadd & Hnone & Hraise).
  { unfold export_data. destruct (flatten_repeated_fields config) eqn:Hflat.
    - destruct (export_flattened_calls csv st0 eq_refl)
        as (st4 & cr & hd & dt & Hrun & Hlog & Hsteps).
      rewrite Hrun. exists cr, hd, dt.
      split; [done|]. split; [done|].
      unfold flattened_steps in Hsteps.
      destruct (map (map SheetsExportBuilder.filter_na) csv) as [|first rest].
      + destruct Hsteps as (-> & -> & ->). by repeat split.
      + destruct Hsteps as (-> & -> & chunks & -> & Hall).
        split; [by repeat constructor|]. split; [|done].
        rewrite created_titles_app. simpl.
        eapply created_titles_concat; [|exact Hall].
        intros [index values] calls Hw. by eapply created_titles_row_write.
    - destruct (export_tabular_calls eb data st0)
        as (cr & hd & dt & Hlog & Hcr & Hws & (ch2 & Hhd & Hall2)
            & (ch3 & Hdt & Hall3)).
      exists cr, hd, dt. split; [done|].
      split; [split; [done|]; split; [done|]; split; by eexists|].
      split.
      { rewrite Hcr. apply creation_calls_adds. }
      split; [|done].
      rewrite created_titles_app, Hhd, Hdt.
      rewrite (created_titles_step_header _ _ _ _ Hall2).
      by rewrite (created_titles_step_data_row _ _ _ _ Hall3). }
  pose proof (opened_log config blank st) as Hlog0. fold st0 in Hlog0.
  fold start in Hlog0.
  assert (respects_at bounded tracks (export_data eb config csv data) st0)
    as [Hb4 Htr4].
  { unfold export_data. destruct (flatten_repeated_fields config).
    - by apply tracks_export_flattened.
    - by apply tracks_export_tabular. }
  exists cr, hd, dt.
  destruct (export_data eb config csv data st0) as [[[]|] st4];
    cbn [fst snd] in Hlog4, Hsteps, Hraise, Hb4, Htr4.
  - destruct (export_rest_run config xlsform st4)
      as (st5 & st6 & xl & Hrun5 & Hrun6 & Hlog5 & Hlog6 & _).
    pose proof (insert_xlsform_calls config xlsform st4) as Hxl.
    assert (respects_at bounded tracks
              (if export_xlsform config
               then SheetsExportBuilder._insert_xlsform xlsform
               else mret tt) st4) as [_ Htr5].
    { destruct (export_xlsform config);
        [by apply tracks_insert_xlsform|].
      by apply respects_ret; [apply tracks_refl|]. }
    destruct (insert_xlsform_run xlsform st4) as (st5' & _ & Hrun5' & _ & _ & _ & Hws5 & _).
    destruct (delete_default_worksheet_run st5) as (st6' & Hrun6' & _ & Hws6 & _).
    rewrite Hrun5 in Hxl, Htr5, Hone |- *. rewrite Hrun6 in Hrun6', Hone |- *.
    cbn [fst snd] in Hxl, Htr5, Hone |- *. simplify_eq.
    assert (next_id st4 = 1 + length cr) as Hnext.
    { destruct Htr4 as (evs & Hl & Hn & _). rewrite Hn.
      rewrite Hlog4 in Hl. apply app_inv_head in Hl. subst evs.
      rewrite created_titles_app, Hnone, app_nil_r.
      by rewrite created_titles_adds. }
    rewrite Hnext in Hxl. rewrite Hlog5 in Hxl. apply app_inv_head in Hxl.
    subst xl.
    pose proof (tracks_opened config blank st st5
                  (tracks_trans _ _ _ Htr4 Htr5)) as Hdl.
    fold st0 in Hdl.
    assert (log st5 = log st0 ++ cr ++ (hd ++ dt)
                        ++ xlsform_calls config xlsform (1 + length cr)) as Hfull
      by (rewrite Hlog5, Hlog4, <- !app_assoc; done).
    rewrite (new_events_app _ _ _ Hfull) in Hdl.
    rewrite created_titles_app, created_titles_app, Hnone in Hdl.
    cbn [app] in Hdl.
    split.
    { destruct (flatten_repeated_fields config); [done|].
      assert (worksheets st6' = worksheets st4) as ->; [|done].
      rewrite Hws6.
      destruct (export_xlsform config).
      - rewrite Hrun5' in Hrun5. by simplify_eq.
      - change ((Some tt, st4) = (Some tt, st5)) in Hrun5. by simplify_eq. }
    split; [|done].
    rewrite Hlog6, Hdl, Hfull, Hlog0, created_titles_app.
    by rewrite <- !app_assoc.
  - cbn [fst snd] in Hone |- *. split; [done|]. split; [|done].
    split; [by apply Hraise|]. by rewrite Hlog4, Hlog0, <- !app_assoc.
Qed.

(** ** The rows of the records in the worksheets of the sections *)

Lemma row_number_app (items more : list (section * row)) (j : nat) (s : section) :
  j <= length items ->
  row_number (items ++ more) j s = row_number items j s.
Proof. intros Hj. unfold row_number. by rewrite take_app_le. Qed.

Lemma row_number_next (items : list (section * row)) (item : section * row)
    (s : section) :
  name item.1 = name s ->
  length (filter (fun it : section * row => name it.1 = name s)
            (items ++ [item]))
  = row_number items (length items) s - 1.
Proof.
  intros Hn. unfold row_number. rewrite firstn_all, filter_app, length_app.
  rewrite filter_cons, decide_True by done. simpl. lia.
Qed.

Lemma row_number_bound (items : list (section * row)) (j : nat)
    (item : section * row) (s : section) :
  items !! j = Some item -> name item.1 = name s ->
  row_number items j s
  <= 1 + length (filter (fun it : section * row => name it.1 = name s) items).
Proof.
  intros Hj Hn. unfold row_number.
  rewrite <- (take_drop_middle items j item Hj) at 2.
  rewrite filter_app, length_app, filter_cons, decide_True by done.
  simpl. lia.
Qed.

Section DataRows.

Context (eb : ExportBuilder).
Context (wsmap : gmap string nat) (titles : gmap string string).
Context (base : list event).

Let ss := sections eb.

Hypothesis distinct_names : NoDup (map name ss).
Hypothesis distinct_sheets :
  forall s s', s ∈ ss -> s' ∈ ss ->
  wsmap !! name s = wsmap !! name s' -> name s = name s'.

Let written := rows_written eb wsmap titles base.

Lemma append_calls_app (items more : list (section * row)) :
  imap (append_calls eb wsmap titles (items ++ more)) items
  = imap (append_calls eb wsmap titles items) items.
Proof.
  apply imap_ext. intros j item Hj. unfold append_calls.
  rewrite row_number_app; [done|].
  apply lookup_lt_Some in Hj. lia.
Qed.

Lemma write_section_row_written (s : section) (h : nat) (r : row)
    (items : list (section * row)) (st : self) :
  written items st -> s ∈ ss -> wsmap !! name s = Some h ->
  exists st',
    SheetsExportBuilder.write_section_row eb s h r st
    = (Some (with_parent_title eb titles (pre_process_row eb r s)), st')
    /\ written (items ++ [(s, r)]) st'.
Proof.
  intros (Hws & Hwt & Hlog & Hsheets) Hs Hh.
  destruct (Hsheets s Hs) as (h' & w & Hh' & Hw & Hcol & Hrow & Hcells).
  assert (h' = h) as -> by congruence.
  rewrite write_section_row_run, Hwt.
  rewrite (write_row_run eb _ h _ _ st w Hw).
  fold (written_values eb titles s r).
  set (values := written_values eb titles s r).
  assert (length values = num_cols eb s) as Hlen by apply row_values_length.
  eexists. split; [reflexivity|].
  assert (row_count w + 1 = row_number items (length items) s) as Hnum.
  { unfold row_number. rewrite firstn_all, Hrow. lia. }
  destruct (append_row_grown w values) as [[Ht Hle] Hkeep].
  split; [done|]. split; [done|]. split.
  { simpl. rewrite Hlog, <- app_assoc. f_equal.
    rewrite imap_app, concat_app, append_calls_app. f_equal.
    simpl. rewrite app_nil_r, Nat.add_0_r. unfold append_calls. simpl.
    rewrite Hh, row_number_app by done.
    rewrite (proj2 (append_row_calls_shape h w values)) by lia.
    by rewrite Hnum. }
  intros s0 Hs0. simpl.
  destruct (Hsheets s0 Hs0) as (h0 & w0 & Hh0 & Hw0 & Hcol0 & Hrow0 & Hcells0).
  destruct (decide (name s0 = name s)) as [Hsame|Hother].
  - assert (h0 = h) as -> by congruence.
    assert (w0 = w) as -> by congruence.
    exists h, (append_row w values).1.
    split; [done|]. split; [apply lookup_insert_eq|].
    split.
    { rewrite append_row_unfold. simpl.
      assert ((col_count w <? length values) = false) as ->
        by (apply Nat.ltb_ge; lia).
      done. }
    split.
    { rewrite append_row_unfold. simpl.
      rewrite filter_app, length_app, filter_cons, decide_True by done.
      simpl. lia. }
    intros j item i v Hj Hn Hv.
    destruct (decide (j < length items)) as [Hlt|Hge].
    + rewrite lookup_app_l in Hj by done.
      rewrite row_number_app by lia.
      rewrite Hkeep.
      * by apply (Hcells0 j item i v).
      * pose proof (row_number_bound items j item s0 Hj Hn). lia.
    + rewrite lookup_app_r in Hj by lia.
      destruct (j - length items) as [|k] eqn:Hk; simpl in Hj; [|done].
      simplify_eq. assert (j = length items) as -> by lia.
      rewrite row_number_app by done.
      assert (row_number items (length items) s0 = row_count w + 1) as ->.
      { rewrite Hnum. unfold row_number. by rewrite Hsame. }
      by apply append_row_cells.
  - assert (h0 <> h) as Hne.
    { intros ->. apply Hother. apply distinct_sheets; [done..|congruence]. }
    exists h0, w0. split; [done|].
    split; [by rewrite lookup_insert_ne|]. split; [done|].
    split.
    { rewrite filter_app, length_app, filter_cons, decide_False; [|done].
      simpl. lia. }
    intros j item i v Hj Hn Hv.
    destruct (decide (j < length items)) as [Hlt|Hge].
    + rewrite lookup_app_l in Hj by done.
      rewrite row_number_app by lia. by apply (Hcells0 j item i v).
    + rewrite lookup_app_r in Hj by lia.
      destruct (j - length items) as [|k]; simpl in Hj; [|done].
      injection Hj as <-. simpl in Hn. congruence.
Qed.

Lemma write_rows_written (s : section) (h : nat) (rs : list row) :
  s ∈ ss -> wsmap !! name s = Some h ->
  forall items st, written items st ->
  exists st',
    for_each_changed rs (SheetsExportBuilder.write_section_row eb s h) st
    = (Some (map (fun r => with_parent_title eb titles (pre_process_row eb r s))
               rs), st')
    /\ written (items ++ map (pair s) rs) st'.
Proof.
  intros Hs Hh. induction rs as [|r rs IH]; intros items st Hwritten.
  - exists st. simpl. by rewrite app_nil_r.
  - destruct (write_section_row_written s h r items st Hwritten Hs Hh)
      as (st1 & Hrun1 & Hwritten1).
    destruct (IH _ st1 Hwritten1) as (st' & Hrun & Hwritten').
    exists st'. simpl. rewrite bind_run, Hrun1, bind_run, Hrun.
    split; [done|]. by rewrite <- app_assoc in Hwritten'.
Qed.

Lemma write_section_written (output : gmap string section_rows) (s : section)
    (items : list (section * row)) (st : self) :
  written items st -> s ∈ ss ->
  exists st',
    SheetsExportBuilder.write_section eb output s st
    = (Some (section_written eb titles output s), st')
    /\ written (items ++ map (pair s) (rows_of output s)) st'.
Proof.
  intros Hwritten Hs. pose proof Hwritten as (Hws & _ & _ & Hsheets).
  destruct (Hsheets s Hs) as (h & w & Hh & _).
  rewrite (write_section_run eb output s h st) by congruence.
  unfold section_written, rows_of.
  destruct (output !! name s) as [[r|rs]|].
  - destruct (write_section_row_written s h r items st Hwritten Hs Hh)
      as (st1 & Hrun1 & Hwritten1).
    exists st1. by rewrite bind_run, Hrun1.
  - destruct (write_rows_written s h rs Hs Hh items st Hwritten)
      as (st1 & Hrun1 & Hwritten1).
    exists st1. by rewrite bind_run, Hrun1.
  - exists st. simpl. by rewrite app_nil_r.
Qed.

Lemma write_sections_written (l : list section) :
  (forall s, s ∈ l -> s ∈ ss) -> NoDup (map name l) ->
  forall output items st, written items st ->
  exists output' st',
    for_each_on l output (SheetsExportBuilder.write_section eb) st
    = (Some output', st')
    /\ written (items ++ flat_map (fun s => map (pair s) (rows_of output s)) l)
         st'.
Proof.
  induction l as [|s l IH]; intros Hin Hnd output items st Hwritten.
  - exists output, st. simpl. by rewrite app_nil_r.
  - apply NoDup_cons in Hnd as [Hfresh Hnd].
    destruct (write_section_written output s items st Hwritten)
      as (st1 & Hrun1 & Hwritten1); [apply Hin; by left|].
    destruct (IH (fun y Hy => Hin y (list_elem_of_further _ _ _ Hy)) Hnd
                (section_written eb titles output s) _ st1 Hwritten1)
      as (output' & st' & Hrun & Hwritten').
    exists output', st'. simpl. rewrite bind_run, Hrun1, Hrun.
    split; [done|].
    assert (flat_map (fun s0 => map (pair s0)
                        (rows_of (section_written eb titles output s) s0)) l
            = flat_map (fun s0 => map (pair s0) (rows_of output s0)) l) as Heq.
    { clear -Hfresh. induction l as [|s0 l IHl]; [done|].
      apply not_elem_of_cons in Hfresh as [Hne Hfresh].
      cbn [flat_map]. rewrite (IHl Hfresh). f_equal.
      rewrite rows_of_section_written.
      rewrite decide_False; [done|]. congruence. }
    by rewrite Heq, <- app_assoc in Hwritten'.
Qed.

End DataRows.

Section RecordRows.

Context (eb : ExportBuilder).
Context (wsmap : gmap string nat) (titles : gmap string string).
Context (base : list event).

Let ss := sections eb.

Hypothesis distinct_names : NoDup (map name ss).
Hypothesis distinct_sheets :
  forall s s', s ∈ ss -> s' ∈ ss ->
  wsmap !! name s = wsmap !! name s' -> name s = name s'.

Let written := rows_written eb wsmap titles base.

Lemma write_outputs_written (outputs : list (gmap string section_rows)) :
  forall items st, written items st ->
  exists st',
    for_each outputs
      (fun output =>
         for_each_on ss output (SheetsExportBuilder.write_section eb) ;;
         mret tt) st
    = (Some tt, st')
    /\ written
         (items
            ++ flat_map (fun output =>
                           flat_map (fun s => map (pair s) (rows_of output s)) ss)
                 outputs) st'.
Proof.
  induction outputs as [|output outputs IH]; intros items st Hwritten.
  - exists st. simpl. by rewrite app_nil_r.
  - destruct (write_sections_written eb wsmap titles base distinct_sheets ss
                (fun _ H => H) distinct_names output items st Hwritten)
      as (output' & st1 & Hrun1 & Hwritten1).
    destruct (IH _ st1 Hwritten1) as (st' & Hrun & Hwritten').
    exists st'. cbn [for_each flat_map].
    rewrite bind_run, bind_run. fold ss. rewrite Hrun1. simpl. rewrite Hrun.
    split; [done|]. by rewrite <- app_assoc in Hwritten'.
Qed.

Lemma insert_data_written (data : list (record eb)) (st : self) :
  written [] st ->
  written (rows_to_write eb data) (SheetsExportBuilder._insert_data eb data st).2.
Proof.
  intros Hwritten. unfold SheetsExportBuilder._insert_data.
  rewrite insert_data_from_written.
  rewrite insert_data_from_numbered by apply written_records_dicts.
  destruct (write_outputs_written
              (numbered_outputs eb 1 (no_indices eb)
                 (written_records eb 1 (no_indices eb) data)) [] st Hwritten)
    as (st' & Hrun & Hwritten').
  fold ss. by rewrite Hrun.
Qed.

End RecordRows.

Section HeadedSheets.

Context (eb : ExportBuilder).

Let ss := sections eb.

Let headed (st : self) : Prop :=
  rows_written eb (worksheets st) (worksheet_titles st) (log st) [] st.

Lemma headed_intro (st : self) :
  (forall s, s ∈ ss ->
     exists h w, worksheets st !! name s = Some h
                 /\ spreadsheet st !! h = Some w
                 /\ col_count w = num_cols eb s /\ row_count w = 1) ->
  headed st.
Proof.
  intros Hsheets. split; [done|]. split; [done|].
  split; [simpl; by rewrite app_nil_r|].
  intros s Hs. destruct (Hsheets s Hs) as (h & w & Hh & Hw & Hc & Hr).
  exists h, w. by repeat split.
Qed.

Lemma headed_sheets (st : self) (s : section) :
  headed st -> s ∈ ss ->
  exists h w, worksheets st !! name s = Some h
              /\ spreadsheet st !! h = Some w
              /\ col_count w = num_cols eb s /\ row_count w = 1.
Proof.
  intros (_ & _ & _ & Hsheets) Hs.
  destruct (Hsheets s Hs) as (h & w & Hh & Hw & Hc & Hr & _).
  exists h, w. by repeat split.
Qed.

Lemma headed_created (st : self) :
  NoDup (map name ss) ->
  headed (SheetsExportBuilder._create_worksheets eb st).2.
Proof.
  intros Hnd.
  destruct (create_worksheets_run eb ss st)
    as (st1 & cr & Hrun & Hlog & Hcr & _ & _ & _ & _ & Hnew & _ & Hws).
  unfold SheetsExportBuilder._create_worksheets. fold ss. rewrite Hrun.
  apply headed_intro.
  intros s Hs. destruct (Hws s Hs) as (i & s' & Hh & Hi & Hn).
  apply list_elem_of_lookup_1 in Hs as [j Hj].
  assert (j = i) as -> by (eapply NoDup_names_index; done).
  assert (Some s' = Some s) as [= ->] by (rewrite <- Hi; exact Hj).
  destruct (Hnew i s Hi) as (w & Hw & Hr & Hc & _).
  by exists (next_id st + i), w.
Qed.

Lemma headed_insert_headers (l : list section) :
  (forall s, s ∈ l -> s ∈ ss) ->
  forall st, headed st ->
  headed (for_each l (SheetsExportBuilder.insert_header eb) st).2.
Proof.
  induction l as [|s l IH]; intros Hin st Hheaded; [done|].
  destruct (headed_sheets st s Hheaded) as (h & w & Hh & Hw & Hc & Hr);
    [apply Hin; by left|].
  simpl. rewrite bind_run, (insert_header_eq eb s st h w Hh Hw).
  apply IH; [intros y Hy; apply Hin; by right|].
  apply headed_intro. intros s0 Hs0. simpl.
  destruct (headed_sheets st s0 Hheaded Hs0) as (h0 & w0 & Hh0 & Hw0 & Hc0 & Hr0).
  destruct (decide (h0 = h)) as [->|Hne].
  - assert (w0 = w) as -> by congruence.
    exists h, (update_row w 1 (SheetsExportBuilder.headers eb s)).1.
    split; [done|]. split; [apply lookup_insert_eq|].
    rewrite update_row_width, headers_length.
    split; [lia|]. by rewrite update_row_unfold.
  - exists h0, w0. split; [done|]. split; [by rewrite lookup_insert_ne|done].
Qed.

End HeadedSheets.

Lemma export_tabular_stages (eb : ExportBuilder) (data : list (record eb))
    (st : self) :
  let st2 := (SheetsExportBuilder._insert_headers eb
                (SheetsExportBuilder._create_worksheets eb st).2).2 in
  exists cr hd,
    SheetsExportBuilder.export_tabular eb data st
    = SheetsExportBuilder._insert_data eb data st2
    /\ log st2 = log st ++ cr ++ hd
    /\ Forall is_add cr
    /\ Forall is_header_write hd
    /\ (forall s, s ∈ sections eb ->
          exists i s', worksheets st2 !! name s = Some (next_id st + i)
                       /\ sections eb !! i = Some s' /\ name s' = name s).
Proof.
  destruct (create_worksheets_run eb (sections eb) st)
    as (st1 & cr & Hrun1 & Hlog1 & Hadd & _ & _ & _ & _ & Hnew & _ & Hws).
  assert (ready (sections eb) st1) as Hready1.
  { intros s Hs. destruct (Hws s Hs) as (i & s' & Hh & Hi & _).
    destruct (Hnew i s' Hi) as (w & Hw & Hr & _).
    exists (next_id st + i), w. split; [done|]. split; [done|lia]. }
  destruct (insert_headers_run eb (sections eb) (fun _ H => H) st1 Hready1)
    as (st2 & hd & Hrun2 & Hlog2 & Hhd & _ & (Hws2 & _)).
  unfold SheetsExportBuilder.export_tabular,
    SheetsExportBuilder._create_worksheets, SheetsExportBuilder._insert_headers.
  rewrite bind_run, Hrun1, bind_run. cbn [fst snd]. rewrite Hrun2. cbn [fst snd].
  exists cr, hd. split; [done|].
  split; [by rewrite Hlog2, Hlog1, app_assoc|]. split; [done|]. split; [done|].
  intros s Hs. rewrite Hws2. by apply Hws.
Qed.

Lemma rows_to_write_sections (eb : ExportBuilder) (data : list (record eb))
    (j : nat) (s : section) (r : row) :
  rows_to_write eb data !! j = Some (s, r) -> s ∈ sections eb.
Proof.
  intros Hj. apply list_elem_of_lookup_2 in Hj. apply list_elem_of_In in Hj.
  unfold rows_to_write in Hj.
  apply in_flat_map in Hj as (output & _ & Hj).
  apply in_flat_map in Hj as (s' & Hs' & Hj).
  apply in_map_iff in Hj as (r' & [= -> ->] & _).
  by apply list_elem_of_In.
Qed.

(** C4. In a tabular export of a form whose sections have distinct names,
    the calls that follow the creation of the worksheets and the header
    rows are, for each row of each section of each record written, in
    the order of the loops of [_insert_data], the two calls that append
    the row to the worksheet on record for the section: a row is added,
    then filled with the values of the (pre-processed) row looked up at
    the xpaths of the elements of the section, in element order, followed
    by those looked up at the extra fields, the parent table name having
    been replaced by its title.  The row lands below the header row and
    the rows written before it for the section, and the worksheet holds
    its values there at the end.  The row has as many values as the
    section has elements and extra fields, and its value number [i]
    belongs to the field number [i]. *)
Theorem data_rows_follow_fields (eb : ExportBuilder) (data : list (record eb))
    (st : self) :
  NoDup (map name (sections eb)) ->
  let st' := (SheetsExportBuilder.export_tabular eb data st).2 in
  let titles := worksheet_titles st' in
  let items := rows_to_write eb data in
  exists before chunks,
    new_events st st' = before ++ concat chunks
    /\ Forall (fun e => ~ adds_row e) before
    /\ length chunks = length items
    /\ forall j s r, items !! j = Some (s, r) ->
         let record := pre_process_row eb r s in
         let looked_up := dict_get (with_parent_title eb titles record) in
         let values := map looked_up (map xpath (elements s))
                       ++ map looked_up (EXTRA_FIELDS eb) in
         let n := row_number items j s in
         (exists h w,
            worksheets st' !! name s = Some h
            /\ chunks !! j
               = Some [OnWorksheet h (AddRows 1);
                       OnWorksheet h (UpdateCells (row_cells n values))]
            /\ spreadsheet st' !! h = Some w
            /\ forall i v, values !! i = Some v ->
                 cells w !! (n, S i) = Some v)
         /\ length values = length (elements s) + length (EXTRA_FIELDS eb)
         /\ (forall i e, elements s !! i = Some e ->
               values !! i = Some (looked_up (xpath e)))
         /\ (forall f, f <> PARENT_TABLE_NAME eb ->
               looked_up f = dict_get record f).
Proof.
  intros Hnd st' titles items. subst st' titles.
  destruct (export_tabular_stages eb data st)
    as (cr & hd & Hrun & Hlog & Hcr & Hhd & Hws).
  set (st2 := (SheetsExportBuilder._insert_headers eb
                 (SheetsExportBuilder._create_worksheets eb st).2).2) in *.
  rewrite Hrun.
  assert (rows_written eb (worksheets st2) (worksheet_titles st2) (log st2) [] st2)
    as Hheaded.
  { apply (headed_insert_headers eb (sections eb) (fun _ H => H)).
    by apply headed_created. }
  assert (forall s s', s ∈ sections eb -> s' ∈ sections eb ->
            worksheets st2 !! name s = worksheets st2 !! name s' ->
            name s = name s') as Hinj.
  { intros s s' Hs Hs' Heq.
    destruct (Hws s Hs) as (i & s1 & Hi & Hl & Hn).
    destruct (Hws s' Hs') as (i' & s1' & Hi' & Hl' & Hn').
    rewrite Hi, Hi' in Heq. assert (i = i') as -> by (simplify_eq; lia).
    congruence. }
  destruct (insert_data_written eb (worksheets st2) (worksheet_titles st2)
              (log st2) Hnd Hinj data st2 Hheaded)
    as (Hws' & Hwt' & Hlog' & Hsheets).
  set (st' := (SheetsExportBuilder._insert_data eb data st2).2) in *.
  exists (cr ++ hd),
    (imap (append_calls eb (worksheets st2) (worksheet_titles st2) items) items).
  split; [apply new_events_app; by rewrite Hlog', Hlog, <- !app_assoc|].
  split.
  { apply Forall_app. split.
    - eapply Forall_impl; [exact Hcr|]. apply is_add_no_row.
    - eapply Forall_impl; [exact Hhd|]. apply is_header_write_no_row. }
  split; [apply length_imap|].
  intros j s r Hj record looked_up values n.
  assert (written_values eb (worksheet_titles st2) s r = values) as Hvalues.
  { subst values looked_up record. rewrite Hwt'.
    unfold written_values, SheetsExportBuilder.row_values,
      SheetsExportBuilder.fields.
    by rewrite map_app. }
  split; [|split; [|split]].
  - destruct (Hsheets s (rows_to_write_sections eb data j s r Hj))
      as (h & w & Hh & Hw & _ & _ & Hcells).
    exists h, w. rewrite Hws'. split; [done|]. split; [|split; [done|]].
    + rewrite list_lookup_imap. fold items. rewrite Hj. simpl.
      unfold append_calls. simpl. by rewrite Hh, Hvalues.
    + intros i v Hv. apply (Hcells j (s, r) i v); [done|done|].
      simpl. by rewrite Hvalues.
  - subst values. by rewrite length_app, !length_map.
  - intros i e He. subst values.
    rewrite lookup_app_l by (rewrite !length_map; by eapply lookup_lt_Some).
    by rewrite !list_lookup_fmap, He.
  - intros f Hf. by apply with_parent_title_other.
Qed.

Lemma data_rows_follow_fields_witness :
  let st' := (SheetsExportBuilder.export_tabular Demo.builder [Demo.alice]
                Demo.fresh).2 in
  exists before chunks,
    new_events Demo.fresh st' = before ++ concat chunks
    /\ chunks !! 1
       = Some [OnWorksheet 1 (AddRows 1);
               OnWorksheet 1
                 (UpdateCells
                    (row_cells 2 [VInt 31; VNone; VStr "census"; VInt 1]))].
Proof.
  intros st'.
  destruct (data_rows_follow_fields Demo.builder [Demo.alice] Demo.fresh
              (demo_names_distinct "census" ltac:(discriminate)))
    as (before & chunks & Hlog & _ & _ & Hrows).
  exists before, chunks. split; [exact Hlog|].
  pose (child := <["_parent_table_name" := VStr "census"]>
                   (<["_parent_index" := VInt 1]>
                      ({[ "household/members/age" := VInt 31 ]} : row))).
  assert (rows_to_write Demo.builder [Demo.alice] !! 1
          = Some (Demo.members, child)) as Hitem
    by (vm_compute; reflexivity).
  destruct (Hrows 1 Demo.members child Hitem) as ((h & w & Hh & Hchunk & _) & _).
  assert (worksheets st' !! name Demo.members = Some 1) as Hone
    by (vm_compute; reflexivity).
  assert (h = 1) as ->.
  { fold st' in Hh. rewrite Hone in Hh. injection Hh as <-. reflexivity. }
  etransitivity; [exact Hchunk|]. vm_compute. reflexivity.
Defined.

(** ** A row written twice *)

(** X16. [write_row] assigns to the row data it is given, so a second
    call on the same dict starts from the parent table the first call
    left: where the first call writes the title recorded for the parent
    table name, the second writes what [worksheet_titles] records for
    that title, which is [None] unless the title is itself the name of a
    section on record.  Both rows are appended one below the other. *)
Theorem write_row_twice (eb : ExportBuilder) (data : row) (ws : nat)
    (fields : list string) (titles : gmap string string) (st : self)
    (w : Worksheet) (i : nat) :
  spreadsheet st !! ws = Some w ->
  fields !! i = Some (PARENT_TABLE_NAME eb) ->
  let first := SheetsExportBuilder.write_row eb data ws fields titles st in
  let once :=
    SheetsExportBuilder.titles_get titles (dict_get data (PARENT_TABLE_NAME eb)) in
  exists left_by_first,
    first.1 = Some left_by_first
    /\ left_by_first !! PARENT_TABLE_NAME eb = Some once
    /\ let second :=
         SheetsExportBuilder.write_row eb left_by_first ws fields titles first.2 in
       exists w2,
         spreadsheet second.2 !! ws = Some w2
         /\ row_count w2 = row_count w + 2
         /\ cells w2 !! (row_count w + 1, S i) = Some once
         /\ cells w2 !! (row_count w + 2, S i)
            = Some (SheetsExportBuilder.titles_get titles once).
Proof.
  intros Hw Hi first once. subst first.
  rewrite (write_row_run eb data ws fields titles st w Hw). cbn [fst snd].
  exists (with_parent_title eb titles data).
  split; [done|]. split; [apply lookup_insert_eq|].
  set (values1 := SheetsExportBuilder.row_values eb data fields titles).
  set (w1 := (append_row w values1).1).
  set (st1 := mkSelf _ _ _ _ _).
  assert (spreadsheet st1 !! ws = Some w1) as Hw1 by apply lookup_insert_eq.
  rewrite (write_row_run eb _ ws fields titles st1 w1 Hw1). cbn [fst snd].
  set (values2 := SheetsExportBuilder.row_values eb _ fields titles).
  assert (row_count w1 = row_count w + 1) as Hr1
    by (subst w1; by rewrite append_row_unfold).
  assert (values1 !! i = Some once) as Hv1.
  { subst values1. rewrite row_values_lookup, Hi. simpl.
    by rewrite with_parent_title_parent. }
  assert (values2 !! i = Some (SheetsExportBuilder.titles_get titles once))
    as Hv2.
  { subst values2. rewrite row_values_lookup, Hi. simpl.
    rewrite with_parent_title_parent. do 2 f_equal.
    apply with_parent_title_parent. }
  exists (append_row w1 values2).1. simpl.
  split; [apply lookup_insert_eq|].
  split; [rewrite append_row_unfold; simpl; lia|].
  split.
  - destruct (append_row_grown w1 values2) as [_ Hkeep].
    rewrite Hkeep by lia. subst w1. by apply append_row_cells.
  - replace (row_count w + 2) with (row_count w1 + 1) by lia.
    by apply append_row_cells.
Qed.

Lemma write_row_twice_witness :
  let st := mkSelf {[ 2 := mkWorksheet "household_members" 1 4 ∅ ]} 3 [] ∅ ∅ in
  let titles : gmap string string := {[ "census" := "census1" ]}%string in
  let data : row := {[ "_parent_table_name" := VStr "census" ]}%string in
  let fields := ["household/members/age"; "_index"; "_parent_table_name"]%string in
  let first := SheetsExportBuilder.write_row Demo.builder data 2 fields titles st in
  exists left_by_first w2,
    first.1 = Some left_by_first
    /\ spreadsheet
         (SheetsExportBuilder.write_row Demo.builder left_by_first 2 fields
            titles first.2).2 !! 2 = Some w2
    /\ cells w2 !! (2, 3) = Some (VStr "census1")
    /\ cells w2 !! (3, 3) = Some VNone.
Proof.
  intros st titles data fields first.
  destruct (write_row_twice Demo.builder data 2 fields titles st
              (mkWorksheet "household_members" 1 4 ∅) 2 eq_refl eq_refl)
    as (left_by_first & Hfirst & _ & w2 & Hw2 & _ & Hc1 & Hc2).
  exists left_by_first, w2.
  split; [exact Hfirst|]. split; [exact Hw2|].
  split; [exact Hc1|exact Hc2].
Defined.

Lemma export_steps_in_order_witness :
  let r := SheetsExportBuilder.export Demo.builder Demo.tabular Demo.blank []
             [Demo.alice] (Some [Demo.survey_sheet]) Demo.fresh in
  exists hd dt,
    log r.2
    = [Login "token"; NewSpreadsheet "census 2014"; AddServiceAccount]
        ++ [AddWorksheet "census" 1 5; AddWorksheet "household_members" 1 4]
        ++ hd ++ dt
        ++ [AddWorksheet "survey" 2 2;
            OnWorksheet 3 (UpdateCells (row_cells 1 [VInt 0; VInt 1]));
            OnWorksheet 3 (UpdateCells (row_cells 2 [VInt 10; VInt 11]))]
        ++ [GetWorksheetsFeed; DelWorksheet 0].
Proof.
  intros r.
  destruct (export_steps_in_order Demo.builder Demo.tabular Demo.blank []
              [Demo.alice] (Some [Demo.survey_sheet]) Demo.fresh)
    as (cr & hd & dt & Hsteps & Hlog & _).
  cbn [flatten_repeated_fields Demo.tabular] in Hsteps.
  destruct Hsteps as (Hcr & _).
  assert (creation_calls Demo.builder (worksheet_titles Demo.fresh)
          = [AddWorksheet "census" 1 5; AddWorksheet "household_members" 1 4])
    as Hcalls by (vm_compute; reflexivity).
  rewrite Hcalls in Hcr. subst cr.
  assert (r.1 = Some tt) as Hret by (vm_compute; reflexivity).
  unfold r in Hret. rewrite Hret in Hlog. cbv zeta in Hlog.
  assert (xlsform_calls Demo.tabular (Some [Demo.survey_sheet])
            (1 + length [AddWorksheet "census" 1 5;
                         AddWorksheet "household_members" 1 4])
          = [AddWorksheet "survey" 2 2;
             OnWorksheet 3 (UpdateCells (row_cells 1 [VInt 0; VInt 1]));
             OnWorksheet 3 (UpdateCells (row_cells 2 [VInt 10; VInt 11]))])
    as Hxl by (vm_compute; reflexivity).
  rewrite Hxl in Hlog.
  assert (titled "Sheet1"
            (title Demo.blank
               :: created_titles
                    ([AddWorksheet "census" 1 5;
                      AddWorksheet "household_members" 1 4]
                       ++ [AddWorksheet "survey" 2 2;
                           OnWorksheet 3
                             (UpdateCells (row_cells 1 [VInt 0; VInt 1]));
                           OnWorksheet 3
                             (UpdateCells (row_cells 2 [VInt 10; VInt 11]))]))
          = [0]) as Hdl by (vm_compute; reflexivity).
  rewrite Hdl in Hlog.
  exists hd, dt. exact Hlog.
Defined.
